(** * The finance ledger service (services/financeService.ts)

    A shallow embedding of the service that owns the persisted finance
    document: [normalizeData], [saveData], [loadFinanceData] and the six
    mutations [addCategory], [addEntry], [updateCategory], [deleteCategory],
    [updateEntry], [deleteEntry].

    - JavaScript values are the inductive [JSValue]; numbers are IEEE 754
      binary64 floats, as in the language.
    - The application-settings key and [crypto.randomUUID] are the two
      components of [World]; the service is written in a state monad over it.
    - [JSON.stringify] followed by [JSON.parse] is [jsonify].
    - The callers of the service are modelled after it: the date, period
      and label functions of the list view, [saveEntry] of the entry form
      and [saveCategory] of the category form. *)

From Stdlib Require Import List String Ascii Bool Arith Lia Floats ZArith
  DecimalString.
Import ListNotations.
Local Open Scope string_scope.
Local Open Scope list_scope.

Set Implicit Arguments.
Set Warnings "-register-all".

(** ** JavaScript values *)

(** What [JSON.parse] can return, plus [undefined], which property reads
    produce.  [JObj ps] lists the own properties in enumeration order. *)
Inductive JSValue : Type :=
| JUndefined
| JNull
| JBool (b : bool)
| JNum (x : float)
| JStr (s : string)
| JArr (items : list JSValue)
| JObj (props : list (string * JSValue)).

(** [export type CategoryType = "income" | "expense"] *)
Inductive CategoryType : Type := income | expense.

Definition type_string (t : CategoryType) : string :=
  match t with income => "income" | expense => "expense" end.

Definition CategoryType_eqb (a b : CategoryType) : bool :=
  match a, b with
  | income, income | expense, expense => true
  | _, _ => false
  end.

Module JS.

(** Property lookup in a property list. *)
Fixpoint assoc (k : string) (ps : list (string * JSValue)) : JSValue :=
  match ps with
  | [] => JUndefined
  | (k', v) :: r => if String.eqb k k' then v else assoc k r
  end.

(** [o.k] for a value [o] that is not null or undefined (the service guards
    every read with [item &&] or [?.]).  The keys the service reads are
    never own properties of arrays, strings, numbers or booleans. *)
Definition prop (k : string) (o : JSValue) : JSValue :=
  match o with
  | JObj ps => assoc k ps
  | _ => JUndefined
  end.

(** [o?.k] *)
Definition opt_prop (k : string) (o : JSValue) : JSValue := prop k o.

(** Assignment [o.k = v] on a property list: an existing property keeps its
    place, a new one goes last. *)
Fixpoint assign (k : string) (v : JSValue) (ps : list (string * JSValue))
  : list (string * JSValue) :=
  match ps with
  | [] => [(k, v)]
  | (k', v') :: r =>
      if String.eqb k k' then (k', v) :: r else (k', v') :: assign k v r
  end.

Definition set_prop (k : string) (v : JSValue) (o : JSValue) : JSValue :=
  match o with
  | JObj ps => JObj (assign k v ps)
  | _ => o
  end.

(** [Number.isFinite] *)
Definition Number_isFinite (x : float) : bool :=
  negb (is_nan x) && negb (is_infinity x).

(** ToBoolean *)
Definition truthy (v : JSValue) : bool :=
  match v with
  | JUndefined | JNull => false
  | JBool b => b
  | JNum x => negb (is_nan x) && negb (PrimFloat.eqb x 0)
  | JStr s => negb (String.eqb s "")
  | JArr _ | JObj _ => true
  end.

(** [typeof v === "string"], [typeof v === "number"], [Array.isArray(v)] *)
Definition is_string (v : JSValue) : bool :=
  match v with JStr _ => true | _ => false end.
Definition is_number (v : JSValue) : bool :=
  match v with JNum _ => true | _ => false end.
Definition array_or_empty (v : JSValue) : list JSValue :=
  match v with JArr l => l | _ => [] end.

(** [v === s] for a string [s]. *)
Definition eq_str (v : JSValue) (s : string) : bool :=
  match v with JStr s' => String.eqb s' s | _ => false end.

(** [a === b].  Arrays and objects compare by reference, which this model
    does not carry; the service only compares [type] properties that passed
    the checks of [normalizeData], which are strings. *)
Definition strict_eq (a b : JSValue) : bool :=
  match a, b with
  | JUndefined, JUndefined | JNull, JNull => true
  | JBool x, JBool y => Bool.eqb x y
  | JNum x, JNum y => PrimFloat.eqb x y
  | JStr x, JStr y => String.eqb x y
  | _, _ => false
  end.

(** *** String.prototype.trim on UTF-8 text *)

Definition ws1 (a : ascii) : bool :=
  let n := nat_of_ascii a in
  (((9 <=? n) && (n <=? 13)) || (n =? 32))%nat.

(** U+00A0 *)
Definition ws2 (a b : ascii) : bool :=
  ((nat_of_ascii a =? 194) && (nat_of_ascii b =? 160))%nat.

(** U+1680, U+2000..U+200A, U+2028, U+2029, U+202F, U+205F, U+3000, U+FEFF *)
Definition ws3 (a b c : ascii) : bool :=
  let x := nat_of_ascii a in
  let y := nat_of_ascii b in
  let z := nat_of_ascii c in
  (((x =? 225) && (y =? 154) && (z =? 128))
   || ((x =? 226) && (y =? 128)
       && (((128 <=? z) && (z <=? 138)) || (z =? 168) || (z =? 169) || (z =? 175)))
   || ((x =? 226) && (y =? 129) && (z =? 159))
   || ((x =? 227) && (y =? 128) && (z =? 128))
   || ((x =? 239) && (y =? 187) && (z =? 191)))%nat.

(** Strips white space from the front of a byte list; with [back] the list
    is a reversed string, and multi-byte characters are read backwards. *)
Fixpoint strip (back : bool) (l : list ascii) : list ascii :=
  match l with
  | [] => []
  | a :: r =>
      if ws1 a then strip back r
      else
        match r with
        | b :: r2 =>
            if (if back then ws2 b a else ws2 a b) then strip back r2
            else
              match r2 with
              | c :: r3 =>
                  if (if back then ws3 c b a else ws3 a b c)
                  then strip back r3
                  else l
              | [] => l
              end
        | [] => l
        end
  end.

Definition trimStart (s : string) : string :=
  string_of_list_ascii (strip false (list_ascii_of_string s)).

Definition trimEnd (s : string) : string :=
  string_of_list_ascii (rev (strip true (rev (list_ascii_of_string s)))).

Definition trim (s : string) : string := trimEnd (trimStart s).

(** *** JSON *)

(** What a number becomes when written by [JSON.stringify] and read back:
    non-finite numbers are written as [null], negative zero as [0]. *)
Definition jsonify_number (x : float) : JSValue :=
  if Number_isFinite x
  then (if PrimFloat.eqb x 0 then JNum 0 else JNum x)
  else JNull.

(** [JSON.parse(JSON.stringify(v))] for a value [v] inside a document:
    [undefined] is written as [null] in an array and the property is left
    out in an object. *)
Fixpoint jsonify (v : JSValue) : JSValue :=
  match v with
  | JUndefined => JNull
  | JNull => JNull
  | JBool b => JBool b
  | JNum x => jsonify_number x
  | JStr s => JStr s
  | JArr l => JArr (map jsonify l)
  | JObj ps =>
      JObj ((fix props (ps : list (string * JSValue)) :=
               match ps with
               | [] => []
               | (_, JUndefined) :: r => props r
               | (k, v) :: r => (k, jsonify v) :: props r
               end) ps)
  end.

End JS.

(** ** The world the service runs in *)

(** The string stored under a settings key, as the service observes it:
    [Empty] is the empty string (also returned for a missing key), [Malformed]
    a non-empty string on which [JSON.parse] throws, and [Json v] a string
    that [JSON.parse] reads as [v]. *)
Inductive Text : Type :=
| Empty
| Malformed
| Json (v : JSValue).

(** [JSON.stringify] of an object or array. *)
Definition JSON_stringify (v : JSValue) : Text := Json (JS.jsonify v).

(** [JSON.parse]; [None] when it throws. *)
Definition JSON_parse (t : Text) : option JSValue :=
  match t with
  | Json v => Some v
  | Empty | Malformed => None
  end.

(** [settings] is the value under [DATA_KEY]; [uuids] is the sequence of
    values [crypto.randomUUID] hands out and [drawn] how many were taken. *)
Record World : Type := mkWorld {
  settings : Text;
  uuids : nat -> string;
  drawn : nat
}.

Definition M (A : Type) : Type := World -> A * World.

Definition ret {A} (a : A) : M A := fun w => (a, w).

Definition bind {A B} (m : M A) (k : A -> M B) : M B :=
  fun w => let (a, w') := m w in k a w'.

Declare Scope service_scope.
Delimit Scope service_scope with service.
Notation "x <- m ;; k" := (bind m (fun x => k))
  (at level 61, m at next level, right associativity) : service_scope.
Notation "m ;;; k" := (bind m (fun _ => k))
  (at level 61, right associativity) : service_scope.
Local Open Scope service_scope.

(** [getString(DATA_KEY, "")] *)
Definition getString : M Text := fun w => (settings w, w).

(** [setString(DATA_KEY, t)] *)
Definition setString (t : Text) : M unit :=
  fun w => (tt, mkWorld t (uuids w) (drawn w)).

Definition randomUUID : M string :=
  fun w => (uuids w (drawn w), mkWorld (settings w) (uuids w) (S (drawn w))).

(** ** The service *)

(** [interface FinanceData].  The members of both arrays are the objects as
    parsed: the casts [as Category[]] and [as Entry[]] copy nothing. *)
Record FinanceData : Type := mkData {
  categories : list JSValue;
  entries : list JSValue
}.

(** The object [{ categories, entries }] handed to [JSON.stringify]. *)
Definition data_value (d : FinanceData) : JSValue :=
  JObj [("categories", JArr (categories d)); ("entries", JArr (entries d))].

(** [Omit<Entry, "id">], with [note] optional as [?? ""] allows. *)
Record EntryInput : Type := mkInput {
  in_type : CategoryType;
  in_categoryId : string;
  in_amount : float;
  in_date : string;
  in_note : option string
}.

(** The object literal the entry form passes:
    [{ type, categoryId, amount, date, note }]. *)
Definition input_value (i : EntryInput) : JSValue :=
  JObj ([("type", JStr (type_string (in_type i)));
         ("categoryId", JStr (in_categoryId i));
         ("amount", JNum (in_amount i));
         ("date", JStr (in_date i))]
        ++ match in_note i with
           | Some s => [("note", JStr s)]
           | None => []
           end).

(** [input.note ?? ""] *)
Definition note_or_empty (i : EntryInput) : string :=
  match in_note i with Some s => s | None => "" end.

(** [{ data, error? }] *)
Record Result : Type := mkResult {
  data : FinanceData;
  error : option string
}.

Definition err_category_name : string := "Введите название категории.".
Definition err_category_not_found : string := "Категория не найдена.".
Definition err_need_each_type : string := "Нужна хотя бы одна категория каждого типа.".
Definition err_category_in_use : string := "Категория используется в записях.".
Definition err_entry_not_found : string := "Запись не найдена.".
Definition err_amount : string := "Введите сумму больше 0.".

Definition createId (prefix : string) : M string :=
  u <- randomUUID ;;
  ret (prefix ++ "_" ++ u)%string.

Definition category_value (id name : string) (t : CategoryType) : JSValue :=
  JObj [("id", JStr id); ("name", JStr name); ("type", JStr (type_string t))].

Definition buildDefaultCategories : M (list JSValue) :=
  i <- createId "cat" ;;
  e <- createId "cat" ;;
  ret [category_value i "Зарплата" income; category_value e "Еда" expense].

(** [cat.type === "income"] and [cat.type === "expense"] *)
Definition has_type (t : CategoryType) (cat : JSValue) : bool :=
  JS.eq_str (JS.prop "type" cat) (type_string t).

(** The predicate of [categories.filter] in [normalizeData]. *)
Definition category_ok (item : JSValue) : bool :=
  JS.truthy item
  && JS.is_string (JS.prop "id" item)
  && JS.is_string (JS.prop "name" item)
  && (has_type income item || has_type expense item).

(** The predicate of [entries.filter] in [normalizeData]. *)
Definition entry_ok (item : JSValue) : bool :=
  JS.truthy item
  && JS.is_string (JS.prop "id" item)
  && JS.is_string (JS.prop "categoryId" item)
  && JS.is_number (JS.prop "amount" item)
  && JS.is_string (JS.prop "date" item)
  && (has_type income item || has_type expense item).

(** [sanitizedCategories.push(defaults.find(p)!)] *)
Definition push_found (p : JSValue -> bool) (defaults l : list JSValue)
  : list JSValue :=
  l ++ [match find p defaults with Some c => c | None => JUndefined end].

Definition normalizeData (raw : JSValue) : M FinanceData :=
  let categories := JS.array_or_empty (JS.opt_prop "categories" raw) in
  let entries := JS.array_or_empty (JS.opt_prop "entries" raw) in
  let sanitizedCategories := filter category_ok categories in
  let sanitizedEntries := filter entry_ok entries in
  let hasIncome := existsb (has_type income) sanitizedCategories in
  let hasExpense := existsb (has_type expense) sanitizedCategories in
  if negb hasIncome || negb hasExpense then
    defaults <- buildDefaultCategories ;;
    let withIncome :=
      if negb hasIncome
      then push_found (has_type income) defaults sanitizedCategories
      else sanitizedCategories in
    let withExpense :=
      if negb hasExpense
      then push_found (has_type expense) defaults withIncome
      else withIncome in
    ret (mkData withExpense sanitizedEntries)
  else
    ret (mkData sanitizedCategories sanitizedEntries).

Definition saveData (d : FinanceData) : M unit :=
  setString (JSON_stringify (data_value d)).

(** The document built when nothing usable is stored. *)
Definition fresh_document : M FinanceData :=
  cats <- buildDefaultCategories ;;
  let data := mkData cats [] in
  saveData data ;;;
  ret data.

Definition loadFinanceData : M FinanceData :=
  raw <- getString ;;
  match raw with
  | Empty => fresh_document
  | _ =>
      match JSON_parse raw with
      | Some parsed =>
          data <- normalizeData parsed ;;
          saveData data ;;;
          ret data
      | None => fresh_document
      end
  end.

Definition addCategory (name : string) (t : CategoryType) : M FinanceData :=
  data <- loadFinanceData ;;
  let trimmed := JS.trim name in
  if String.eqb trimmed "" then ret data
  else
    id <- createId "cat" ;;
    let newCategory := category_value id trimmed t in
    let data := mkData (categories data ++ [newCategory]) (entries data) in
    saveData data ;;;
    ret data.

(** [cat.id === id], [entry.categoryId === id] *)
Definition has_id (id : string) (item : JSValue) : bool :=
  JS.eq_str (JS.prop "id" item) id.
Definition refers_to (id : string) (entry : JSValue) : bool :=
  JS.eq_str (JS.prop "categoryId" entry) id.

(** [{ ...input, id, note: input.note ?? "" }] *)
Definition new_entry (input : EntryInput) (id : string) : JSValue :=
  JS.set_prop "note" (JStr (note_or_empty input))
    (JS.set_prop "id" (JStr id) (input_value input)).

Definition addEntry (input : EntryInput) : M FinanceData :=
  data <- loadFinanceData ;;
  let categoryExists := existsb (has_id (in_categoryId input)) (categories data) in
  if negb categoryExists then ret data
  else
    id <- createId "entry" ;;
    let entry := new_entry input id in
    let data := mkData (categories data) (entry :: entries data) in
    saveData data ;;;
    ret data.

(** Mutation through the reference that [Array.prototype.find] returned: the
    first member satisfying [p] is replaced by [f] of it. *)
Fixpoint mutate_found (p : JSValue -> bool) (f : JSValue -> JSValue)
  (l : list JSValue) : list JSValue :=
  match l with
  | [] => []
  | x :: r => if p x then f x :: r else x :: mutate_found p f r
  end.

(** [data.categories.filter((cat) => cat.type === category.type).length] *)
Definition sameTypeCount (category : JSValue) (cats : list JSValue) : nat :=
  List.length (filter (fun cat => JS.strict_eq (JS.prop "type" cat) (JS.prop "type" category)) cats).

Definition updateCategory (id name : string) (t : CategoryType) : M Result :=
  data <- loadFinanceData ;;
  let trimmed := JS.trim name in
  if String.eqb trimmed "" then ret (mkResult data (Some err_category_name))
  else
    match find (has_id id) (categories data) with
    | None => ret (mkResult data (Some err_category_not_found))
    | Some category =>
        if negb (has_type t category)
           && (sameTypeCount category (categories data) <=? 1)%nat
        then ret (mkResult data (Some err_need_each_type))
        else
          let rename cat :=
            JS.set_prop "type" (JStr (type_string t))
              (JS.set_prop "name" (JStr trimmed) cat) in
          let data :=
            mkData (mutate_found (has_id id) rename (categories data))
                   (entries data) in
          saveData data ;;;
          ret (mkResult data None)
    end.

Definition deleteCategory (id : string) : M Result :=
  data <- loadFinanceData ;;
  match find (has_id id) (categories data) with
  | None => ret (mkResult data (Some err_category_not_found))
  | Some category =>
      let used := existsb (refers_to id) (entries data) in
      if used then ret (mkResult data (Some err_category_in_use))
      else if (sameTypeCount category (categories data) <=? 1)%nat
      then ret (mkResult data (Some err_need_each_type))
      else
        let data :=
          mkData (filter (fun cat => negb (has_id id cat)) (categories data))
                 (entries data) in
        saveData data ;;;
        ret (mkResult data None)
  end.

(** The five assignments of [updateEntry], in source order. *)
Definition overwrite (input : EntryInput) (entry : JSValue) : JSValue :=
  JS.set_prop "note" (JStr (note_or_empty input))
    (JS.set_prop "date" (JStr (in_date input))
      (JS.set_prop "amount" (JNum (in_amount input))
        (JS.set_prop "categoryId" (JStr (in_categoryId input))
          (JS.set_prop "type" (JStr (type_string (in_type input))) entry)))).

Definition updateEntry (id : string) (input : EntryInput) : M Result :=
  data <- loadFinanceData ;;
  match find (has_id id) (entries data) with
  | None => ret (mkResult data (Some err_entry_not_found))
  | Some _ =>
      let categoryExists :=
        existsb (has_id (in_categoryId input)) (categories data) in
      if negb categoryExists
      then ret (mkResult data (Some err_category_not_found))
      else if negb (JS.Number_isFinite (in_amount input))
              || PrimFloat.leb (in_amount input) 0
      then ret (mkResult data (Some err_amount))
      else
        let data :=
          mkData (categories data)
                 (mutate_found (has_id id) (overwrite input) (entries data)) in
        saveData data ;;;
        ret (mkResult data None)
  end.

Definition deleteEntry (id : string) : M FinanceData :=
  data <- loadFinanceData ;;
  let data :=
    mkData (categories data)
           (filter (fun entry => negb (has_id id entry)) (entries data)) in
  saveData data ;;;
  ret data.


(** ** The list view *)

Module ListView.

(** [s.split("-")] *)
Fixpoint split_dash (s : string) : list string :=
  match s with
  | EmptyString => [EmptyString]
  | String c r =>
      if Ascii.eqb c "-" then EmptyString :: split_dash r
      else
        match split_dash r with
        | h :: t => String c h :: t
        | [] => [String c EmptyString]
        end
  end.

(** [String(n)] for an integer [n]. *)
Definition String_of_int (n : Z) : string :=
  NilZero.string_of_int (Z.to_int n).

(** [s.padStart(2, "0")] *)
Definition padStart2 (s : string) : string :=
  match String.length s with
  | 0 => "00"
  | 1 => "0" ++ s
  | _ => s
  end.

(** A valid [Date], by what [getFullYear], [getMonth] and [getDate] return
    for it: the year, the month from 0 and the day of the month. *)
Record LocalDate : Type := mkDate {
  getFullYear : Z;
  getMonth : nat;
  getDate : nat
}.

Definition toDateKey (date : LocalDate) : string :=
  let year := String_of_int (getFullYear date) in
  let month := padStart2 (String_of_int (Z.of_nat (getMonth date + 1))) in
  let day := padStart2 (String_of_int (Z.of_nat (getDate date))) in
  year ++ "-" ++ month ++ "-" ++ day.

Definition formatDate (dateKey : string) : string :=
  match split_dash dateKey with
  | year :: month :: day :: _ =>
      if String.eqb year "" || String.eqb month "" || String.eqb day ""
      then dateKey
      else day ++ "." ++ month ++ "." ++ year
  | _ => dateKey
  end.

(** The last branch of [periodRange]: the range chosen by two dates. *)
Definition customRange (startKey endKey : string) : string * string :=
  if String.leb startKey endKey then (startKey, endKey)
  else (endKey, startKey).

(** The callback of [entries.filter] in [filteredEntries]:
    [entry.date >= startKey && entry.date <= endKey], on an entry whose
    date is a string.  The keys of a range are ASCII, and against an ASCII
    string the order of UTF-8 bytes is the order of UTF-16 code units. *)
Definition in_period (range : string * string) (entry : JSValue) : bool :=
  match JS.prop "date" entry with
  | JStr date =>
      negb (String.ltb date (fst range)) && String.leb date (snd range)
  | _ => false
  end.

(** [categoryMap.value.get(categoryId)?.name ?? "Категория"], where
    [categoryMap] is [new Map(categories.map((cat) => [cat.id, cat]))]: of
    two categories with one id the later one is the one the map holds. *)
Definition getCategoryName (cats : list JSValue) (categoryId : string)
  : JSValue :=
  match find (has_id categoryId) (rev cats) with
  | Some cat =>
      match JS.prop "name" cat with
      | JUndefined | JNull => JStr "Категория"
      | name => name
      end
  | None => JStr "Категория"
  end.

End ListView.

(** ** The forms *)

(** The string held by a property that [normalizeData] checked to be one
    ([id] and [name] of a category, [id] of an entry; typed [string] in the
    source). *)
Definition string_value (v : JSValue) : string :=
  match v with JStr s => s | _ => EmptyString end.

(** [list[index]] for a number [index]; [None] is [undefined]. *)
Definition at_index {A} (l : list A) (index : Z) : option A :=
  if (index <? 0)%Z then None else nth_error l (Z.to_nat index).

Module EntryForm.

(** The refs of the entry form that [saveEntry] reads or writes. *)
Record State : Type := mkState {
  categories_ref : list JSValue;
  currentEntry : option JSValue;
  entryTypeIndex : Z;
  entryCategoryIndex : Z;
  entryNote : string;
  entryDate : ListView.LocalDate;
  entryError : string
}.

Definition set_entryError (e : string) (s : State) : State :=
  mkState (categories_ref s) (currentEntry s) (entryTypeIndex s)
          (entryCategoryIndex s) (entryNote s) (entryDate s) e.

Definition entryType (s : State) : CategoryType :=
  if (entryTypeIndex s =? 0)%Z then income else expense.

Definition entryCategories (s : State) : list JSValue :=
  filter (has_type (entryType s)) (categories_ref s).

Definition err_no_category : string :=
  "Добавьте категорию перед созданием записи.".

(** [saveEntry], where [amount] is the value of
    [Number(entryAmount.value.replace(",", "."))].  The boolean tells
    whether [$navigateBack] was called. *)
Definition saveEntry (amount : float) (s : State) : M (State * bool) :=
  let s := set_entryError "" s in
  if negb (JS.Number_isFinite amount) || PrimFloat.leb amount 0
  then ret (set_entryError err_amount s, false)
  else
    match at_index (entryCategories s) (entryCategoryIndex s) with
    | None => ret (set_entryError err_no_category s, false)
    | Some category =>
        let input :=
          mkInput (entryType s) (string_value (JS.prop "id" category)) amount
                  (ListView.toDateKey (entryDate s))
                  (Some (JS.trim (entryNote s))) in
        match currentEntry s with
        | Some entry =>
            result <- updateEntry (string_value (JS.prop "id" entry)) input ;;
            match error result with
            | Some e => ret (set_entryError e s, false)
            | None => ret (s, true)
            end
        | None =>
            addEntry input ;;;
            ret (s, true)
        end
    end.

End EntryForm.

Module CategoryForm.

(** The refs of the category form. *)
Record State : Type := mkState {
  categories_ref : list JSValue;
  categoryTypeIndex : Z;
  categoryName : string;
  categoryError : string;
  editingCategoryId : option string
}.

Definition categoryType (s : State) : CategoryType :=
  if (categoryTypeIndex s =? 0)%Z then income else expense.

(** A string or [null] used as a condition: the empty string counts as
    absent. *)
Definition present (id : option string) : option string :=
  match id with
  | Some i => if String.eqb i "" then None else Some i
  | None => None
  end.

Definition startEdit (category : JSValue) (s : State) : State :=
  mkState (categories_ref s)
          (if has_type income category then 0%Z else 1%Z)
          (string_value (JS.prop "name" category))
          (categoryError s)
          (Some (string_value (JS.prop "id" category))).

Definition resetForm (s : State) : State :=
  mkState (categories_ref s) 0%Z "" "" None.

(** [refreshData], with the component's [categoryId] prop. *)
Definition refreshData (categoryId : option string) (s : State) : M State :=
  data <- loadFinanceData ;;
  let s := mkState (categories data) (categoryTypeIndex s) (categoryName s)
                   (categoryError s) (editingCategoryId s) in
  match present categoryId, present (editingCategoryId s) with
  | Some id, None =>
      match find (has_id id) (categories data) with
      | Some target => ret (startEdit target s)
      | None => ret s
      end
  | _, _ => ret s
  end.

Definition saveCategory (categoryId : option string) (s : State) : M State :=
  let s := mkState (categories_ref s) (categoryTypeIndex s) (categoryName s)
                   "" (editingCategoryId s) in
  let name := JS.trim (categoryName s) in
  if String.eqb name ""
  then ret (mkState (categories_ref s) (categoryTypeIndex s) (categoryName s)
                    err_category_name (editingCategoryId s))
  else
    match present (editingCategoryId s) with
    | Some id =>
        result <- updateCategory id name (categoryType s) ;;
        match error result with
        | Some e =>
            ret (mkState (categories_ref s) (categoryTypeIndex s)
                         (categoryName s) e (editingCategoryId s))
        | None => refreshData categoryId (resetForm s)
        end
    | None =>
        addCategory name (categoryType s) ;;;
        refreshData categoryId
          (mkState (categories_ref s) (categoryTypeIndex s) ""
                   (categoryError s) (editingCategoryId s))
    end.

End CategoryForm.

(** ** Vocabulary of the statements *)

(** What [loadFinanceData] returns in a world, and the world it leaves. *)
Definition loaded (w : World) : FinanceData := fst (loadFinanceData w).
Definition after_load (w : World) : World := snd (loadFinanceData w).

(** The members [normalizeData] keeps. *)
Definition sanitized_categories (raw : JSValue) : list JSValue :=
  filter category_ok (JS.array_or_empty (JS.prop "categories" raw)).
Definition sanitized_entries (raw : JSValue) : list JSValue :=
  filter entry_ok (JS.array_or_empty (JS.prop "entries" raw)).

(** The two defaults [buildDefaultCategories] makes in world [w]. *)
Definition default_income (w : World) : JSValue :=
  category_value ("cat_" ++ uuids w (drawn w)) "Зарплата" income.
Definition default_expense (w : World) : JSValue :=
  category_value ("cat_" ++ uuids w (S (drawn w))) "Еда" expense.

Definition count_type (t : CategoryType) (cats : list JSValue) : nat :=
  List.length (filter (has_type t) cats).

Definition has_each_type (cats : list JSValue) : bool :=
  existsb (has_type income) cats && existsb (has_type expense) cats.

(** Every member passes the filter of [normalizeData]. *)
Definition items_ok (d : FinanceData) : bool :=
  forallb category_ok (categories d) && forallb entry_ok (entries d).

Definition type_of (item : JSValue) : option CategoryType :=
  if has_type income item then Some income
  else if has_type expense item then Some expense
  else None.

Definition other_type (t : CategoryType) : CategoryType :=
  match t with income => expense | expense => income end.

(** Numbers that [JSON.stringify] writes and [JSON.parse] reads back
    unchanged: finite, and not negative zero. *)
Definition exact_number (x : float) : bool :=
  JS.Number_isFinite x
  && match classify x with NZero => false | _ => true end.

(** Values without [undefined] whose numbers are all exact. *)
Fixpoint json_exact (v : JSValue) : bool :=
  match v with
  | JUndefined => false
  | JNull | JBool _ | JStr _ => true
  | JNum x => exact_number x
  | JArr l => forallb json_exact l
  | JObj ps =>
      (fix all (ps : list (string * JSValue)) : bool :=
         match ps with
         | [] => true
         | (_, v) :: r => json_exact v && all r
         end) ps
  end.

Definition document_exact (d : FinanceData) : bool :=
  forallb json_exact (categories d) && forallb json_exact (entries d).

(** The six mutations of the service, and the document each returns. *)
Inductive Mutation : Type :=
| AddCategory (name : string) (t : CategoryType)
| AddEntry (input : EntryInput)
| UpdateCategory (id name : string) (t : CategoryType)
| DeleteCategory (id : string)
| UpdateEntry (id : string) (input : EntryInput)
| DeleteEntry (id : string).

Definition returning_data (m : M Result) : M FinanceData :=
  r <- m ;; ret (data r).

Definition run (op : Mutation) : M FinanceData :=
  match op with
  | AddCategory name t => addCategory name t
  | AddEntry input => addEntry input
  | UpdateCategory id name t => returning_data (updateCategory id name t)
  | DeleteCategory id => returning_data (deleteCategory id)
  | UpdateEntry id input => returning_data (updateEntry id input)
  | DeleteEntry id => deleteEntry id
  end.

(** An entry as [normalizeData] requires it: [id], [categoryId] and [date]
    are strings, [amount] is a number and [type] is one of the two types. *)
Definition entry_shape (item : JSValue) : Prop :=
  exists (ps : list (string * JSValue)) (i c d : string) (x : float)
         (t : CategoryType),
    item = JObj ps
    /\ JS.assoc "id" ps = JStr i
    /\ JS.assoc "categoryId" ps = JStr c
    /\ JS.assoc "amount" ps = JNum x
    /\ JS.assoc "date" ps = JStr d
    /\ JS.assoc "type" ps = JStr (type_string t).

(** The world after [saveData d] and [n] more identifiers drawn since the
    load that left [w1]. *)
Definition saved (d : FinanceData) (w1 : World) (n : nat) : World :=
  mkWorld (JSON_stringify (data_value d)) (uuids w1) (n + drawn w1).

(** The two assignments of [updateCategory]. *)
Definition rename (name : string) (t : CategoryType) (cat : JSValue) : JSValue :=
  JS.set_prop "type" (JStr (type_string t)) (JS.set_prop "name" (JStr name) cat).

(** *** Invariants of the document *)

(** The entry's [categoryId] is the id of one of the categories. *)
Definition resolves (cats : list JSValue) (entry : JSValue) : bool :=
  match JS.prop "categoryId" entry with
  | JStr s => existsb (has_id s) cats
  | _ => false
  end.

(** Every entry refers to a category of the document. *)
Definition refs_ok (d : FinanceData) : bool :=
  forallb (resolves (categories d)) (entries d).

Definition ids (items : list JSValue) : list JSValue :=
  map (JS.prop "id") items.

(** The entry's amount passes the test of [updateEntry]: finite and not
    [<= 0]. *)
Definition amount_ok (entry : JSValue) : bool :=
  match JS.prop "amount" entry with
  | JNum x => JS.Number_isFinite x && negb (PrimFloat.leb x 0)
  | _ => false
  end.

(** The entry's amount is a finite number. *)
Definition finite_amount (entry : JSValue) : bool :=
  match JS.prop "amount" entry with
  | JNum x => JS.Number_isFinite x
  | _ => false
  end.

(** The identifier the next [createId prefix] returns in world [w]. *)
Definition next_id (prefix : string) (w : World) : string :=
  (prefix ++ "_" ++ uuids w (drawn w))%string.

(** What a mutation needs from [crypto.randomUUID]: the identifier it is
    about to hand out is not in use. *)
Definition fresh_for (op : Mutation) (w : World) : Prop :=
  match op with
  | AddCategory _ _ =>
      existsb (has_id (next_id "cat" (after_load w))) (categories (loaded w))
      = false
  | AddEntry _ =>
      existsb (has_id (next_id "entry" (after_load w))) (entries (loaded w))
      = false
  | _ => True
  end.

(** The amount a mutation brings in, if any, is finite and above zero. *)
Definition brings_amount_ok (op : Mutation) : Prop :=
  match op with
  | AddEntry input =>
      JS.Number_isFinite (in_amount input) = true
      /\ PrimFloat.leb (in_amount input) 0 = false
  | _ => True
  end.

(** *** Dates of the list view *)

(** The string has no ["-"]. *)
Fixpoint dash_free (s : string) : bool :=
  match s with
  | EmptyString => true
  | String c r => negb (Ascii.eqb c "-") && dash_free r
  end.

(** A date of a year with four digits. *)
Definition four_digit_date (d : ListView.LocalDate) : Prop :=
  (1000 <= ListView.getFullYear d <= 9999)%Z
  /\ ListView.getMonth d <= 11
  /\ 1 <= ListView.getDate d <= 31.

(** The first date is the second or an earlier one. *)
Definition on_or_before (a b : ListView.LocalDate) : Prop :=
  (ListView.getFullYear a < ListView.getFullYear b)%Z
  \/ (ListView.getFullYear a = ListView.getFullYear b
      /\ (ListView.getMonth a < ListView.getMonth b
          \/ (ListView.getMonth a = ListView.getMonth b
              /\ ListView.getDate a <= ListView.getDate b))).

(** No white space at the head of the list, read as [JS.strip] reads it. *)
Definition clean (back : bool) (l : list ascii) : Prop :=
  match l with
  | [] => True
  | a :: r =>
      JS.ws1 a = false
      /\ match r with
         | [] => True
         | b :: r2 =>
             (if back then JS.ws2 b a else JS.ws2 a b) = false
             /\ match r2 with
                | [] => True
                | c :: _ => (if back then JS.ws3 c b a else JS.ws3 a b c) = false
                end
         end
  end.

(** Decimal numerals of two and of four digits. *)
Definition digit (n : nat) : ascii := ascii_of_nat (48 + n).
Definition digits2 (n : nat) : string :=
  String (digit (n / 10)) (String (digit (n mod 10)) EmptyString).
Definition digits4 (n : nat) : string :=
  String (digit (n / 1000))
    (String (digit (n / 100 mod 10)) (digits2 (n mod 100))).

(** *** Sample worlds *)

Definition sample_uuids (n : nat) : string :=
  match n with
  | 0 => "3f0c"
  | 1 => "91ab"
  | 2 => "c2d7"
  | 3 => "e450"
  | _ => "ffff"
  end.

(** Nothing stored yet. *)
Definition fresh_world : World := mkWorld Empty sample_uuids 0.

(** After the first load: the two default categories [cat_3f0c] (income) and
    [cat_91ab] (expense), no entries. *)
Definition first_world : World := after_load fresh_world.

Definition salary_input : EntryInput :=
  mkInput income "cat_3f0c" 1000 "2024-01-05" (Some "").

(** After one entry was added to [first_world]. *)
Definition one_entry_world : World := snd (addEntry salary_input first_world).

(** [one_entry_world] with a second income category, [cat_e450]. *)
Definition two_income_world : World :=
  snd (addCategory "Премия" income one_entry_world).

(** A stored document in which two categories share the id [a]. *)
Definition duplicate_world : World :=
  mkWorld
    (Json (JObj [("categories",
                  JArr [category_value "a" "A" income;
                        category_value "a" "B" income;
                        category_value "b" "C" expense]);
                 ("entries", JArr [])]))
    sample_uuids 0.

(** A stored document whose entry was written as ["amount": 1e999], which
    [JSON.parse] reads as [Infinity]. *)
Definition overflow_world : World :=
  mkWorld
    (Json (JObj [("categories",
                  JArr [category_value "a" "A" income;
                        category_value "b" "B" expense]);
                 ("entries",
                  JArr [JObj [("id", JStr "e1"); ("type", JStr "income");
                              ("categoryId", JStr "a");
                              ("amount", JNum infinity);
                              ("date", JStr "2024-01-05");
                              ("note", JStr "")]])]))
    sample_uuids 0.

(** A stored document whose entry names a category that does not exist,
    has a negative amount and no note. *)
Definition dangling_world : World :=
  mkWorld
    (Json (JObj [("categories",
                  JArr [category_value "a" "A" income;
                        category_value "b" "B" expense]);
                 ("entries",
                  JArr [JObj [("id", JStr "e1"); ("type", JStr "expense");
                              ("categoryId", JStr "ghost");
                              ("amount", JNum (-5));
                              ("date", JStr "2024-01-05")]])]))
    sample_uuids 0.

(** A stored document with a single category, of type income, and an entry
    that refers to it: the next load adds the default expense category. *)
Definition unrepaired_world : World :=
  mkWorld
    (Json (JObj [("categories", JArr [category_value "a" "A" income]);
                 ("entries",
                  JArr [JObj [("id", JStr "e1"); ("type", JStr "income");
                              ("categoryId", JStr "a");
                              ("amount", JNum 10);
                              ("date", JStr "2024-01-05");
                              ("note", JStr "")]])]))
    sample_uuids 0.

(** ** Lemmas on values *)

Section JSValue_induction.
Variable P : JSValue -> Prop.
Hypothesis P_undefined : P JUndefined.
Hypothesis P_null : P JNull.
Hypothesis P_bool : forall b, P (JBool b).
Hypothesis P_num : forall x, P (JNum x).
Hypothesis P_str : forall s, P (JStr s).
Hypothesis P_arr : forall l, Forall P l -> P (JArr l).
Hypothesis P_obj : forall ps, Forall (fun p => P (snd p)) ps -> P (JObj ps).

Fixpoint JSValue_nested_ind (v : JSValue) : P v :=
  match v with
  | JUndefined => P_undefined
  | JNull => P_null
  | JBool b => P_bool b
  | JNum x => P_num x
  | JStr s => P_str s
  | JArr l =>
      P_arr ((fix go (l : list JSValue) : Forall P l :=
                match l with
                | [] => Forall_nil _
                | x :: r => Forall_cons x (JSValue_nested_ind x) (go r)
                end) l)
  | JObj ps =>
      P_obj ((fix go (ps : list (string * JSValue))
                : Forall (fun p => P (snd p)) ps :=
                match ps with
                | [] => Forall_nil _
                | p :: r =>
                    Forall_cons p (JSValue_nested_ind (snd p)) (go r)
                end) ps)
  end.
End JSValue_induction.

Unset Implicit Arguments.

Lemma exact_number_jsonify x :
  exact_number x = true -> JS.jsonify_number x = JNum x.
Proof.
  unfold exact_number, JS.jsonify_number.
  intros H. apply andb_true_iff in H as [Hf Hz]. rewrite Hf.
  destruct (PrimFloat.eqb x 0) eqn:E; [|reflexivity].
  f_equal. symmetry. apply Prim2SF_inj.
  rewrite eqb_spec in E. rewrite classify_spec in Hz.
  change (Prim2SF 0) with (S754_zero false) in *.
  destruct (Prim2SF x) as [[|]| [|] | | [|] m e]; simpl in *; try discriminate; reflexivity.
Qed.

Lemma positive_exact x :
  JS.Number_isFinite x = true -> PrimFloat.leb x 0 = false ->
  exact_number x = true.
Proof.
  unfold exact_number. intros Hf Hz. rewrite Hf. simpl.
  rewrite leb_spec in Hz. rewrite classify_spec.
  change (Prim2SF 0) with (S754_zero false) in *.
  destruct (Prim2SF x) as [[|]| [|] | | [|] m e]; simpl in *; try discriminate; try reflexivity.
  unfold SF64classify, SFclassify.
  match goal with |- context [if ?b then _ else _] => destruct b end; reflexivity.
Qed.

Lemma jsonify_exact v : json_exact v = true -> JS.jsonify v = v.
Proof.
  induction v using JSValue_nested_ind; simpl; intros E; try reflexivity; try discriminate.
  - now apply exact_number_jsonify.
  - f_equal. induction H as [|a l Ha Hl IH]; simpl in *; [reflexivity|].
    apply andb_true_iff in E as [E1 E2]. now rewrite Ha, IH.
  - f_equal. induction H as [|[k a] l Ha Hl IH]; simpl in *; [reflexivity|].
    apply andb_true_iff in E as [E1 E2]. rewrite IH by assumption.
    rewrite (Ha E1). destruct a; try reflexivity. discriminate.
Qed.

(** ** Lemmas on loading *)

Lemma world_eta w : mkWorld (settings w) (uuids w) (drawn w) = w.
Proof. now destruct w. Qed.

Lemma forallb_filter_same {A} (p : A -> bool) l : forallb p (filter p l) = true.
Proof.
  induction l as [|a l IH]; simpl; [reflexivity|].
  destruct (p a) eqn:E; simpl; [now rewrite E|assumption].
Qed.

Lemma filter_all {A} (p : A -> bool) l : forallb p l = true -> filter p l = l.
Proof.
  induction l as [|a l IH]; simpl; [reflexivity|].
  intros H. apply andb_true_iff in H as [Ha Hl]. now rewrite Ha, IH.
Qed.

Lemma forallb_filter_sub {A} (p q : A -> bool) l :
  forallb p l = true -> forallb p (filter q l) = true.
Proof.
  induction l as [|a l IH]; simpl; [reflexivity|].
  intros H. apply andb_true_iff in H as [Ha Hl].
  destruct (q a); simpl; [now rewrite Ha, IH|now apply IH].
Qed.

Lemma normalizeData_data raw w :
  fst (normalizeData raw w) =
  mkData (sanitized_categories raw
          ++ (if existsb (has_type income) (sanitized_categories raw)
              then [] else [default_income w])
          ++ (if existsb (has_type expense) (sanitized_categories raw)
              then [] else [default_expense w]))
         (sanitized_entries raw).
Proof.
  unfold normalizeData, sanitized_categories, sanitized_entries, JS.opt_prop.
  set (cats := filter category_ok _).
  set (ents := filter entry_ok _).
  destruct (existsb (has_type income) cats) eqn:Hi;
    destruct (existsb (has_type expense) cats) eqn:He; simpl;
    unfold push_found; simpl; rewrite ?app_nil_r, <- ?app_assoc; reflexivity.
Qed.

Lemma normalizeData_world raw w :
  snd (normalizeData raw w) =
  mkWorld (settings w) (uuids w)
          (if has_each_type (sanitized_categories raw)
           then drawn w else S (S (drawn w))).
Proof.
  unfold normalizeData, sanitized_categories, has_each_type, JS.opt_prop.
  set (cats := filter category_ok _).
  destruct (existsb (has_type income) cats) eqn:Hi;
    destruct (existsb (has_type expense) cats) eqn:He; simpl;
    rewrite ?world_eta; reflexivity.
Qed.

Lemma normalizeData_items_ok raw w : items_ok (fst (normalizeData raw w)) = true.
Proof.
  rewrite normalizeData_data. unfold items_ok; simpl.
  unfold sanitized_categories, sanitized_entries.
  rewrite !forallb_app, !forallb_filter_same.
  now repeat match goal with |- context [if ?b then _ else _] => destruct b end.
Qed.

Lemma normalizeData_each_type raw w :
  has_each_type (categories (fst (normalizeData raw w))) = true.
Proof.
  rewrite normalizeData_data. unfold has_each_type; simpl.
  rewrite !existsb_app.
  destruct (existsb (has_type income) _) eqn:Hi;
    destruct (existsb (has_type expense) _) eqn:He; simpl;
    rewrite ?orb_true_r; reflexivity.
Qed.

Lemma fresh_document_eq w :
  fresh_document w =
  (mkData [default_income w; default_expense w] [],
   mkWorld (JSON_stringify (data_value (mkData [default_income w; default_expense w] [])))
           (uuids w) (S (S (drawn w)))).
Proof. reflexivity. Qed.

Lemma loadFinanceData_eq w :
  loadFinanceData w =
  match settings w with
  | Json v =>
      (fst (normalizeData v w),
       mkWorld (JSON_stringify (data_value (fst (normalizeData v w))))
               (uuids w) (drawn (snd (normalizeData v w))))
  | _ => fresh_document w
  end.
Proof.
  unfold loadFinanceData, bind, getString.
  destruct (settings w) eqn:E; try reflexivity.
  simpl. pose proof (normalizeData_world v w) as Hw.
  destruct (normalizeData v w) as [d w1]. simpl in *. subst w1.
  reflexivity.
Qed.

(** What every caller of [loadFinanceData] may rely on. *)
Lemma load_facts w :
  items_ok (loaded w) = true
  /\ has_each_type (categories (loaded w)) = true
  /\ settings (after_load w) = JSON_stringify (data_value (loaded w))
  /\ uuids (after_load w) = uuids w.
Proof.
  unfold loaded, after_load. rewrite loadFinanceData_eq.
  destruct (settings w).
  - rewrite fresh_document_eq. simpl. repeat split; reflexivity.
  - rewrite fresh_document_eq. simpl. repeat split; reflexivity.
  - simpl. repeat split.
    + apply normalizeData_items_ok.
    + apply normalizeData_each_type.
Qed.

(** ** The mutations, step by step *)

Ltac after_loading w :=
  unfold loaded, after_load, bind, ret;
  destruct (loadFinanceData w) as [d w1]; simpl.

Lemma addCategory_eq name t w :
  addCategory name t w =
  if String.eqb (JS.trim name) "" then (loaded w, after_load w)
  else
    let d' :=
      mkData (categories (loaded w)
              ++ [category_value ("cat_" ++ uuids (after_load w) (drawn (after_load w)))
                                 (JS.trim name) t])
             (entries (loaded w)) in
    (d', saved d' (after_load w) 1).
Proof.
  unfold addCategory. after_loading w.
  destruct (String.eqb (JS.trim name) ""); reflexivity.
Qed.

Lemma addEntry_eq input w :
  addEntry input w =
  if existsb (has_id (in_categoryId input)) (categories (loaded w))
  then
    let d' :=
      mkData (categories (loaded w))
             (new_entry input ("entry_" ++ uuids (after_load w) (drawn (after_load w)))
              :: entries (loaded w)) in
    (d', saved d' (after_load w) 1)
  else (loaded w, after_load w).
Proof.
  unfold addEntry. after_loading w.
  destruct (existsb _ _); reflexivity.
Qed.

Lemma updateCategory_eq id name t w :
  updateCategory id name t w =
  let d := loaded w in
  if String.eqb (JS.trim name) ""
  then (mkResult d (Some err_category_name), after_load w)
  else
    match find (has_id id) (categories d) with
    | None => (mkResult d (Some err_category_not_found), after_load w)
    | Some category =>
        if negb (has_type t category)
           && (sameTypeCount category (categories d) <=? 1)%nat
        then (mkResult d (Some err_need_each_type), after_load w)
        else
          let d' :=
            mkData (mutate_found (has_id id) (rename (JS.trim name) t) (categories d))
                   (entries d) in
          (mkResult d' None, saved d' (after_load w) 0)
    end.
Proof.
  unfold updateCategory. after_loading w.
  destruct (String.eqb (JS.trim name) ""); [reflexivity|].
  destruct (find _ _); [|reflexivity].
  destruct (negb _ && _); reflexivity.
Qed.

Lemma deleteCategory_eq id w :
  deleteCategory id w =
  let d := loaded w in
  match find (has_id id) (categories d) with
  | None => (mkResult d (Some err_category_not_found), after_load w)
  | Some category =>
      if existsb (refers_to id) (entries d)
      then (mkResult d (Some err_category_in_use), after_load w)
      else if (sameTypeCount category (categories d) <=? 1)%nat
      then (mkResult d (Some err_need_each_type), after_load w)
      else
        let d' :=
          mkData (filter (fun cat => negb (has_id id cat)) (categories d))
                 (entries d) in
        (mkResult d' None, saved d' (after_load w) 0)
  end.
Proof.
  unfold deleteCategory. after_loading w.
  destruct (find _ _); [|reflexivity].
  destruct (existsb _ _); [reflexivity|].
  destruct (_ <=? _)%nat; reflexivity.
Qed.

Lemma updateEntry_eq id input w :
  updateEntry id input w =
  let d := loaded w in
  match find (has_id id) (entries d) with
  | None => (mkResult d (Some err_entry_not_found), after_load w)
  | Some _ =>
      if negb (existsb (has_id (in_categoryId input)) (categories d))
      then (mkResult d (Some err_category_not_found), after_load w)
      else if negb (JS.Number_isFinite (in_amount input))
              || PrimFloat.leb (in_amount input) 0
      then (mkResult d (Some err_amount), after_load w)
      else
        let d' :=
          mkData (categories d)
                 (mutate_found (has_id id) (overwrite input) (entries d)) in
        (mkResult d' None, saved d' (after_load w) 0)
  end.
Proof.
  unfold updateEntry. after_loading w.
  destruct (find _ _); [|reflexivity].
  destruct (negb (existsb _ _)); [reflexivity|].
  destruct (negb _ || _); reflexivity.
Qed.

Lemma deleteEntry_eq id w :
  deleteEntry id w =
  let d' :=
    mkData (categories (loaded w))
           (filter (fun entry => negb (has_id id entry)) (entries (loaded w))) in
  (d', saved d' (after_load w) 0).
Proof. unfold deleteEntry. after_loading w. reflexivity. Qed.

(** ** Lemmas on objects *)

Lemma assoc_assign k k' v ps :
  JS.assoc k (JS.assign k' v ps) = if String.eqb k k' then v else JS.assoc k ps.
Proof.
  induction ps as [|[k0 v0] r IH]; simpl.
  - now destruct (String.eqb k k').
  - destruct (String.eqb k' k0) eqn:E0; simpl.
    + apply String.eqb_eq in E0; subst k0.
      now destruct (String.eqb k k').
    + rewrite IH. destruct (String.eqb k k0) eqn:E1; [|reflexivity].
      apply String.eqb_eq in E1; subst k0. now rewrite String.eqb_sym, E0.
Qed.

Lemma eq_str_true v s : JS.eq_str v s = true <-> v = JStr s.
Proof.
  destruct v; simpl; split; try discriminate.
  - intros H. apply String.eqb_eq in H. now subst.
  - intros H. injection H as ->. apply String.eqb_refl.
Qed.

Lemma is_string_true v : JS.is_string v = true <-> exists s, v = JStr s.
Proof.
  destruct v; simpl; split; try discriminate; try (intros [? ?]; discriminate);
    eauto.
Qed.

Lemma is_number_true v : JS.is_number v = true <-> exists x, v = JNum x.
Proof.
  destruct v; simpl; split; try discriminate; try (intros [? ?]; discriminate);
    eauto.
Qed.

Lemma has_type_true t item :
  has_type t item = true <-> JS.prop "type" item = JStr (type_string t).
Proof. apply eq_str_true. Qed.

Lemma has_some_type item :
  has_type income item || has_type expense item = true <->
  exists t, JS.prop "type" item = JStr (type_string t).
Proof.
  rewrite orb_true_iff, !has_type_true. split.
  - intros [H|H]; eauto.
  - intros [[|] H]; auto.
Qed.

Lemma has_type_exclusive t item :
  has_type t item = true -> has_type (other_type t) item = false.
Proof.
  unfold has_type. intros H. apply eq_str_true in H. rewrite H.
  now destruct t.
Qed.

Lemma string_prop_object k item s :
  JS.prop k item = JStr s -> exists ps, item = JObj ps.
Proof. destruct item; simpl; try discriminate; eauto. Qed.

Lemma category_ok_true item :
  category_ok item = true <->
  exists ps i n t,
    item = JObj ps /\ JS.assoc "id" ps = JStr i /\ JS.assoc "name" ps = JStr n
    /\ JS.assoc "type" ps = JStr (type_string t).
Proof.
  unfold category_ok. rewrite !andb_true_iff, has_some_type, !is_string_true.
  split.
  - intros [[[_ [i Hi]] [n Hn]] [t Ht]].
    destruct (string_prop_object _ _ _ Hi) as [ps ->]. now exists ps, i, n, t.
  - intros (ps & i & n & t & -> & Hi & Hn & Ht). simpl. eauto 10.
Qed.

Lemma entry_ok_true item : entry_ok item = true <-> entry_shape item.
Proof.
  unfold entry_ok, entry_shape.
  rewrite !andb_true_iff, has_some_type, !is_string_true, is_number_true.
  split.
  - intros [[[[[_ [i Hi]] [c Hc]] [x Hx]] [d Hd]] [t Ht]].
    destruct (string_prop_object _ _ _ Hi) as [ps ->]. now exists ps, i, c, d, x, t.
  - intros (ps & i & c & d & x & t & -> & Hi & Hc & Hx & Hd & Ht).
    simpl. eauto 12.
Qed.

Lemma rename_ok name t cat :
  category_ok cat = true -> category_ok (rename name t cat) = true.
Proof.
  rewrite !category_ok_true.
  intros (ps & i & n & t0 & -> & Hi & Hn & Ht).
  unfold rename; simpl.
  eexists _, i, name, t. split; [reflexivity|].
  rewrite !assoc_assign; simpl. auto.
Qed.

Lemma overwrite_ok input entry :
  entry_ok entry = true -> entry_ok (overwrite input entry) = true.
Proof.
  rewrite !entry_ok_true.
  intros (ps & i & c & d & x & t & -> & Hi & Hc & Hx & Hd & Ht).
  unfold overwrite; simpl.
  eexists _, i, (in_categoryId input), (in_date input), (in_amount input),
    (in_type input).
  split; [reflexivity|].
  rewrite !assoc_assign; simpl. auto.
Qed.

Lemma new_entry_ok input id : entry_ok (new_entry input id) = true.
Proof.
  unfold new_entry, input_value, entry_ok, has_type.
  destruct (in_note input), (in_type input); reflexivity.
Qed.

Lemma category_value_ok id name t : category_ok (category_value id name t) = true.
Proof. now destruct t. Qed.

(** ** Lemmas on lists *)

Lemma forallb_mutate_found (ok p : JSValue -> bool) f l :
  (forall x, ok x = true -> ok (f x) = true) ->
  forallb ok l = true -> forallb ok (mutate_found p f l) = true.
Proof.
  intros Hf. induction l as [|a l IH]; simpl; [reflexivity|].
  intros H. apply andb_true_iff in H as [Ha Hl].
  destruct (p a); simpl; [now rewrite Hf, Hl|now rewrite Ha, IH].
Qed.

Lemma find_existsb {A} (p : A -> bool) l :
  existsb p l = match find p l with Some _ => true | None => false end.
Proof.
  induction l as [|a l IH]; simpl; [reflexivity|].
  now destruct (p a).
Qed.

Lemma find_split (p : JSValue -> bool) l c :
  find p l = Some c ->
  exists pre post,
    l = pre ++ c :: post /\ p c = true /\ forallb (fun x => negb (p x)) pre = true.
Proof.
  induction l as [|a l IH]; simpl; [discriminate|].
  destruct (p a) eqn:E.
  - intros H; injection H as ->. now exists [], l.
  - intros H. destruct (IH H) as (pre & post & -> & Hc & Hpre).
    exists (a :: pre), post. simpl. now rewrite E.
Qed.

Lemma mutate_found_split (p : JSValue -> bool) f pre c post :
  p c = true -> forallb (fun x => negb (p x)) pre = true ->
  mutate_found p f (pre ++ c :: post) = pre ++ f c :: post.
Proof.
  intros Hc. induction pre as [|a pre IH]; simpl.
  - now rewrite Hc.
  - intros H. apply andb_true_iff in H as [Ha Hp].
    apply negb_true_iff in Ha. now rewrite Ha, IH.
Qed.

(** ** Loading *)

(** C1. Whatever is stored under the key (nothing, text that does not parse,
    or JSON of any content), the document returned by [loadFinanceData] has
    a category of type income and one of type expense.  [normalizeData]
    keeps the well-formed categories and appends the default category of
    each type that is missing among them. *)
Theorem load_has_each_type :
  forall w : World,
    existsb (has_type income) (categories (loaded w)) = true
    /\ existsb (has_type expense) (categories (loaded w)) = true
    /\ forall raw : JSValue,
         categories (fst (normalizeData raw w)) =
         sanitized_categories raw
         ++ (if existsb (has_type income) (sanitized_categories raw)
             then [] else [default_income w])
         ++ (if existsb (has_type expense) (sanitized_categories raw)
             then [] else [default_expense w]).
Proof.
  intros w.
  destruct (load_facts w) as (_ & Hboth & _).
  apply andb_true_iff in Hboth as [Hi He].
  repeat split; try assumption.
  intros raw. now rewrite normalizeData_data.
Qed.

(** C8. When the key holds nothing, or text that [JSON.parse] rejects,
    [loadFinanceData] returns a document with exactly two categories, the
    first of type income and the second of type expense, and no entries,
    and leaves that same document stored under the key. *)
Theorem load_without_document :
  forall w : World,
    settings w = Empty \/ settings w = Malformed ->
    exists c1 c2 : JSValue,
      loaded w = mkData [c1; c2] []
      /\ type_of c1 = Some income
      /\ type_of c2 = Some expense
      /\ JSON_parse (settings (after_load w)) = Some (data_value (loaded w)).
Proof.
  intros w H. unfold loaded, after_load. rewrite loadFinanceData_eq.
  exists (default_income w), (default_expense w).
  destruct H as [-> | ->]; rewrite fresh_document_eq; simpl; auto.
Qed.

Lemma load_without_document_witness :
  settings fresh_world = Empty
  /\ exists c1 c2 : JSValue,
       loaded fresh_world = mkData [c1; c2] []
       /\ type_of c1 = Some income
       /\ type_of c2 = Some expense
       /\ JSON_parse (settings (after_load fresh_world))
          = Some (data_value (loaded fresh_world)).
Proof.
  split; [reflexivity|].
  apply (load_without_document fresh_world). left; reflexivity.
Defined.

(** ** Adding an entry *)

Lemma new_entry_props input id :
  JS.prop "id" (new_entry input id) = JStr id
  /\ JS.prop "note" (new_entry input id) = JStr (note_or_empty input)
  /\ JS.prop "type" (new_entry input id) = JStr (type_string (in_type input))
  /\ JS.prop "categoryId" (new_entry input id) = JStr (in_categoryId input)
  /\ JS.prop "amount" (new_entry input id) = JNum (in_amount input)
  /\ JS.prop "date" (new_entry input id) = JStr (in_date input).
Proof.
  unfold new_entry, input_value, note_or_empty.
  destruct (in_note input); simpl; repeat split; reflexivity.
Qed.

(** C5. [addEntry] returns the loaded document as it is, with no error,
    when no category has the input's [categoryId].  Otherwise it returns the
    document with one more entry at the front of [entries], the earlier
    entries following in their order; the new entry's id is [entry_]
    followed by an identifier newly taken from [crypto.randomUUID], its note
    is the input's note or the empty string when the input has none, and the
    other fields are the input's. *)
Theorem addEntry_prepends :
  forall (input : EntryInput) (w : World),
    let d := loaded w in
    let w1 := after_load w in
    (existsb (has_id (in_categoryId input)) (categories d) = false ->
     addEntry input w = (d, w1))
    /\ (existsb (has_id (in_categoryId input)) (categories d) = true ->
        exists e : JSValue,
          fst (addEntry input w) = mkData (categories d) (e :: entries d)
          /\ JS.prop "id" e = JStr ("entry_" ++ uuids w1 (drawn w1))
          /\ drawn (snd (addEntry input w)) = S (drawn w1)
          /\ JS.prop "note" e
             = JStr (match in_note input with Some s => s | None => "" end)
          /\ JS.prop "type" e = JStr (type_string (in_type input))
          /\ JS.prop "categoryId" e = JStr (in_categoryId input)
          /\ JS.prop "amount" e = JNum (in_amount input)
          /\ JS.prop "date" e = JStr (in_date input)
          /\ settings (snd (addEntry input w))
             = JSON_stringify (data_value (fst (addEntry input w)))).
Proof.
  intros input w d w1. rewrite addEntry_eq. fold d w1. split; intros E; rewrite E.
  - reflexivity.
  - eexists. simpl.
    destruct (new_entry_props input ("entry_" ++ uuids w1 (drawn w1)))
      as (Hid & Hnote & Hty & Hcat & Ham & Hdate).
    repeat split; try eassumption; reflexivity.
Qed.

Lemma addEntry_prepends_witness :
  (existsb (has_id "cat_0000") (categories (loaded first_world)) = false
   /\ addEntry (mkInput income "cat_0000" 1000 "2024-01-05" None) first_world
      = (loaded first_world, after_load first_world))
  /\ (existsb (has_id "cat_3f0c") (categories (loaded first_world)) = true
      /\ exists e : JSValue,
           fst (addEntry salary_input first_world)
           = mkData (categories (loaded first_world))
                    (e :: entries (loaded first_world))
           /\ JS.prop "id" e = JStr "entry_c2d7"
           /\ JS.prop "note" e = JStr "").
Proof.
  split; (split; [reflexivity|]).
  - apply (addEntry_prepends
             (mkInput income "cat_0000" 1000 "2024-01-05" None) first_world).
    reflexivity.
  - destruct (proj2 (addEntry_prepends salary_input first_world) eq_refl)
      as (e & He & Hid & _ & Hnote & _).
    exists e. repeat split; assumption.
Defined.

(** ** Counting categories by type *)

Lemma type_of_some item t :
  type_of item = Some t <-> JS.prop "type" item = JStr (type_string t).
Proof.
  unfold type_of. rewrite <- has_type_true.
  destruct (has_type income item) eqn:Hi.
  - pose proof (has_type_exclusive _ _ Hi) as Hx; simpl in Hx.
    destruct t; split; intros H; try congruence.
  - destruct (has_type expense item) eqn:He;
      destruct t; split; intros H; congruence.
Qed.

Lemma category_ok_typed item :
  category_ok item = true -> exists t, type_of item = Some t.
Proof.
  rewrite category_ok_true. intros (ps & i & n & t & -> & _ & _ & Ht).
  exists t. now apply type_of_some.
Qed.

Lemma has_type_of t t0 item :
  type_of item = Some t0 -> has_type t item = CategoryType_eqb t t0.
Proof.
  intros H. apply type_of_some in H. unfold has_type. rewrite H.
  now destruct t, t0.
Qed.

Lemma CategoryType_eqb_eq t t' : CategoryType_eqb t t' = true <-> t = t'.
Proof. destruct t, t'; simpl; split; congruence. Qed.

Lemma sameTypeCount_count category t0 cats :
  type_of category = Some t0 ->
  sameTypeCount category cats = count_type t0 cats.
Proof.
  intros H. apply type_of_some in H.
  unfold sameTypeCount, count_type. rewrite H. reflexivity.
Qed.

Lemma count_type_app t l l' :
  count_type t (l ++ l') = count_type t l + count_type t l'.
Proof. unfold count_type. now rewrite filter_app, length_app. Qed.

Lemma count_type_cons t a l :
  count_type t (a :: l) = (if has_type t a then 1 else 0) + count_type t l.
Proof. unfold count_type; simpl. now destruct (has_type t a). Qed.

Lemma count_type_exists t l :
  existsb (has_type t) l = true <-> 1 <= count_type t l.
Proof.
  induction l as [|a l IH]; simpl.
  - unfold count_type; simpl. split; [discriminate|lia].
  - rewrite count_type_cons, orb_true_iff, IH.
    destruct (has_type t a); split; intros; try lia; auto.
Qed.

Lemma has_each_type_counts l :
  has_each_type l = true <-> forall t, 1 <= count_type t l.
Proof.
  unfold has_each_type. rewrite andb_true_iff, !count_type_exists. split.
  - intros [Hi He] [|]; assumption.
  - intros H. split; apply H.
Qed.

Lemma forallb_In {A} (p : A -> bool) l x :
  forallb p l = true -> In x l -> p x = true.
Proof. intros H. rewrite forallb_forall in H. apply H. Qed.

Lemma found_category_typed w id c :
  find (has_id id) (categories (loaded w)) = Some c ->
  exists t0, type_of c = Some t0.
Proof.
  intros H. apply find_some in H as [Hin _].
  destruct (load_facts w) as (Hok & _).
  apply andb_true_iff in Hok as [Hok _].
  apply category_ok_typed. eapply forallb_In; eassumption.
Qed.

Lemma rename_props name t ps :
  JS.prop "name" (rename name t (JObj ps)) = JStr name
  /\ JS.prop "type" (rename name t (JObj ps)) = JStr (type_string t)
  /\ forall k, k <> "name" -> k <> "type" ->
       JS.prop k (rename name t (JObj ps)) = JS.prop k (JObj ps).
Proof.
  unfold rename; simpl. rewrite !assoc_assign; simpl. repeat split.
  intros k Hn Ht. rewrite !assoc_assign.
  apply String.eqb_neq in Hn, Ht. now rewrite Hn, Ht.
Qed.

Lemma category_object item :
  category_ok item = true -> exists ps, item = JObj ps.
Proof. rewrite category_ok_true. intros (ps & _ & _ & _ & -> & _). eauto. Qed.

(** ** Updating a category *)

(** The four outcomes of [updateCategory], in the order of its checks. *)
Lemma updateCategory_cases :
  forall (id name : string) (t : CategoryType) (w : World),
    let d := loaded w in
    let r := fst (updateCategory id name t w) in
    let w2 := snd (updateCategory id name t w) in
    (error r <> None -> data r = d /\ w2 = after_load w)
    /\ (JS.trim name = "" -> error r = Some err_category_name)
    /\ (JS.trim name <> "" ->
        find (has_id id) (categories d) = None ->
        error r = Some err_category_not_found)
    /\ (forall (c : JSValue) (t0 : CategoryType),
          JS.trim name <> "" ->
          find (has_id id) (categories d) = Some c ->
          type_of c = Some t0 ->
          (t <> t0 /\ count_type t0 (categories d) = 1 ->
           error r = Some err_need_each_type)
          /\ (t = t0 \/ count_type t0 (categories d) <> 1 ->
              error r = None
              /\ exists (pre post : list JSValue) (c' : JSValue),
                   categories d = pre ++ c :: post
                   /\ forallb (fun x => negb (has_id id x)) pre = true
                   /\ categories (data r) = pre ++ c' :: post
                   /\ JS.prop "name" c' = JStr (JS.trim name)
                   /\ JS.prop "type" c' = JStr (type_string t)
                   /\ (forall k, k <> "name" -> k <> "type" ->
                         JS.prop k c' = JS.prop k c)
                   /\ entries (data r) = entries d
                   /\ settings w2 = JSON_stringify (data_value (data r)))).
Proof.
  intros id name t w d r w2. subst d r w2. rewrite updateCategory_eq.
  cbv zeta. set (d := loaded w).
  destruct (String.eqb (JS.trim name) "") eqn:En.
  { apply String.eqb_eq in En. simpl.
    split; [intros _; split; reflexivity|].
    split; [reflexivity|].
    split; [intros H; contradiction|].
    intros c t0 H; contradiction. }
  apply String.eqb_neq in En.
  destruct (find (has_id id) (categories d)) as [c|] eqn:Ef.
  2:{ simpl.
      split; [intros _; split; reflexivity|].
      split; [intros H; contradiction|].
      split; [reflexivity|].
      intros c t0 _ H; discriminate. }
  destruct (found_category_typed w id c Ef) as [t1 Ht1].
  pose proof (find_some _ _ Ef) as [Hin _].
  assert (Hc1 : 1 <= count_type t1 (categories d)).
  { apply count_type_exists, existsb_exists. exists c. split; [assumption|].
    rewrite (has_type_of t1 t1 c Ht1). now destruct t1. }
  rewrite (sameTypeCount_count c t1 _ Ht1), (has_type_of t t1 c Ht1).
  destruct (negb (CategoryType_eqb t t1)
            && (count_type t1 (categories d) <=? 1)%nat) eqn:Eg.
  - apply andb_true_iff in Eg as [Ed Ec].
    apply negb_true_iff in Ed. apply Nat.leb_le in Ec.
    assert (Hne : t <> t1).
    { intros ->. now destruct t1. }
    simpl.
    split; [intros _; split; reflexivity|].
    split; [intros H; contradiction|].
    split; [intros _ H; discriminate|].
    intros c0 t0 _ Hc0 Ht0. injection Hc0 as <-.
    assert (t0 = t1) by congruence; subst t0.
    split; [reflexivity|].
    intros [Heq|Hcnt]; exfalso; [contradiction|lia].
  - simpl.
    split; [intros H; contradiction|].
    split; [intros H; contradiction|].
    split; [intros _ H; discriminate|].
    intros c0 t0 _ Hc0 Ht0. injection Hc0 as <-.
    assert (t0 = t1) by congruence; subst t0.
    split.
    + intros [Hne Hone]. exfalso.
      apply andb_false_iff in Eg as [Eg|Eg].
      * apply negb_false_iff, CategoryType_eqb_eq in Eg. contradiction.
      * apply Nat.leb_gt in Eg. lia.
    + intros _. split; [reflexivity|].
      destruct (find_split _ _ _ Ef) as (pre & post & Hsplit & Hidc & Hpre).
      destruct (load_facts w) as (Hok & _).
      apply andb_true_iff in Hok as [Hok _].
      destruct (category_object _ (forallb_In _ _ _ Hok Hin)) as [ps ->].
      destruct (rename_props (JS.trim name) t ps) as (Hn & Hty & Hrest).
      exists pre, post, (rename (JS.trim name) t (JObj ps)).
      repeat split; try assumption.
      rewrite Hsplit. now apply mutate_found_split.
Qed.

(** C6. [updateCategory] returns an error exactly when the name trims to
    the empty string, or no category has the id, or the requested type
    differs from the category's type and that type has a single member.
    With an error the loaded document is returned unchanged and the store
    stays as the load left it.  The message is "enter a category name" for
    an empty name, whatever the id; otherwise "category not found" for an
    unknown id; otherwise "need at least one category of each type".
    Without an error the first category with the id carries the trimmed name
    and the requested type, everything else staying as it was, and the
    result is stored. *)
Theorem updateCategory_validation :
  forall (id name : string) (t : CategoryType) (w : World),
    let d := loaded w in
    let r := fst (updateCategory id name t w) in
    let w2 := snd (updateCategory id name t w) in
    (error r <> None <->
     JS.trim name = ""
     \/ find (has_id id) (categories d) = None
     \/ exists (c : JSValue) (t0 : CategoryType),
          find (has_id id) (categories d) = Some c
          /\ type_of c = Some t0 /\ t <> t0
          /\ count_type t0 (categories d) = 1)
    /\ (error r <> None -> data r = d /\ w2 = after_load w)
    /\ (JS.trim name = "" -> error r = Some err_category_name)
    /\ (JS.trim name <> "" ->
        find (has_id id) (categories d) = None ->
        error r = Some err_category_not_found)
    /\ (forall (c : JSValue) (t0 : CategoryType),
          JS.trim name <> "" ->
          find (has_id id) (categories d) = Some c ->
          type_of c = Some t0 ->
          (t <> t0 /\ count_type t0 (categories d) = 1 ->
           error r = Some err_need_each_type)
          /\ (t = t0 \/ count_type t0 (categories d) <> 1 ->
              error r = None
              /\ exists (pre post : list JSValue) (c' : JSValue),
                   categories d = pre ++ c :: post
                   /\ forallb (fun x => negb (has_id id x)) pre = true
                   /\ categories (data r) = pre ++ c' :: post
                   /\ JS.prop "name" c' = JStr (JS.trim name)
                   /\ JS.prop "type" c' = JStr (type_string t)
                   /\ (forall k, k <> "name" -> k <> "type" ->
                         JS.prop k c' = JS.prop k c)
                   /\ entries (data r) = entries d
                   /\ settings w2 = JSON_stringify (data_value (data r)))).
Proof.
  intros id name t w d r w2.
  destruct (updateCategory_cases id name t w) as (Hunch & Hname & Hnone & Hsome).
  fold d r w2 in Hunch, Hname, Hnone, Hsome.
  split;
    [|split; [exact Hunch|split; [exact Hname|split; [exact Hnone|exact Hsome]]]].
  split.
  - intros Herr.
    destruct (string_dec (JS.trim name) "") as [En|En]; [now left|right].
    destruct (find (has_id id) (categories d)) as [c|] eqn:Ef; [right|now left].
    destruct (found_category_typed w id c Ef) as [t0 Ht0].
    exists c, t0. split; [reflexivity|]. split; [assumption|].
    destruct (Hsome c t0 En eq_refl Ht0) as [_ Hok].
    split.
    + intros ->. destruct Hok as [Hok _]; [now left|]. contradiction.
    + destruct (Nat.eq_dec (count_type t0 (categories d)) 1) as [E|E];
        [assumption|].
      destruct Hok as [Hok _]; [now right|]. contradiction.
  - intros [En|[Ef|(c & t0 & Ef & Ht0 & Hne & Hone)]].
    + rewrite (Hname En). discriminate.
    + destruct (string_dec (JS.trim name) "") as [En|En].
      * rewrite (Hname En). discriminate.
      * rewrite (Hnone En Ef). discriminate.
    + destruct (string_dec (JS.trim name) "") as [En|En].
      * rewrite (Hname En). discriminate.
      * destruct (Hsome c t0 En Ef Ht0) as [Herr _].
        rewrite (Herr (conj Hne Hone)). discriminate.
Qed.

Lemma updateCategory_validation_witness :
  JS.trim "  " = ""
  /\ error (fst (updateCategory "cat_3f0c" "  " income first_world))
     = Some err_category_name
  /\ data (fst (updateCategory "cat_3f0c" "  " income first_world))
     = loaded first_world.
Proof.
  split; [reflexivity|].
  pose proof (updateCategory_validation "cat_3f0c" "  " income first_world)
    as (_ & Hunch & Hname & _).
  split.
  - apply Hname. reflexivity.
  - apply Hunch. rewrite (Hname eq_refl). discriminate.
Defined.

(** C9. [updateCategory] never touches [entries]: the returned document has
    the entries of the loaded one, so after a successful change of a
    category's type the entries that refer to it still carry the type and
    [categoryId] they had, and an entry's type can differ from the type of
    its category. *)
Theorem updateCategory_keeps_entries :
  (forall (id name : string) (t : CategoryType) (w : World),
      entries (data (fst (updateCategory id name t w))) = entries (loaded w))
  /\ exists (w : World) (id name : string) (t : CategoryType)
            (e c : JSValue),
       let r := fst (updateCategory id name t w) in
       error r = None
       /\ In e (entries (data r))
       /\ In c (categories (data r))
       /\ JS.prop "categoryId" e = JS.prop "id" c
       /\ type_of e = Some income
       /\ type_of c = Some expense.
Proof.
  split.
  - intros id name t w. rewrite updateCategory_eq. cbv zeta.
    destruct (String.eqb (JS.trim name) ""); [reflexivity|].
    destruct (find _ _); [|reflexivity].
    destruct (negb _ && _); reflexivity.
  - exists two_income_world, "cat_3f0c", "Оклад", expense.
    exists (new_entry salary_input "entry_c2d7").
    exists (category_value "cat_3f0c" "Оклад" expense).
    vm_compute. repeat split; auto.
Qed.

(** ** Deleting a category *)

(** C4, as the code has it.  When [id] is the id of a category and some
    entry refers to it through [categoryId], [deleteCategory id] returns the
    error "category is in use" with the document as the load at the start of
    the call returns it: its categories and its entries are those of that
    loaded document, and the store holds that same document. *)
Theorem deleteCategory_in_use :
  forall (id : string) (w : World),
    existsb (has_id id) (categories (loaded w)) = true ->
    existsb (refers_to id) (entries (loaded w)) = true ->
    error (fst (deleteCategory id w)) = Some err_category_in_use
    /\ categories (data (fst (deleteCategory id w))) = categories (loaded w)
    /\ entries (data (fst (deleteCategory id w))) = entries (loaded w)
    /\ snd (deleteCategory id w) = after_load w
    /\ settings (after_load w) = JSON_stringify (data_value (loaded w)).
Proof.
  intros id w Hcat Huse. rewrite deleteCategory_eq. cbv zeta.
  rewrite find_existsb in Hcat.
  destruct (find (has_id id) (categories (loaded w))); [|discriminate].
  rewrite Huse. simpl. repeat split. apply load_facts.
Qed.

Lemma deleteCategory_in_use_witness :
  existsb (has_id "cat_3f0c") (categories (loaded one_entry_world)) = true
  /\ existsb (refers_to "cat_3f0c") (entries (loaded one_entry_world)) = true
  /\ error (fst (deleteCategory "cat_3f0c" one_entry_world))
     = Some err_category_in_use
  /\ entries (data (fst (deleteCategory "cat_3f0c" one_entry_world)))
     = entries (loaded one_entry_world).
Proof.
  split; [reflexivity|]. split; [reflexivity|].
  pose proof (deleteCategory_in_use "cat_3f0c" one_entry_world eq_refl eq_refl)
    as (Herr & _ & Hent & _).
  split; assumption.
Defined.

(** C4, as stated, fails on a stored document that the load repairs.  The
    text stored in [unrepaired_world] has the income category [a] alone, and
    an entry that refers to it.  [deleteCategory "a"] answers "category is in
    use", yet the returned categories are not those stored before the call:
    the load inside the call has added the default expense category
    [cat_91ab], and the store now holds both. *)
Lemma deleteCategory_in_use_repairs_store :
  let stored := JObj [("categories", JArr [category_value "a" "A" income]);
                      ("entries",
                       JArr [JObj [("id", JStr "e1"); ("type", JStr "income");
                                   ("categoryId", JStr "a");
                                   ("amount", JNum 10);
                                   ("date", JStr "2024-01-05");
                                   ("note", JStr "")]])] in
  JSON_parse (settings unrepaired_world) = Some stored
  /\ existsb (refers_to "a") (JS.array_or_empty (JS.prop "entries" stored))
     = true
  /\ error (fst (deleteCategory "a" unrepaired_world))
     = Some err_category_in_use
  /\ categories (data (fst (deleteCategory "a" unrepaired_world)))
     = [category_value "a" "A" income; category_value "cat_91ab" "Еда" expense]
  /\ JS.array_or_empty (JS.prop "categories" stored)
     = [category_value "a" "A" income]
  /\ JSON_parse (settings (snd (deleteCategory "a" unrepaired_world)))
     = Some (JObj [("categories",
                    JArr [category_value "a" "A" income;
                          category_value "cat_91ab" "Еда" expense]);
                   ("entries", JS.prop "entries" stored)]).
Proof. vm_compute. repeat split. Qed.

(** The same call with an id that only entries carry: the error is
    "category not found", and again nothing changes. *)
Lemma deleteCategory_unknown_id (id : string) (w : World) :
  existsb (has_id id) (categories (loaded w)) = false ->
  deleteCategory id w
  = (mkResult (loaded w) (Some err_category_not_found), after_load w).
Proof.
  intros Hcat. rewrite deleteCategory_eq. cbv zeta.
  rewrite find_existsb in Hcat.
  now destruct (find (has_id id) (categories (loaded w))).
Qed.

(** ** Keeping a category of each type *)

Lemma loaded_counts w t : 1 <= count_type t (categories (loaded w)).
Proof.
  destruct (load_facts w) as (_ & Hboth & _).
  now apply has_each_type_counts.
Qed.

Lemma rename_typed name t cat :
  category_ok cat = true -> type_of (rename name t cat) = Some t.
Proof.
  intros H. destruct (category_object _ H) as [ps ->].
  apply type_of_some, rename_props.
Qed.

Lemma filter_found_single (p : JSValue -> bool) l c :
  find p l = Some c -> List.length (filter p l) <= 1 -> filter p l = [c].
Proof.
  intros Hf Hlen.
  destruct (find_split p l c Hf) as (pre & post & -> & Hc & Hpre).
  assert (Hnil : filter p pre = []).
  { clear Hlen Hf. induction pre as [|a pre IH]; simpl in *; [reflexivity|].
    apply andb_true_iff in Hpre as [Ha Hp]. apply negb_true_iff in Ha.
    rewrite Ha. now apply IH. }
  rewrite filter_app in Hlen |- *. simpl in Hlen |- *.
  rewrite Hc, Hnil in Hlen |- *. simpl in Hlen |- *.
  destruct (filter p post); [reflexivity|simpl in Hlen; lia].
Qed.

Lemma count_type_partition t (p : JSValue -> bool) l :
  count_type t l
  = count_type t (filter p l) + count_type t (filter (fun x => negb (p x)) l).
Proof.
  induction l as [|a l IH]; simpl; [reflexivity|].
  rewrite count_type_cons, IH.
  destruct (p a); simpl; rewrite count_type_cons; lia.
Qed.

Lemma updateCategory_counts id name t w ty :
  1 <= count_type ty (categories (data (fst (updateCategory id name t w)))).
Proof.
  rewrite updateCategory_eq. cbv zeta.
  pose proof (loaded_counts w) as Hcnt.
  destruct (String.eqb (JS.trim name) ""); [apply Hcnt|].
  destruct (find (has_id id) (categories (loaded w))) as [c|] eqn:Ef;
    [|apply Hcnt].
  destruct (found_category_typed w id c Ef) as [t1 Ht1].
  rewrite (sameTypeCount_count c t1 _ Ht1), (has_type_of t t1 c Ht1).
  destruct (negb (CategoryType_eqb t t1)
            && (count_type t1 (categories (loaded w)) <=? 1)%nat) eqn:Eg;
    [apply Hcnt|]. simpl.
  destruct (find_split _ _ _ Ef) as (pre & post & Hsplit & Hidc & Hpre).
  assert (Hok : category_ok c = true).
  { destruct (load_facts w) as (Hok & _).
    apply andb_true_iff in Hok as [Hok _].
    apply (forallb_In _ _ _ Hok). rewrite Hsplit. apply in_elt. }
  pose proof (Hcnt ty) as Hty. pose proof (Hcnt t1) as Ht1c.
  rewrite Hsplit in *.
  rewrite (mutate_found_split _ _ _ _ _ Hidc Hpre).
  rewrite count_type_app, count_type_cons in *.
  rewrite (has_type_of ty t _ (rename_typed (JS.trim name) t c Hok)).
  rewrite (has_type_of ty t1 c Ht1) in Hty.
  rewrite (has_type_of t1 t1 c Ht1) in Ht1c.
  apply andb_false_iff in Eg as [Eg|Eg].
  - apply negb_false_iff, CategoryType_eqb_eq in Eg. subst t1. lia.
  - apply Nat.leb_gt in Eg.
    rewrite ?count_type_app, ?count_type_cons, ?(has_type_of t1 t1 c Ht1) in Eg.
    destruct ty, t, t1; simpl in *; lia.
Qed.

Lemma deleteCategory_counts id w ty :
  List.length (filter (has_id id) (categories (loaded w))) <= 1 ->
  1 <= count_type ty (categories (data (fst (deleteCategory id w)))).
Proof.
  intros Huniq. rewrite deleteCategory_eq. cbv zeta.
  pose proof (loaded_counts w) as Hcnt.
  destruct (find (has_id id) (categories (loaded w))) as [c|] eqn:Ef;
    [|apply Hcnt].
  destruct (found_category_typed w id c Ef) as [t1 Ht1].
  rewrite (sameTypeCount_count c t1 _ Ht1).
  destruct (existsb _ _); [apply Hcnt|].
  destruct (count_type t1 (categories (loaded w)) <=? 1)%nat eqn:Eg;
    [apply Hcnt|]. simpl.
  apply Nat.leb_gt in Eg.
  pose proof (count_type_partition ty (has_id id) (categories (loaded w))) as Hp.
  pose proof (count_type_partition t1 (has_id id) (categories (loaded w))) as Hp1.
  rewrite (filter_found_single _ _ _ Ef Huniq) in Hp, Hp1.
  rewrite count_type_cons in Hp, Hp1.
  rewrite (has_type_of ty t1 c Ht1) in Hp.
  rewrite (has_type_of t1 t1 c Ht1) in Hp1.
  pose proof (Hcnt ty) as Hty.
  unfold count_type at 2 in Hp. unfold count_type at 2 in Hp1. simpl in Hp, Hp1.
  destruct ty, t1; simpl in *; lia.
Qed.

(** C2, as the code has it.  [updateCategory] never leaves a type without a
    category.  [deleteCategory id] never does either when at most one
    category of the loaded document has the id [id].  When the category
    found is the only one of its type, a change of its type and its deletion
    both return an error together with the loaded document, and the store
    stays as the load left it, holding that document. *)
Theorem category_types_survive :
  forall w : World,
    let d := loaded w in
    (forall (id name : string) (t : CategoryType),
        let r := fst (updateCategory id name t w) in
        (forall ty, 1 <= count_type ty (categories (data r)))
        /\ forall (c : JSValue) (t0 : CategoryType),
             find (has_id id) (categories d) = Some c ->
             type_of c = Some t0 -> t <> t0 ->
             count_type t0 (categories d) <= 1 ->
             error r <> None
             /\ updateCategory id name t w = (mkResult d (error r), after_load w))
    /\ (forall id : string,
          let r := fst (deleteCategory id w) in
          (List.length (filter (has_id id) (categories d)) <= 1 ->
           forall ty, 1 <= count_type ty (categories (data r)))
          /\ forall (c : JSValue) (t0 : CategoryType),
               find (has_id id) (categories d) = Some c ->
               type_of c = Some t0 ->
               count_type t0 (categories d) <= 1 ->
               error r <> None
               /\ deleteCategory id w = (mkResult d (error r), after_load w))
    /\ settings (after_load w) = JSON_stringify (data_value d).
Proof.
  intros w d. split; [|split; [|apply load_facts]].
  - intros id name t r. split; [intros ty; apply updateCategory_counts|].
    intros c t0 Ef Ht0 Hne Hone. subst r d.
    rewrite updateCategory_eq. cbv zeta.
    destruct (String.eqb (JS.trim name) ""); [split; [discriminate|reflexivity]|].
    rewrite Ef, (sameTypeCount_count c t0 _ Ht0), (has_type_of t t0 c Ht0).
    apply Nat.leb_le in Hone. rewrite Hone.
    destruct (CategoryType_eqb t t0) eqn:E.
    + apply CategoryType_eqb_eq in E. contradiction.
    + simpl. split; [discriminate|reflexivity].
  - intros id r. split; [intros Hu ty; now apply deleteCategory_counts|].
    intros c t0 Ef Ht0 Hone. subst r d.
    rewrite deleteCategory_eq. cbv zeta.
    rewrite Ef, (sameTypeCount_count c t0 _ Ht0).
    destruct (existsb _ _); [split; [discriminate|reflexivity]|].
    apply Nat.leb_le in Hone. rewrite Hone.
    split; [discriminate|reflexivity].
Qed.

Lemma category_types_survive_witness :
  List.length (filter (has_id "cat_3f0c") (categories (loaded first_world))) <= 1
  /\ (forall ty,
        1 <= count_type ty
               (categories (data (fst (deleteCategory "cat_3f0c" first_world)))))
  /\ error (fst (deleteCategory "cat_3f0c" first_world)) <> None
  /\ error (fst (updateCategory "cat_3f0c" "Оклад" expense first_world)) <> None.
Proof.
  assert (Hu : List.length (filter (has_id "cat_3f0c")
                              (categories (loaded first_world))) <= 1)
    by (vm_compute; lia).
  pose proof (category_types_survive first_world) as (Hupd & Hdel & _).
  split; [exact Hu|]. split; [|split].
  - exact (proj1 (Hdel "cat_3f0c") Hu).
  - refine (proj1 (proj2 (Hdel "cat_3f0c")
                     (category_value "cat_3f0c" "Зарплата" income) income
                     eq_refl eq_refl _)).
    vm_compute; lia.
  - refine (proj1 (proj2 (Hupd "cat_3f0c" "Оклад" expense)
                     (category_value "cat_3f0c" "Зарплата" income) income
                     eq_refl eq_refl _ _)).
    + discriminate.
    + vm_compute; lia.
Defined.

(** C2, as stated, fails on a stored document in which two categories share
    an id: [deleteCategory] removes every category with the id after
    counting the type of the first one.  Here both income categories have
    the id [a]; the call returns no error and leaves no income category. *)
Lemma deleteCategory_shared_id_empties_type :
  count_type income (categories (loaded duplicate_world)) = 2
  /\ error (fst (deleteCategory "a" duplicate_world)) = None
  /\ count_type income
       (categories (data (fst (deleteCategory "a" duplicate_world)))) = 0.
Proof. vm_compute. repeat split. Qed.

(** ** What normalization checks on entries *)

Lemma entry_ok_ignores_note ps v :
  entry_ok (JS.set_prop "note" v (JObj ps)) = entry_ok (JObj ps).
Proof.
  unfold entry_ok, has_type; simpl. now rewrite !assoc_assign.
Qed.

(** C10. On a stored document that parses, [loadFinanceData] returns
    exactly the members of the stored [entries] array that are objects
    whose [id], [categoryId] and [date] are strings, whose [amount] is a
    number and whose [type] is income or expense, in their order.  The note
    plays no part, nor do the categories or the value of the amount: in
    [dangling_world] the returned entry has a negative amount, no note, and
    a [categoryId] that no returned category has as id. *)
Theorem load_checks_entry_shape_only :
  (forall (raw : JSValue) (u : nat -> string) (n : nat),
      entries (loaded (mkWorld (Json raw) u n))
      = filter entry_ok (JS.array_or_empty (JS.prop "entries" raw)))
  /\ (forall item : JSValue, entry_ok item = true <-> entry_shape item)
  /\ (forall (ps : list (string * JSValue)) (v : JSValue),
        entry_ok (JS.set_prop "note" v (JObj ps)) = entry_ok (JObj ps))
  /\ exists (e : JSValue) (x : float),
       In e (entries (loaded dangling_world))
       /\ JS.prop "amount" e = JNum x
       /\ PrimFloat.leb x 0 = true
       /\ JS.prop "note" e = JUndefined
       /\ existsb (fun cat => JS.strict_eq (JS.prop "id" cat)
                                           (JS.prop "categoryId" e))
                  (categories (loaded dangling_world)) = false.
Proof.
  split; [|split; [|split]].
  - intros raw u n. unfold loaded. rewrite loadFinanceData_eq. simpl.
    now rewrite normalizeData_data.
  - apply entry_ok_true.
  - apply entry_ok_ignores_note.
  - exists (JObj [("id", JStr "e1"); ("type", JStr "expense");
                  ("categoryId", JStr "ghost"); ("amount", JNum (-5));
                  ("date", JStr "2024-01-05")]), (-5)%float.
    vm_compute. repeat split; auto.
Qed.

(** ** Amounts *)

(** [updateEntry] refuses an amount that is not finite or not above zero,
    once the entry and the category are found. *)
Lemma updateEntry_rejects_amount (id : string) (input : EntryInput) (w : World) :
  existsb (has_id id) (entries (loaded w)) = true ->
  existsb (has_id (in_categoryId input)) (categories (loaded w)) = true ->
  JS.Number_isFinite (in_amount input) = false
  \/ PrimFloat.leb (in_amount input) 0 = true ->
  updateEntry id input w = (mkResult (loaded w) (Some err_amount), after_load w).
Proof.
  intros He Hc Hbad. rewrite updateEntry_eq. cbv zeta.
  rewrite find_existsb in He.
  destruct (find (has_id id) (entries (loaded w))); [|discriminate].
  rewrite Hc. simpl.
  destruct Hbad as [-> | ->]; [reflexivity|].
  now rewrite orb_true_r.
Qed.

(** The messages that come before the amount is looked at. *)
Lemma updateEntry_unknown_entry (id : string) (input : EntryInput) (w : World) :
  existsb (has_id id) (entries (loaded w)) = false ->
  updateEntry id input w
  = (mkResult (loaded w) (Some err_entry_not_found), after_load w).
Proof.
  intros He. rewrite updateEntry_eq. cbv zeta.
  rewrite find_existsb in He.
  now destruct (find (has_id id) (entries (loaded w))).
Qed.

Lemma overwrite_amount input ps :
  JS.prop "amount" (overwrite input (JObj ps)) = JNum (in_amount input).
Proof. unfold overwrite; simpl. now rewrite !assoc_assign. Qed.

(** A finite amount above zero is stored as given, in the returned document
    and in the stored text. *)
Lemma updateEntry_stores_amount (id : string) (input : EntryInput) (w : World) :
  existsb (has_id id) (entries (loaded w)) = true ->
  existsb (has_id (in_categoryId input)) (categories (loaded w)) = true ->
  JS.Number_isFinite (in_amount input) = true ->
  PrimFloat.leb (in_amount input) 0 = false ->
  exists pre e post,
    entries (loaded w) = pre ++ e :: post
    /\ error (fst (updateEntry id input w)) = None
    /\ entries (data (fst (updateEntry id input w)))
       = pre ++ overwrite input e :: post
    /\ JS.prop "amount" (overwrite input e) = JNum (in_amount input)
    /\ JS.jsonify_number (in_amount input) = JNum (in_amount input).
Proof.
  intros He Hc Hfin Hpos. rewrite updateEntry_eq. cbv zeta.
  rewrite find_existsb in He.
  destruct (find (has_id id) (entries (loaded w))) as [e|] eqn:Ef;
    [|discriminate].
  rewrite Hc, Hfin, Hpos. simpl.
  destruct (find_split _ _ _ Ef) as (pre & post & Hsplit & Hide & Hpre).
  exists pre, e, post. rewrite Hsplit at 2.
  rewrite (mutate_found_split _ _ _ _ _ Hide Hpre).
  repeat split; try assumption.
  - assert (Hok : entry_ok e = true).
    { destruct (load_facts w) as (Hok & _).
      apply andb_true_iff in Hok as [_ Hok].
      apply (forallb_In _ _ _ Hok). rewrite Hsplit. apply in_elt. }
    apply entry_ok_true in Hok as (ps & _ & _ & _ & _ & _ & -> & _).
    apply overwrite_amount.
  - now apply exact_number_jsonify, positive_exact.
Qed.

Lemma addEntry_stores_amount (input : EntryInput) (w : World) :
  existsb (has_id (in_categoryId input)) (categories (loaded w)) = true ->
  JS.Number_isFinite (in_amount input) = true ->
  PrimFloat.leb (in_amount input) 0 = false ->
  exists e,
    entries (fst (addEntry input w)) = e :: entries (loaded w)
    /\ JS.prop "amount" e = JNum (in_amount input)
    /\ JS.jsonify_number (in_amount input) = JNum (in_amount input).
Proof.
  intros Hc Hfin Hpos. rewrite addEntry_eq, Hc. cbv zeta. simpl.
  eexists. split; [reflexivity|]. split.
  - apply new_entry_props.
  - now apply exact_number_jsonify, positive_exact.
Qed.

Lemma above_zero_not_below x :
  PrimFloat.ltb 0 x = true -> PrimFloat.leb x 0 = false.
Proof.
  rewrite ltb_spec, leb_spec.
  change (Prim2SF 0) with (S754_zero false).
  destruct (Prim2SF x) as [[|]| [|] | | [|] m e]; simpl; intros H;
    try discriminate; reflexivity.
Qed.

(** C3, as stated, fails twice.  [addEntry] never looks at the amount: with
    the expense category [cat_91ab] in place an entry of amount -5 is added
    at the front of the empty [entries] instead of being dropped.
    [updateEntry] looks at the amount last: for an id that no entry has, the
    same amount gives "entry not found". *)
Lemma amount_claim_fails :
  let input := mkInput expense "cat_91ab" (-5) "2024-01-05" (Some "") in
  PrimFloat.leb (in_amount input) 0 = true
  /\ entries (loaded first_world) = []
  /\ entries (fst (addEntry input first_world))
     = [new_entry input "entry_c2d7"]
  /\ JS.prop "amount" (new_entry input "entry_c2d7") = JNum (-5)
  /\ error (fst (updateEntry "entry_0000" input first_world))
     = Some err_entry_not_found.
Proof. vm_compute. repeat split. Qed.

(** ** Loading after a mutation *)

Lemma data_value_exact d :
  document_exact d = true -> JS.jsonify (data_value d) = data_value d.
Proof.
  intros H. apply jsonify_exact. unfold document_exact in H.
  apply andb_true_iff in H as [Hc He]. simpl. now rewrite Hc, He.
Qed.

(** Loading a stored document that needs no repair returns it and leaves
    the world as it is. *)
Lemma reload (d : FinanceData) (w : World) :
  items_ok d = true ->
  has_each_type (categories d) = true ->
  document_exact d = true ->
  settings w = JSON_stringify (data_value d) ->
  loadFinanceData w = (d, w).
Proof.
  intros Hok Hboth Hex Hset.
  unfold JSON_stringify in Hset. rewrite (data_value_exact d Hex) in Hset.
  apply andb_true_iff in Hok as [Hcats Hents].
  pose proof Hboth as Hb. apply andb_true_iff in Hb as [Hi He].
  assert (Hcat : sanitized_categories (data_value d) = categories d)
    by (apply filter_all, Hcats).
  assert (Hent : sanitized_entries (data_value d) = entries d)
    by (apply filter_all, Hents).
  rewrite loadFinanceData_eq, Hset.
  rewrite normalizeData_data, normalizeData_world, Hcat, Hent, Hi, He, Hboth.
  simpl. rewrite app_nil_r.
  replace (mkData (categories d) (entries d)) with d by now destruct d.
  f_equal. unfold JSON_stringify. rewrite (data_value_exact d Hex).
  rewrite <- Hset. apply world_eta.
Qed.

Lemma items_ok_loaded w :
  forallb category_ok (categories (loaded w)) = true
  /\ forallb entry_ok (entries (loaded w)) = true.
Proof. destruct (load_facts w) as (H & _). now apply andb_true_iff in H. Qed.

(** Every mutation returns members that pass the filter of [normalizeData]
    and leaves the returned document stored. *)
Lemma run_settled (op : Mutation) (w : World) :
  items_ok (fst (run op w)) = true
  /\ settings (snd (run op w)) = JSON_stringify (data_value (fst (run op w))).
Proof.
  destruct (items_ok_loaded w) as [Hc He].
  destruct (load_facts w) as (Hok & _ & Hset & _).
  unfold items_ok.
  destruct op as [name t|input|id name t|id|id input|id]; simpl;
    unfold returning_data, bind, ret.
  - rewrite addCategory_eq. cbv zeta.
    destruct (String.eqb (JS.trim name) ""); simpl; [now rewrite Hc, He|].
    rewrite forallb_app, Hc, He. simpl. now rewrite category_value_ok.
  - rewrite addEntry_eq. cbv zeta.
    destruct (existsb _ _); simpl; [|now rewrite Hc, He].
    now rewrite new_entry_ok, Hc, He.
  - rewrite updateCategory_eq. cbv zeta.
    destruct (String.eqb (JS.trim name) ""); simpl; [now rewrite Hc, He|].
    destruct (find _ _); simpl; [|now rewrite Hc, He].
    destruct (negb _ && _); simpl; [now rewrite Hc, He|].
    rewrite He, forallb_mutate_found; auto using rename_ok.
  - rewrite deleteCategory_eq. cbv zeta.
    destruct (find _ _); simpl; [|now rewrite Hc, He].
    destruct (existsb _ _); simpl; [now rewrite Hc, He|].
    destruct (_ <=? _)%nat; simpl; [now rewrite Hc, He|].
    now rewrite He, forallb_filter_sub.
  - rewrite updateEntry_eq. cbv zeta.
    destruct (find _ _); simpl; [|now rewrite Hc, He].
    destruct (negb (existsb _ _)); simpl; [now rewrite Hc, He|].
    destruct (negb _ || _); simpl; [now rewrite Hc, He|].
    rewrite Hc, forallb_mutate_found; auto using overwrite_ok.
  - rewrite deleteEntry_eq. cbv zeta. simpl.
    now rewrite Hc, forallb_filter_sub.
Qed.

(** C7, as the code has it.  After any of the six mutations,
    [loadFinanceData] returns the very document the mutation returned, and
    changes nothing, provided that document holds no [undefined] and only
    finite numbers other than negative zero, and has a category of each
    type. *)
Theorem load_after_mutation :
  forall (op : Mutation) (w : World),
    let d := fst (run op w) in
    let w' := snd (run op w) in
    document_exact d = true ->
    has_each_type (categories d) = true ->
    loadFinanceData w' = (d, w').
Proof.
  intros op w d w' Hex Hboth.
  destruct (run_settled op w) as [Hok Hset].
  now apply reload.
Qed.

Lemma load_after_mutation_witness :
  document_exact (fst (run (AddEntry salary_input) first_world)) = true
  /\ has_each_type (categories (fst (run (AddEntry salary_input) first_world)))
     = true
  /\ loadFinanceData (snd (run (AddEntry salary_input) first_world))
     = (fst (run (AddEntry salary_input) first_world),
        snd (run (AddEntry salary_input) first_world)).
Proof.
  split; [reflexivity|]. split; [reflexivity|].
  apply (load_after_mutation (AddEntry salary_input) first_world);
    reflexivity.
Defined.

(** C7, as stated, fails.  (1) The stored entry of [overflow_world] has the
    amount [Infinity]; [deleteEntry] of an unknown id returns it, the store
    receives [null] for the amount, and the next load drops the entry.
    (2) [addEntry] with the amount [NaN] returns the new entry, and the next
    load drops it for the same reason.  (3) In [duplicate_world]
    [deleteCategory] returns a document without income category, and the
    next load appends the default one. *)
Lemma load_after_mutation_differs :
  (List.length (entries (fst (run (DeleteEntry "e0") overflow_world))) = 1
   /\ List.length
        (entries (fst (loadFinanceData
                         (snd (run (DeleteEntry "e0") overflow_world))))) = 0)
  /\ (List.length
        (entries (fst (run (AddEntry (mkInput income "cat_3f0c" nan
                                               "2024-01-05" (Some "")))
                           first_world))) = 1
      /\ List.length
           (entries
              (fst (loadFinanceData
                      (snd (run (AddEntry (mkInput income "cat_3f0c" nan
                                                   "2024-01-05" (Some "")))
                                first_world))))) = 0)
  /\ (List.length
        (categories (fst (run (DeleteCategory "a") duplicate_world))) = 1
      /\ List.length
           (categories
              (fst (loadFinanceData
                      (snd (run (DeleteCategory "a") duplicate_world))))) = 2).
Proof. vm_compute. repeat split. Qed.

(** ** The remaining outcomes of the mutations *)

Lemma filter_none {A} (p : A -> bool) l :
  existsb p l = false -> filter (fun x => negb (p x)) l = l.
Proof.
  induction l as [|a l IH]; simpl; [reflexivity|].
  intros H. apply orb_false_iff in H as [Ha Hl]. now rewrite Ha, IH.
Qed.

Lemma existsb_filter_out {A} (p : A -> bool) l :
  existsb p (filter (fun x => negb (p x)) l) = false.
Proof.
  induction l as [|a l IH]; simpl; [reflexivity|].
  destruct (p a) eqn:E; simpl; [assumption|now rewrite E].
Qed.

(** X1. [addCategory] with a name that trims to the empty string returns
    the loaded document and leaves the store as the load left it, without
    taking an identifier.  Otherwise it appends one category after the
    existing ones, with id [cat_] followed by the next identifier, the
    trimmed name and the given type, leaves the entries alone and stores the
    result. *)
Theorem addCategory_appends :
  forall (name : string) (t : CategoryType) (w : World),
    let d := loaded w in
    let w1 := after_load w in
    (JS.trim name = "" -> addCategory name t w = (d, w1))
    /\ (JS.trim name <> "" ->
        exists c : JSValue,
          fst (addCategory name t w) = mkData (categories d ++ [c]) (entries d)
          /\ JS.prop "id" c = JStr (next_id "cat" w1)
          /\ JS.prop "name" c = JStr (JS.trim name)
          /\ JS.prop "type" c = JStr (type_string t)
          /\ drawn (snd (addCategory name t w)) = S (drawn w1)
          /\ settings (snd (addCategory name t w))
             = JSON_stringify (data_value (fst (addCategory name t w)))).
Proof.
  intros name t w d w1. rewrite addCategory_eq. fold d w1. split; intros E.
  - now rewrite E.
  - apply String.eqb_neq in E. rewrite E.
    eexists. simpl. repeat split; reflexivity.
Qed.

Lemma addCategory_appends_witness :
  (JS.trim "   " = ""
   /\ addCategory "   " income first_world
      = (loaded first_world, after_load first_world))
  /\ (JS.trim " Премия " <> ""
      /\ exists c : JSValue,
           fst (addCategory " Премия " income first_world)
           = mkData (categories (loaded first_world) ++ [c])
                    (entries (loaded first_world))
           /\ JS.prop "id" c = JStr "cat_c2d7"
           /\ JS.prop "name" c = JStr "Премия").
Proof.
  split.
  - split; [reflexivity|].
    apply (addCategory_appends "   " income first_world). reflexivity.
  - assert (Hn : JS.trim " Премия " <> "") by (vm_compute; discriminate).
    split; [exact Hn|].
    destruct (proj2 (addCategory_appends " Премия " income first_world) Hn)
      as (c & Hd & Hid & Hname & _).
    exists c. repeat split; assumption.
Defined.

(** X2. [deleteEntry] never fails and never touches the categories.  It
    removes every entry that has the id and keeps the others in their order;
    when no entry has the id the entries come back as loaded.  The result is
    stored. *)
Theorem deleteEntry_removes :
  forall (id : string) (w : World),
    let d := loaded w in
    let r := fst (deleteEntry id w) in
    categories r = categories d
    /\ entries r = filter (fun e => negb (has_id id e)) (entries d)
    /\ existsb (has_id id) (entries r) = false
    /\ (forall e : JSValue,
          In e (entries r) <-> In e (entries d) /\ has_id id e = false)
    /\ (existsb (has_id id) (entries d) = false -> entries r = entries d)
    /\ settings (snd (deleteEntry id w)) = JSON_stringify (data_value r).
Proof.
  intros id w d r. subst r. rewrite deleteEntry_eq. cbv zeta. fold d. simpl.
  split; [reflexivity|]. split; [reflexivity|].
  split; [apply existsb_filter_out|]. split; [|split; [|reflexivity]].
  - intros e. rewrite filter_In, negb_true_iff. reflexivity.
  - apply filter_none.
Qed.

Lemma deleteEntry_removes_witness :
  existsb (has_id "entry_0000") (entries (loaded one_entry_world)) = false
  /\ entries (fst (deleteEntry "entry_0000" one_entry_world))
     = entries (loaded one_entry_world).
Proof.
  split; [reflexivity|].
  apply (deleteEntry_removes "entry_0000" one_entry_world). reflexivity.
Defined.

Lemma overwrite_props input ps :
  JS.prop "type" (overwrite input (JObj ps)) = JStr (type_string (in_type input))
  /\ JS.prop "categoryId" (overwrite input (JObj ps)) = JStr (in_categoryId input)
  /\ JS.prop "amount" (overwrite input (JObj ps)) = JNum (in_amount input)
  /\ JS.prop "date" (overwrite input (JObj ps)) = JStr (in_date input)
  /\ JS.prop "note" (overwrite input (JObj ps)) = JStr (note_or_empty input)
  /\ forall k, k <> "type" -> k <> "categoryId" -> k <> "amount" ->
       k <> "date" -> k <> "note" ->
       JS.prop k (overwrite input (JObj ps)) = JS.prop k (JObj ps).
Proof.
  unfold overwrite; simpl. rewrite !assoc_assign; simpl. repeat split.
  intros k H1 H2 H3 H4 H5. rewrite !assoc_assign.
  apply String.eqb_neq in H1, H2, H3, H4, H5.
  now rewrite H1, H2, H3, H4, H5.
Qed.

Lemma entry_object item : entry_ok item = true -> exists ps, item = JObj ps.
Proof.
  rewrite entry_ok_true. intros (ps & _ & _ & _ & _ & _ & -> & _). eauto.
Qed.

(** X3. [updateEntry] checks, in this order, that an entry has the id
    ("entry not found"), that a category has the input's [categoryId]
    ("category not found"), and that the amount is finite and above zero
    ("enter an amount greater than 0").  It returns an error exactly when
    one check fails, and then returns the loaded document and leaves the
    store as the load left it.  Otherwise the first entry with the id gets
    the input's type, categoryId, amount, date and note (the empty string
    when the input has none), keeps its place, its id and its other
    properties; the other entries and the categories stay, and the result is
    stored. *)
Theorem updateEntry_outcomes :
  forall (id : string) (input : EntryInput) (w : World),
    let d := loaded w in
    let r := fst (updateEntry id input w) in
    let w2 := snd (updateEntry id input w) in
    let known := existsb (has_id id) (entries d) in
    let resolved := existsb (has_id (in_categoryId input)) (categories d) in
    let bad := negb (JS.Number_isFinite (in_amount input))
               || PrimFloat.leb (in_amount input) 0 in
    (error r <> None <-> known = false \/ resolved = false \/ bad = true)
    /\ (error r <> None -> data r = d /\ w2 = after_load w)
    /\ (known = false -> error r = Some err_entry_not_found)
    /\ (known = true -> resolved = false ->
        error r = Some err_category_not_found)
    /\ (known = true -> resolved = true -> bad = true ->
        error r = Some err_amount)
    /\ (known = true -> resolved = true -> bad = false ->
        error r = None
        /\ categories (data r) = categories d
        /\ settings w2 = JSON_stringify (data_value (data r))
        /\ exists (pre post : list JSValue) (e e' : JSValue),
             entries d = pre ++ e :: post
             /\ forallb (fun x => negb (has_id id x)) pre = true
             /\ has_id id e = true
             /\ entries (data r) = pre ++ e' :: post
             /\ JS.prop "type" e' = JStr (type_string (in_type input))
             /\ JS.prop "categoryId" e' = JStr (in_categoryId input)
             /\ JS.prop "amount" e' = JNum (in_amount input)
             /\ JS.prop "date" e' = JStr (in_date input)
             /\ JS.prop "note" e'
                = JStr (match in_note input with Some s => s | None => "" end)
             /\ forall k, k <> "type" -> k <> "categoryId" -> k <> "amount" ->
                  k <> "date" -> k <> "note" -> JS.prop k e' = JS.prop k e).
Proof.
  intros id input w d r w2 known resolved bad.
  subst r w2. rewrite updateEntry_eq. cbv zeta. fold d.
  assert (Hk : known = match find (has_id id) (entries d) with
                       | Some _ => true | None => false end)
    by apply find_existsb.
  clearbody known.
  destruct (find (has_id id) (entries d)) as [e|] eqn:Ef; subst known.
  2:{ simpl. split; [split; [intros _; now left|intros _; discriminate]|].
      split; [split; reflexivity|]. split; [reflexivity|].
      repeat split; intros; discriminate. }
  fold resolved. destruct resolved eqn:Hc.
  2:{ simpl. split; [split; [intros _; right; now left|intros _; discriminate]|].
      split; [split; reflexivity|]. split; [discriminate|].
      split; [reflexivity|]. split; intros; discriminate. }
  fold bad. destruct bad eqn:Hb.
  { simpl. split; [split; [intros _; right; now right|intros _; discriminate]|].
    split; [split; reflexivity|]. split; [discriminate|].
    split; [discriminate|]. split; [reflexivity|]. intros; discriminate. }
  simpl.
  split.
  { split; [intros H; now elim H|]. intros [H|[H|H]]; discriminate. }
  split; [intros H; now elim H|]. split; [discriminate|].
  split; [discriminate|]. split; [discriminate|].
  intros _ _ _. split; [reflexivity|]. split; [reflexivity|].
  split; [reflexivity|].
  destruct (find_split _ _ _ Ef) as (pre & post & Hsplit & Hide & Hpre).
  assert (Hok : entry_ok e = true).
  { destruct (items_ok_loaded w) as [_ Hok].
    apply (forallb_In _ _ _ Hok). fold d. rewrite Hsplit. apply in_elt. }
  destruct (entry_object _ Hok) as [ps ->].
  destruct (overwrite_props input ps) as (H1 & H2 & H3 & H4 & H5 & H6).
  exists pre, post, (JObj ps), (overwrite input (JObj ps)).
  split; [assumption|]. split; [assumption|]. split; [assumption|].
  split; [rewrite Hsplit; now apply mutate_found_split|].
  repeat split; assumption.
Qed.

Lemma updateEntry_outcomes_witness :
  existsb (has_id "entry_c2d7") (entries (loaded one_entry_world)) = true
  /\ existsb (has_id "cat_0000") (categories (loaded one_entry_world)) = false
  /\ error (fst (updateEntry "entry_c2d7"
                    (mkInput income "cat_0000" 0 "2024-01-05" None)
                    one_entry_world))
     = Some err_category_not_found.
Proof.
  split; [reflexivity|]. split; [reflexivity|].
  exact (proj1 (proj2 (proj2 (proj2
           (updateEntry_outcomes "entry_c2d7"
              (mkInput income "cat_0000" 0 "2024-01-05" None)
              one_entry_world)))) eq_refl eq_refl).
Defined.

(** X4. [deleteCategory] checks, in this order, that a category has the id
    ("category not found"), that no entry refers to the id ("category is in
    use") and that the category found is not the only one of its type
    ("need at least one category of each type").  With an error it returns
    the loaded document and leaves the store as the load left it.
    Otherwise it removes every category that has the id, keeps the others
    in their order, leaves the entries alone and stores the result. *)
Theorem deleteCategory_outcomes :
  forall (id : string) (w : World),
    let d := loaded w in
    let r := fst (deleteCategory id w) in
    let w2 := snd (deleteCategory id w) in
    let used := existsb (refers_to id) (entries d) in
    (error r <> None -> data r = d /\ w2 = after_load w)
    /\ (find (has_id id) (categories d) = None ->
        error r = Some err_category_not_found)
    /\ (forall (c : JSValue) (t0 : CategoryType),
          find (has_id id) (categories d) = Some c ->
          type_of c = Some t0 ->
          (used = true -> error r = Some err_category_in_use)
          /\ (used = false -> count_type t0 (categories d) = 1 ->
              error r = Some err_need_each_type)
          /\ (used = false -> count_type t0 (categories d) <> 1 ->
              error r = None
              /\ categories (data r)
                 = filter (fun cat => negb (has_id id cat)) (categories d)
              /\ existsb (has_id id) (categories (data r)) = false
              /\ entries (data r) = entries d
              /\ settings w2 = JSON_stringify (data_value (data r)))).
Proof.
  intros id w d r w2 used. subst r w2. rewrite deleteCategory_eq. cbv zeta.
  fold d. fold used.
  destruct (find (has_id id) (categories d)) as [c|] eqn:Ef.
  2:{ simpl. split; [intros _; split; reflexivity|].
      split; [reflexivity|]. intros c t0 H; discriminate. }
  destruct (found_category_typed w id c Ef) as [t1 Ht1].
  pose proof (find_some _ _ Ef) as [Hin Hidc].
  assert (Hc1 : 1 <= count_type t1 (categories d)).
  { apply count_type_exists, existsb_exists. exists c. split; [assumption|].
    rewrite (has_type_of t1 t1 c Ht1). now destruct t1. }
  rewrite (sameTypeCount_count c t1 _ Ht1).
  destruct used eqn:Hu.
  { simpl. split; [intros _; split; reflexivity|]. split; [discriminate|].
    intros c0 t0 Hc0 Ht0. repeat split; try reflexivity; intros; discriminate. }
  destruct (count_type t1 (categories d) <=? 1)%nat eqn:Ec.
  - apply Nat.leb_le in Ec.
    simpl. split; [intros _; split; reflexivity|]. split; [discriminate|].
    intros c0 t0 Hc0 Ht0. injection Hc0 as <-.
    assert (t0 = t1) by congruence; subst t0.
    split; [discriminate|]. split; [reflexivity|].
    intros _ Hne. exfalso. lia.
  - apply Nat.leb_gt in Ec.
    simpl. split; [intros H; now elim H|]. split; [discriminate|].
    intros c0 t0 Hc0 Ht0. injection Hc0 as <-.
    assert (t0 = t1) by congruence; subst t0.
    split; [discriminate|]. split; [intros _ Hone; exfalso; lia|].
    intros _ _. repeat split. apply existsb_filter_out.
Qed.

Lemma deleteCategory_outcomes_witness :
  find (has_id "cat_3f0c") (categories (loaded two_income_world))
  = Some (category_value "cat_3f0c" "Зарплата" income)
  /\ existsb (refers_to "cat_3f0c") (entries (loaded two_income_world)) = true
  /\ error (fst (deleteCategory "cat_3f0c" two_income_world))
     = Some err_category_in_use.
Proof.
  split; [reflexivity|]. split; [reflexivity|].
  exact (proj1 (proj2 (proj2 (deleteCategory_outcomes "cat_3f0c" two_income_world))
                  (category_value "cat_3f0c" "Зарплата" income) income
                  eq_refl eq_refl) eq_refl).
Defined.

(** ** Invariants kept by the mutations *)

Lemma existsb_mutate_found (q p : JSValue -> bool) f l :
  (forall x, q (f x) = q x) ->
  existsb q (mutate_found p f l) = existsb q l.
Proof.
  intros Hf. induction l as [|a l IH]; simpl; [reflexivity|].
  destruct (p a); simpl; [now rewrite Hf|now rewrite IH].
Qed.

Lemma rename_has_id s name t cat : has_id s (rename name t cat) = has_id s cat.
Proof.
  destruct cat; try reflexivity.
  unfold has_id, rename; simpl. now rewrite !assoc_assign.
Qed.

Lemma overwrite_has_id s input entry :
  has_id s (overwrite input entry) = has_id s entry.
Proof.
  destruct entry; try reflexivity.
  unfold has_id, overwrite; simpl. now rewrite !assoc_assign.
Qed.

Lemma resolves_more cats cats' e :
  (forall s, existsb (has_id s) cats = true -> existsb (has_id s) cats' = true) ->
  resolves cats e = true -> resolves cats' e = true.
Proof.
  unfold resolves. intros H. destruct (JS.prop "categoryId" e); auto.
Qed.

Lemma forallb_impl {A} (p q : A -> bool) l :
  (forall x, p x = true -> q x = true) ->
  forallb p l = true -> forallb q l = true.
Proof.
  intros H. induction l as [|a l IH]; simpl; [reflexivity|].
  intros E. apply andb_true_iff in E as [Ea El]. now rewrite (H a Ea), IH.
Qed.

Lemma has_id_other s id c :
  has_id s c = true -> String.eqb s id = false -> has_id id c = false.
Proof.
  unfold has_id. intros H E. apply eq_str_true in H. now rewrite H.
Qed.

Lemma resolves_after_removal id cats e :
  refers_to id e = false -> resolves cats e = true ->
  resolves (filter (fun cat => negb (has_id id cat)) cats) e = true.
Proof.
  unfold resolves, refers_to. destruct (JS.prop "categoryId" e); try discriminate.
  simpl. intros Hne H. apply existsb_exists in H as (c & Hin & Hc).
  apply existsb_exists. exists c. split; [|assumption].
  apply filter_In. split; [assumption|].
  now rewrite (has_id_other s id c Hc Hne).
Qed.

Lemma overwrite_resolves input cats e :
  existsb (has_id (in_categoryId input)) cats = true ->
  resolves cats e = true -> resolves cats (overwrite input e) = true.
Proof.
  intros Hc. destruct e; try (intros H; exact H). intros _.
  unfold resolves. destruct (overwrite_props input props) as (_ & -> & _).
  assumption.
Qed.

(** X5. No mutation creates a dangling reference: when every entry of the
    loaded document refers to one of its categories, the same holds of the
    document the mutation returns. *)
Theorem references_preserved :
  forall (op : Mutation) (w : World),
    refs_ok (loaded w) = true -> refs_ok (fst (run op w)) = true.
Proof.
  intros op w H. unfold refs_ok in *.
  destruct op as [name t|input|id name t|id|id input|id]; simpl;
    unfold returning_data, bind, ret.
  - rewrite addCategory_eq. cbv zeta.
    destruct (String.eqb (JS.trim name) ""); simpl; [assumption|].
    revert H. apply forallb_impl. intros e. apply resolves_more.
    intros s Hs. rewrite existsb_app, Hs. reflexivity.
  - rewrite addEntry_eq. cbv zeta.
    destruct (existsb _ _) eqn:Hc; cbn [fst categories entries forallb];
      [|assumption].
    rewrite H, andb_true_r. unfold resolves.
    destruct (new_entry_props input ("entry_" ++ uuids (after_load w)
                                                  (drawn (after_load w))))
      as (_ & _ & _ & -> & _).
    assumption.
  - rewrite updateCategory_eq. cbv zeta.
    destruct (String.eqb (JS.trim name) ""); simpl; [assumption|].
    destruct (find _ _); simpl; [|assumption].
    destruct (negb _ && _); simpl; [assumption|].
    revert H. apply forallb_impl. intros e. apply resolves_more.
    intros s Hs. rewrite existsb_mutate_found; [assumption|].
    intros x. apply rename_has_id.
  - rewrite deleteCategory_eq. cbv zeta.
    destruct (find _ _); simpl; [|assumption].
    destruct (existsb (refers_to id) _) eqn:Hu; simpl; [assumption|].
    destruct (_ <=? _)%nat; simpl; [assumption|].
    apply forallb_forall. intros e Hin.
    apply resolves_after_removal.
    + destruct (refers_to id e) eqn:E; [|reflexivity].
      assert (existsb (refers_to id) (entries (loaded w)) = true)
        by (apply existsb_exists; eauto).
      congruence.
    + now apply (forallb_In _ _ _ H).
  - rewrite updateEntry_eq. cbv zeta.
    destruct (find _ _); simpl; [|assumption].
    destruct (existsb _ _) eqn:Hc; simpl; [|assumption].
    destruct (negb _ || _); simpl; [assumption|].
    apply forallb_mutate_found; [|assumption].
    intros x. now apply overwrite_resolves.
  - rewrite deleteEntry_eq. cbv zeta. simpl.
    now apply forallb_filter_sub.
Qed.

Lemma references_preserved_witness :
  refs_ok (loaded one_entry_world) = true
  /\ refs_ok (fst (run (DeleteCategory "cat_91ab") one_entry_world)) = true.
Proof.
  split; [reflexivity|].
  apply (references_preserved (DeleteCategory "cat_91ab") one_entry_world).
  reflexivity.
Defined.

Lemma NoDup_map_filter {A B} (f : A -> B) (p : A -> bool) l :
  NoDup (map f l) -> NoDup (map f (filter p l)).
Proof.
  induction l as [|a l IH]; simpl; [auto|].
  intros H. inversion H as [|? ? Hn Hl]; subst.
  destruct (p a); simpl; [|auto].
  constructor; [|auto].
  intros Hin. apply Hn. apply in_map_iff in Hin as (x & Hx & Hin).
  apply in_map_iff. exists x. split; [assumption|].
  now apply filter_In in Hin.
Qed.

Lemma NoDup_snoc {A} (l : list A) x : NoDup l -> ~ In x l -> NoDup (l ++ [x]).
Proof.
  induction l as [|a l IH]; simpl; intros H Hn.
  - constructor; [auto|constructor].
  - inversion H as [|? ? Ha Hl]; subst. constructor.
    + rewrite in_app_iff. simpl. intros [Hin|[->|[]]]; [auto|].
      apply Hn. now left.
    + apply IH; [assumption|]. intros Hin. apply Hn. now right.
Qed.

Lemma map_mutate_found {B} (g : JSValue -> B) (p : JSValue -> bool) f l :
  (forall x, g (f x) = g x) -> map g (mutate_found p f l) = map g l.
Proof.
  intros Hf. induction l as [|a l IH]; simpl; [reflexivity|].
  destruct (p a); simpl; [now rewrite Hf|now rewrite IH].
Qed.

Lemma rename_id name t cat : JS.prop "id" (rename name t cat) = JS.prop "id" cat.
Proof.
  destruct cat; try reflexivity.
  unfold rename; simpl. now rewrite !assoc_assign.
Qed.

Lemma overwrite_id input entry :
  JS.prop "id" (overwrite input entry) = JS.prop "id" entry.
Proof.
  destruct entry; try reflexivity.
  unfold overwrite; simpl. now rewrite !assoc_assign.
Qed.

Lemma id_not_in s l : existsb (has_id s) l = false -> ~ In (JStr s) (ids l).
Proof.
  intros H Hin. apply in_map_iff in Hin as (c & Hc & Hin).
  assert (existsb (has_id s) l = true); [|congruence].
  apply existsb_exists. exists c. split; [assumption|].
  now apply eq_str_true.
Qed.

(** X6. The service keeps identifiers unique.  When no two categories and
    no two entries of the loaded document share an id, the same holds of the
    document a mutation returns, provided the identifier that
    [crypto.randomUUID] hands to [addCategory] or [addEntry] is not already
    the id of a category, respectively of an entry. *)
Theorem ids_stay_unique :
  forall (op : Mutation) (w : World),
    NoDup (ids (categories (loaded w))) ->
    NoDup (ids (entries (loaded w))) ->
    fresh_for op w ->
    NoDup (ids (categories (fst (run op w))))
    /\ NoDup (ids (entries (fst (run op w)))).
Proof.
  intros op w Hc He Hfresh. unfold ids in *.
  destruct op as [name t|input|id name t|id|id input|id];
    cbn [run fresh_for] in *; unfold returning_data, bind, ret;
    cbn [fst snd].
  - rewrite addCategory_eq. cbv zeta.
    destruct (String.eqb (JS.trim name) ""); simpl; [split; assumption|].
    split; [|assumption]. rewrite map_app. simpl.
    apply NoDup_snoc; [assumption|]. now apply id_not_in.
  - rewrite addEntry_eq. cbv zeta.
    destruct (existsb (has_id (in_categoryId input)) _);
      cbn [fst categories entries map]; [|split; assumption].
    split; [assumption|].
    destruct (new_entry_props input
                ("entry_" ++ uuids (after_load w) (drawn (after_load w))))
      as (-> & _).
    constructor; [|assumption]. now apply id_not_in.
  - rewrite updateCategory_eq. cbv zeta.
    destruct (String.eqb (JS.trim name) ""); simpl; [split; assumption|].
    destruct (find _ _); simpl; [|split; assumption].
    destruct (negb _ && _); simpl; [split; assumption|].
    split; [|assumption].
    rewrite map_mutate_found; [assumption|]. intros x. apply rename_id.
  - rewrite deleteCategory_eq. cbv zeta.
    destruct (find _ _); simpl; [|split; assumption].
    destruct (existsb _ _); simpl; [split; assumption|].
    destruct (_ <=? _)%nat; simpl; [split; assumption|].
    split; [|assumption]. now apply NoDup_map_filter.
  - rewrite updateEntry_eq. cbv zeta.
    destruct (find _ _); simpl; [|split; assumption].
    destruct (negb (existsb _ _)); simpl; [split; assumption|].
    destruct (negb _ || _); simpl; [split; assumption|].
    split; [assumption|].
    rewrite map_mutate_found; [assumption|]. intros x. apply overwrite_id.
  - rewrite deleteEntry_eq. cbv zeta. simpl.
    split; [assumption|]. now apply NoDup_map_filter.
Qed.

Lemma ids_stay_unique_witness :
  NoDup (ids (categories (loaded first_world)))
  /\ NoDup (ids (entries (loaded first_world)))
  /\ fresh_for (AddCategory "Премия" income) first_world
  /\ NoDup (ids (categories (fst (run (AddCategory "Премия" income)
                                      first_world)))).
Proof.
  assert (Hc : NoDup (ids (categories (loaded first_world)))).
  { vm_compute. repeat constructor; simpl; intuition discriminate. }
  assert (He : NoDup (ids (entries (loaded first_world))))
    by (vm_compute; constructor).
  assert (Hf : fresh_for (AddCategory "Премия" income) first_world)
    by reflexivity.
  split; [exact Hc|]. split; [exact He|]. split; [exact Hf|].
  exact (proj1 (ids_stay_unique (AddCategory "Премия" income) first_world
                  Hc He Hf)).
Defined.

Lemma overwrite_amount_ok input entry :
  JS.Number_isFinite (in_amount input) = true ->
  PrimFloat.leb (in_amount input) 0 = false ->
  amount_ok entry = true -> amount_ok (overwrite input entry) = true.
Proof.
  intros Hf Hp. destruct entry; try (intros H; exact H). intros _.
  unfold amount_ok. rewrite overwrite_amount. now rewrite Hf, Hp.
Qed.

Lemma run_keeps_amounts :
  forall (op : Mutation) (w : World),
    forallb amount_ok (entries (loaded w)) = true ->
    brings_amount_ok op ->
    forallb amount_ok (entries (fst (run op w))) = true.
Proof.
  intros op w H Hin.
  destruct op as [name t|input|id name t|id|id input|id];
    cbn [run brings_amount_ok] in *; unfold returning_data, bind, ret;
    cbn [fst snd].
  - rewrite addCategory_eq. cbv zeta.
    now destruct (String.eqb (JS.trim name) "").
  - rewrite addEntry_eq. cbv zeta.
    destruct (existsb _ _); cbn [fst categories entries forallb]; [|assumption].
    rewrite H, andb_true_r. unfold amount_ok.
    destruct (new_entry_props input
                ("entry_" ++ uuids (after_load w) (drawn (after_load w))))
      as (_ & _ & _ & _ & -> & _).
    destruct Hin as [-> ->]. reflexivity.
  - rewrite updateCategory_eq. cbv zeta.
    destruct (String.eqb (JS.trim name) ""); simpl; [assumption|].
    destruct (find _ _); simpl; [|assumption].
    now destruct (negb _ && _).
  - rewrite deleteCategory_eq. cbv zeta.
    destruct (find _ _); simpl; [|assumption].
    destruct (existsb _ _); simpl; [assumption|].
    now destruct (_ <=? _)%nat.
  - rewrite updateEntry_eq. cbv zeta.
    destruct (find _ _); simpl; [|assumption].
    destruct (negb (existsb _ _)); simpl; [assumption|].
    destruct (negb _ || _) eqn:Hb; simpl; [assumption|].
    apply orb_false_iff in Hb as [Hf Hp]. apply negb_false_iff in Hf.
    apply forallb_mutate_found; [|assumption].
    intros x. now apply overwrite_amount_ok.
  - rewrite deleteEntry_eq. cbv zeta. simpl.
    now apply forallb_filter_sub.
Qed.

(** X7. Every mutation except [addEntry] keeps amounts finite and above
    zero: when every entry of the loaded document has such an amount, so
    has every entry of the document the mutation returns.  [addEntry] does
    so when the amount it is given is finite and above zero, which it does
    not check. *)
Theorem amounts_preserved :
  forall (op : Mutation) (w : World),
    forallb amount_ok (entries (loaded w)) = true ->
    brings_amount_ok op ->
    forallb amount_ok (entries (fst (run op w))) = true.
Proof. exact run_keeps_amounts. Qed.

Lemma amounts_preserved_witness :
  forallb amount_ok (entries (loaded one_entry_world)) = true
  /\ brings_amount_ok
       (UpdateEntry "entry_c2d7" (mkInput income "cat_3f0c" 250 "2024-02-01" None))
  /\ forallb amount_ok
       (entries (fst (run (UpdateEntry "entry_c2d7"
                             (mkInput income "cat_3f0c" 250 "2024-02-01" None))
                          one_entry_world))) = true.
Proof.
  split; [reflexivity|]. split; [exact I|].
  apply (amounts_preserved
           (UpdateEntry "entry_c2d7"
              (mkInput income "cat_3f0c" 250 "2024-02-01" None))
           one_entry_world); [reflexivity|exact I].
Defined.

(** ** What the stored text keeps *)

Lemma prop_jsonify_str k ps s :
  JS.assoc k ps = JStr s -> JS.prop k (JS.jsonify (JObj ps)) = JStr s.
Proof.
  simpl. induction ps as [|[k0 v0] r IH]; simpl; [discriminate|].
  destruct (String.eqb k k0) eqn:E.
  - intros ->. simpl. now rewrite E.
  - intros H. destruct v0; simpl; rewrite ?E; auto.
Qed.

Lemma prop_jsonify_num k ps x :
  JS.assoc k ps = JNum x ->
  JS.prop k (JS.jsonify (JObj ps)) = JS.jsonify_number x.
Proof.
  simpl. induction ps as [|[k0 v0] r IH]; simpl; [discriminate|].
  destruct (String.eqb k k0) eqn:E.
  - intros ->. simpl. now rewrite E.
  - intros H. destruct v0; simpl; rewrite ?E; auto.
Qed.

Lemma jsonify_object ps : exists ps', JS.jsonify (JObj ps) = JObj ps'.
Proof. simpl. eauto. Qed.

Lemma jsonify_category c :
  category_ok c = true ->
  category_ok (JS.jsonify c) = true
  /\ JS.prop "id" (JS.jsonify c) = JS.prop "id" c
  /\ JS.prop "name" (JS.jsonify c) = JS.prop "name" c
  /\ JS.prop "type" (JS.jsonify c) = JS.prop "type" c.
Proof.
  intros H. apply category_ok_true in H as (ps & i & n & t & -> & Hi & Hn & Ht).
  pose proof (prop_jsonify_str "id" ps i Hi) as Ji.
  pose proof (prop_jsonify_str "name" ps n Hn) as Jn.
  pose proof (prop_jsonify_str "type" ps _ Ht) as Jt.
  split.
  - destruct (jsonify_object ps) as [ps' E]. rewrite E in *.
    apply category_ok_true. now exists ps', i, n, t.
  - cbn [JS.prop]. now rewrite Ji, Jn, Jt, Hi, Hn, Ht.
Qed.

Lemma jsonify_number_is_number x :
  JS.is_number (JS.jsonify_number x) = JS.Number_isFinite x.
Proof.
  unfold JS.jsonify_number. destruct (JS.Number_isFinite x); [|reflexivity].
  now destruct (PrimFloat.eqb x 0).
Qed.

Lemma jsonify_entry e :
  entry_ok e = true ->
  entry_ok (JS.jsonify e) = finite_amount e
  /\ JS.prop "id" (JS.jsonify e) = JS.prop "id" e
  /\ JS.prop "type" (JS.jsonify e) = JS.prop "type" e
  /\ JS.prop "categoryId" (JS.jsonify e) = JS.prop "categoryId" e
  /\ JS.prop "date" (JS.jsonify e) = JS.prop "date" e
  /\ forall x, JS.prop "amount" e = JNum x ->
       JS.prop "amount" (JS.jsonify e) = JS.jsonify_number x.
Proof.
  intros H.
  apply entry_ok_true in H as (ps & i & c & d & x & t & -> & Hi & Hc & Hx & Hd & Ht).
  pose proof (prop_jsonify_str "id" ps i Hi) as Ji.
  pose proof (prop_jsonify_str "categoryId" ps c Hc) as Jc.
  pose proof (prop_jsonify_str "date" ps d Hd) as Jd.
  pose proof (prop_jsonify_str "type" ps _ Ht) as Jt.
  pose proof (prop_jsonify_num "amount" ps x Hx) as Jx.
  split.
  - unfold finite_amount. cbn [JS.prop]. rewrite Hx.
    unfold entry_ok, has_type.
    rewrite Ji, Jc, Jd, Jt, Jx, jsonify_number_is_number.
    destruct (jsonify_object ps) as [ps' ->]. simpl.
    destruct (JS.Number_isFinite x); simpl; [|reflexivity].
    destruct t; simpl; reflexivity.
  - cbn [JS.prop]. rewrite Ji, Jc, Jd, Jt, Hi, Hc, Hd, Ht.
    repeat split. intros y Hy. rewrite Hx in Hy. injection Hy as <-. exact Jx.
Qed.

Lemma filter_map_swap {A B} (p : B -> bool) (f : A -> B) l :
  filter p (map f l) = map f (filter (fun x => p (f x)) l).
Proof.
  induction l as [|a l IH]; simpl; [reflexivity|].
  destruct (p (f a)); simpl; now rewrite IH.
Qed.

Lemma filter_agree {A} (p q : A -> bool) l :
  (forall x, In x l -> p x = q x) -> filter p l = filter q l.
Proof.
  induction l as [|a l IH]; simpl; [reflexivity|].
  intros H. rewrite (H a) by now left.
  rewrite IH by (intros x Hx; apply H; now right). reflexivity.
Qed.

Lemma existsb_map_agree {A B} (p : B -> bool) (q : A -> bool) (f : A -> B) l :
  (forall x, In x l -> p (f x) = q x) ->
  existsb p (map f l) = existsb q l.
Proof.
  induction l as [|a l IH]; simpl; [reflexivity|].
  intros H. rewrite (H a) by now left.
  rewrite IH by (intros x Hx; apply H; now right). reflexivity.
Qed.

Lemma jsonify_categories cats :
  forallb category_ok cats = true ->
  filter category_ok (map JS.jsonify cats) = map JS.jsonify cats
  /\ (forall t, existsb (has_type t) (map JS.jsonify cats)
                = existsb (has_type t) cats)
  /\ (forall s, existsb (has_id s) (map JS.jsonify cats)
                = existsb (has_id s) cats)
  /\ ids (map JS.jsonify cats) = ids cats.
Proof.
  intros H. rewrite forallb_forall in H. repeat split.
  - apply filter_all. apply forallb_forall. intros c Hin.
    apply in_map_iff in Hin as (c0 & <- & Hin).
    now apply jsonify_category, H.
  - intros t. apply existsb_map_agree. intros c Hin. unfold has_type.
    destruct (jsonify_category c (H c Hin)) as (_ & _ & _ & ->). reflexivity.
  - intros s. apply existsb_map_agree. intros c Hin. unfold has_id.
    destruct (jsonify_category c (H c Hin)) as (_ & -> & _). reflexivity.
  - unfold ids. rewrite map_map. apply map_ext_in. intros c Hin.
    now destruct (jsonify_category c (H c Hin)) as (_ & -> & _).
Qed.

Lemma jsonify_entries ents :
  forallb entry_ok ents = true ->
  filter entry_ok (map JS.jsonify ents)
  = map JS.jsonify (filter finite_amount ents).
Proof.
  intros H. rewrite forallb_forall in H.
  rewrite filter_map_swap. f_equal. apply filter_agree.
  intros e Hin. now apply jsonify_entry, H.
Qed.

(** Loading what [saveData d] stored, for a document of well-formed members
    with a category of each type. *)
Lemma load_saved (d : FinanceData) (w : World) :
  items_ok d = true ->
  has_each_type (categories d) = true ->
  settings w = JSON_stringify (data_value d) ->
  let d' := mkData (map JS.jsonify (categories d))
                   (map JS.jsonify (filter finite_amount (entries d))) in
  loadFinanceData w
  = (d', mkWorld (JSON_stringify (data_value d')) (uuids w) (drawn w)).
Proof.
  intros Hok Hboth Hset d'.
  apply andb_true_iff in Hok as [Hcats Hents].
  destruct (jsonify_categories _ Hcats) as (Hf & Ht & _).
  apply andb_true_iff in Hboth as [Hi He].
  rewrite loadFinanceData_eq, Hset. unfold JSON_stringify.
  rewrite normalizeData_data, normalizeData_world.
  assert (Hc : sanitized_categories (JS.jsonify (data_value d))
               = map JS.jsonify (categories d)) by exact Hf.
  assert (Hen : sanitized_entries (JS.jsonify (data_value d))
                = map JS.jsonify (filter finite_amount (entries d)))
    by exact (jsonify_entries _ Hents).
  rewrite Hc, Hen. unfold has_each_type. rewrite !Ht, Hi, He. simpl.
  now rewrite app_nil_r.
Qed.

(** X8. What a save followed by a load keeps.  After a mutation whose
    returned document has a category of each type, [loadFinanceData]
    returns every category of that document, in order and with the same id,
    name and type, and exactly the entries whose amount is finite, in order
    and with the same id, type, categoryId and date; an entry with the
    amount [NaN] or [Infinity] is lost.  The load takes no identifier. *)
Theorem persistence_keeps :
  forall (op : Mutation) (w : World),
    let d := fst (run op w) in
    let w' := snd (run op w) in
    has_each_type (categories d) = true ->
    categories (loaded w') = map JS.jsonify (categories d)
    /\ entries (loaded w') = map JS.jsonify (filter finite_amount (entries d))
    /\ drawn (after_load w') = drawn w'
    /\ (forall c : JSValue,
          In c (categories d) ->
          JS.prop "id" (JS.jsonify c) = JS.prop "id" c
          /\ JS.prop "name" (JS.jsonify c) = JS.prop "name" c
          /\ JS.prop "type" (JS.jsonify c) = JS.prop "type" c)
    /\ (forall e : JSValue,
          In e (entries d) ->
          JS.prop "id" (JS.jsonify e) = JS.prop "id" e
          /\ JS.prop "type" (JS.jsonify e) = JS.prop "type" e
          /\ JS.prop "categoryId" (JS.jsonify e) = JS.prop "categoryId" e
          /\ JS.prop "date" (JS.jsonify e) = JS.prop "date" e).
Proof.
  intros op w d w' Hboth.
  destruct (run_settled op w) as [Hok Hset]. fold d w' in Hok, Hset.
  unfold loaded, after_load. rewrite (load_saved d w' Hok Hboth Hset). simpl.
  apply andb_true_iff in Hok as [Hc He]. rewrite forallb_forall in Hc, He.
  repeat split; try (now apply jsonify_category, Hc);
    now apply jsonify_entry, He.
Qed.

Lemma persistence_keeps_witness :
  let op := AddEntry (mkInput income "cat_3f0c" nan "2024-01-05" None) in
  has_each_type (categories (fst (run op first_world))) = true
  /\ List.length (entries (fst (run op first_world))) = 1
  /\ entries (loaded (snd (run op first_world))) = [].
Proof.
  split; [reflexivity|]. split; [reflexivity|].
  rewrite (proj1 (proj2
            (persistence_keeps
               (AddEntry (mkInput income "cat_3f0c" nan "2024-01-05" None))
               first_world eq_refl))).
  reflexivity.
Defined.

(** X9. Loading again after a load takes no identifier and creates no
    category: the categories come back in the same order with the same ids,
    names and types, so the default categories are made once. *)
Theorem load_twice :
  forall w : World,
    drawn (after_load (after_load w)) = drawn (after_load w)
    /\ categories (loaded (after_load w))
       = map JS.jsonify (categories (loaded w))
    /\ ids (categories (loaded (after_load w))) = ids (categories (loaded w))
    /\ map (JS.prop "name") (categories (loaded (after_load w)))
       = map (JS.prop "name") (categories (loaded w))
    /\ map (JS.prop "type") (categories (loaded (after_load w)))
       = map (JS.prop "type") (categories (loaded w)).
Proof.
  intros w. destruct (load_facts w) as (Hok & Hboth & Hset & _).
  unfold loaded at 1 3 5 7, after_load at 1.
  rewrite (load_saved (loaded w) (after_load w) Hok Hboth Hset). simpl.
  apply andb_true_iff in Hok as [Hc _].
  destruct (jsonify_categories _ Hc) as (_ & _ & _ & Hids).
  rewrite forallb_forall in Hc.
  repeat split; try assumption; rewrite map_map; apply map_ext_in;
    intros c Hin; now apply jsonify_category, Hc.
Qed.

(** ** One mutation after another *)

Lemma jsonify_entry_has_id s e :
  entry_ok e = true -> has_id s (JS.jsonify e) = has_id s e.
Proof.
  intros H. unfold has_id.
  now destruct (jsonify_entry e H) as (_ & -> & _).
Qed.

Lemma jsonify_entry_refers_to s e :
  entry_ok e = true -> refers_to s (JS.jsonify e) = refers_to s e.
Proof.
  intros H. unfold refers_to.
  now destruct (jsonify_entry e H) as (_ & _ & _ & -> & _).
Qed.

Lemma jsonify_category_has_id s c :
  category_ok c = true -> has_id s (JS.jsonify c) = has_id s c.
Proof.
  intros H. unfold has_id.
  now destruct (jsonify_category c H) as (_ & -> & _).
Qed.

Lemma jsonify_category_has_type t c :
  category_ok c = true -> has_type t (JS.jsonify c) = has_type t c.
Proof.
  intros H. unfold has_type.
  now destruct (jsonify_category c H) as (_ & _ & _ & ->).
Qed.

Lemma filter_map_jsonify (p : JSValue -> bool) (ok : JSValue -> bool) l :
  forallb ok l = true ->
  (forall x, ok x = true -> p (JS.jsonify x) = p x) ->
  filter p (map JS.jsonify l) = map JS.jsonify (filter p l).
Proof.
  intros Hok Hp. rewrite forallb_forall in Hok.
  rewrite filter_map_swap. f_equal. apply filter_agree.
  intros x Hin. now apply Hp, Hok.
Qed.

Lemma existsb_filter_sub {A} (p q : A -> bool) l :
  existsb p l = false -> existsb p (filter q l) = false.
Proof.
  induction l as [|a l IH]; simpl; [reflexivity|].
  intros H. apply orb_false_iff in H as [Ha Hl].
  destruct (q a); simpl; [now rewrite Ha, IH|now apply IH].
Qed.

Lemma document_eta d : mkData (categories d) (entries d) = d.
Proof. now destruct d. Qed.

(** The world [addEntry] leaves when the category exists. *)
Lemma after_addEntry input w :
  existsb (has_id (in_categoryId input)) (categories (loaded w)) = true ->
  let e := new_entry input (next_id "entry" (after_load w)) in
  loadFinanceData (snd (addEntry input w))
  = (mkData (map JS.jsonify (categories (loaded w)))
            (map JS.jsonify (filter finite_amount (e :: entries (loaded w)))),
     snd (loadFinanceData (snd (addEntry input w)))).
Proof.
  intros Hc e.
  destruct (run_settled (AddEntry input) w) as [Hok Hset].
  destruct (load_facts w) as (_ & Hboth & _).
  cbn [run] in Hok, Hset. revert Hok Hset.
  rewrite addEntry_eq, Hc. cbv zeta. cbn [fst snd]. intros Hok Hset.
  rewrite (load_saved _ _ Hok Hboth Hset). reflexivity.
Qed.

(** X10. An entry just added keeps its category from being deleted: after
    [addEntry] with the id of an existing category and a finite amount,
    [deleteCategory] of that category answers "category is in use" and
    returns the document unchanged. *)
Theorem added_entry_blocks_deletion :
  forall (input : EntryInput) (w : World),
    existsb (has_id (in_categoryId input)) (categories (loaded w)) = true ->
    JS.Number_isFinite (in_amount input) = true ->
    let w1 := snd (addEntry input w) in
    deleteCategory (in_categoryId input) w1
    = (mkResult (loaded w1) (Some err_category_in_use), after_load w1).
Proof.
  intros input w Hc Hfin w1.
  pose proof (after_addEntry input w Hc) as Hload. cbv zeta in Hload.
  fold w1 in Hload.
  rewrite deleteCategory_eq. cbv zeta.
  assert (HL : loaded w1
               = mkData (map JS.jsonify (categories (loaded w)))
                   (map JS.jsonify
                      (filter finite_amount
                         (new_entry input (next_id "entry" (after_load w))
                          :: entries (loaded w)))))
    by (unfold loaded; now rewrite Hload).
  destruct (items_ok_loaded w) as [Hcats Hents].
  destruct (jsonify_categories _ Hcats) as (_ & _ & Hid & _).
  assert (Hfind : existsb (has_id (in_categoryId input)) (categories (loaded w1))
                  = true)
    by (rewrite HL; cbn [categories]; now rewrite Hid).
  rewrite find_existsb in Hfind.
  destruct (find (has_id (in_categoryId input)) (categories (loaded w1)));
    [|discriminate].
  assert (Hused : existsb (refers_to (in_categoryId input)) (entries (loaded w1))
                  = true).
  { rewrite HL. cbn [entries filter].
    assert (Hf : finite_amount
                   (new_entry input (next_id "entry" (after_load w))) = true).
    { unfold finite_amount.
      now destruct (new_entry_props input (next_id "entry" (after_load w)))
        as (_ & _ & _ & _ & -> & _). }
    rewrite Hf. cbn [map existsb].
    rewrite jsonify_entry_refers_to by apply new_entry_ok.
    unfold refers_to.
    destruct (new_entry_props input (next_id "entry" (after_load w)))
      as (_ & _ & _ & -> & _).
    simpl. now rewrite String.eqb_refl. }
  now rewrite Hused.
Qed.

Lemma added_entry_blocks_deletion_witness :
  existsb (has_id "cat_91ab") (categories (loaded first_world)) = true
  /\ JS.Number_isFinite 12.5 = true
  /\ error (fst (deleteCategory "cat_91ab"
                   (snd (addEntry (mkInput expense "cat_91ab" 12.5
                                           "2024-03-01" None)
                                  first_world))))
     = Some err_category_in_use.
Proof.
  split; [reflexivity|]. split; [reflexivity|].
  exact (f_equal (fun p => error (fst p))
           (added_entry_blocks_deletion
              (mkInput expense "cat_91ab" 12.5 "2024-03-01" None)
              first_world eq_refl eq_refl)).
Defined.

(** X11. Adding an entry and then deleting it by its new id undoes the
    addition: provided no entry already had the identifier handed out, the
    document returned by [deleteEntry] is the one a load would return, and
    it is the loaded document itself when that holds only finite numbers
    other than negative zero. *)
Theorem addEntry_then_deleteEntry :
  forall (input : EntryInput) (w : World),
    existsb (has_id (next_id "entry" (after_load w))) (entries (loaded w))
    = false ->
    let w1 := snd (addEntry input w) in
    let r := fst (deleteEntry (next_id "entry" (after_load w)) w1) in
    r = loaded (after_load w)
    /\ (document_exact (loaded w) = true -> r = loaded w).
Proof.
  intros input w Hfresh w1 r.
  destruct (load_facts w) as (Hok & Hboth & Hset & _).
  pose proof (load_saved _ _ Hok Hboth Hset) as Hagain. cbv zeta in Hagain.
  destruct (items_ok_loaded w) as [Hcats Hents].
  assert (Hr : r = loaded (after_load w)).
  { subst r. rewrite deleteEntry_eq. cbv zeta. cbn [fst].
    unfold loaded at 3. rewrite Hagain. cbn [fst].
    destruct (existsb (has_id (in_categoryId input)) (categories (loaded w)))
      eqn:Hc.
    - pose proof (after_addEntry input w Hc) as Hload. cbv zeta in Hload.
      fold w1 in Hload. unfold loaded at 1 2. rewrite Hload. cbn [fst categories entries].
      f_equal. cbn [filter].
      set (e := new_entry input (next_id "entry" (after_load w))).
      assert (He : has_id (next_id "entry" (after_load w)) (JS.jsonify e) = true).
      { rewrite jsonify_entry_has_id by apply new_entry_ok.
        unfold has_id, e.
        destruct (new_entry_props input (next_id "entry" (after_load w)))
          as (-> & _).
        simpl. apply String.eqb_refl. }
      assert (Hrest : filter (fun x => negb (has_id (next_id "entry" (after_load w)) x))
                        (map JS.jsonify (filter finite_amount (entries (loaded w))))
                      = map JS.jsonify (filter finite_amount (entries (loaded w)))).
      { apply filter_none.
        rewrite (existsb_map_agree
                   (has_id (next_id "entry" (after_load w)))
                   (has_id (next_id "entry" (after_load w))) JS.jsonify).
        - now apply existsb_filter_sub.
        - intros x Hin. apply jsonify_entry_has_id.
          apply filter_In in Hin as [Hin _].
          now apply (forallb_In _ _ _ Hents). }
      destruct (finite_amount e); cbn [map filter]; [now rewrite He|assumption].
    - subst w1. rewrite addEntry_eq, Hc. cbn [snd].
      unfold loaded at 1 2. rewrite Hagain. cbn [fst categories entries].
      f_equal. apply filter_none.
      rewrite (existsb_map_agree
                 (has_id (next_id "entry" (after_load w)))
                 (has_id (next_id "entry" (after_load w))) JS.jsonify).
      + now apply existsb_filter_sub.
      + intros x Hin. apply jsonify_entry_has_id.
        apply filter_In in Hin as [Hin _].
        now apply (forallb_In _ _ _ Hents). }
  split; [exact Hr|].
  intros Hex. rewrite Hr. unfold loaded at 1.
  now rewrite (reload (loaded w) (after_load w) Hok Hboth Hex Hset).
Qed.

Lemma addEntry_then_deleteEntry_witness :
  existsb (has_id (next_id "entry" (after_load first_world)))
          (entries (loaded first_world)) = false
  /\ document_exact (loaded first_world) = true
  /\ fst (deleteEntry "entry_c2d7" (snd (addEntry salary_input first_world)))
     = loaded first_world.
Proof.
  split; [reflexivity|]. split; [reflexivity|].
  exact (proj2 (addEntry_then_deleteEntry salary_input first_world eq_refl)
           eq_refl).
Defined.

Lemma find_app_none {A} (p : A -> bool) l l' :
  existsb p l = false -> find p (l ++ l') = find p l'.
Proof.
  induction l as [|a l IH]; simpl; [reflexivity|].
  intros H. apply orb_false_iff in H as [Ha Hl]. now rewrite Ha, IH.
Qed.

Lemma count_type_jsonify t cats :
  forallb category_ok cats = true ->
  count_type t (map JS.jsonify cats) = count_type t cats.
Proof.
  intros H. unfold count_type.
  rewrite (filter_map_jsonify (has_type t) category_ok cats H).
  - apply length_map.
  - intros x. apply jsonify_category_has_type.
Qed.

(** X12. A category just added can be deleted again.  After [addCategory]
    with a name that does not trim to the empty string, [deleteCategory] of
    the new id returns no error and the document a load would have returned
    before (the loaded document itself when it holds only finite numbers
    other than negative zero), provided the identifier handed out was not
    already the id of a category or the [categoryId] of an entry. *)
Theorem addCategory_then_deleteCategory :
  forall (name : string) (t : CategoryType) (w : World),
    JS.trim name <> "" ->
    existsb (has_id (next_id "cat" (after_load w))) (categories (loaded w))
    = false ->
    existsb (refers_to (next_id "cat" (after_load w))) (entries (loaded w))
    = false ->
    let w1 := snd (addCategory name t w) in
    let r := fst (deleteCategory (next_id "cat" (after_load w)) w1) in
    error r = None
    /\ data r = loaded (after_load w)
    /\ (document_exact (loaded w) = true -> data r = loaded w).
Proof.
  intros name t w Hname Hfresh Hunused w1 r.
  set (nid := next_id "cat" (after_load w)) in *.
  set (c := category_value nid (JS.trim name) t).
  destruct (load_facts w) as (Hok & Hboth & Hset & _).
  pose proof (load_saved _ _ Hok Hboth Hset) as Hagain. cbv zeta in Hagain.
  destruct (items_ok_loaded w) as [Hcats Hents].
  (* the document stored by addCategory, as the next load reads it *)
  assert (HL : loaded w1
               = mkData (map JS.jsonify (categories (loaded w)) ++ [JS.jsonify c])
                        (map JS.jsonify (filter finite_amount (entries (loaded w))))).
  { destruct (run_settled (AddCategory name t) w) as [Hok1 Hset1].
    cbn [run] in Hok1, Hset1. fold w1 in Hset1. revert Hok1 Hset1.
    rewrite addCategory_eq. apply String.eqb_neq in Hname. rewrite Hname.
    cbv zeta. cbn [fst]. fold nid c. intros Hok1 Hset1.
    assert (Hb1 : has_each_type (categories (loaded w) ++ [c]) = true).
    { apply has_each_type_counts. intros ty. rewrite count_type_app.
      pose proof (loaded_counts w ty). lia. }
    unfold loaded. rewrite (load_saved _ _ Hok1 Hb1 Hset1). cbn [fst categories entries].
    now rewrite map_app. }
  assert (Hcok : category_ok c = true) by apply category_value_ok.
  assert (Hidc : has_id nid (JS.jsonify c) = true).
  { rewrite jsonify_category_has_id by assumption.
    unfold has_id, c. simpl. apply String.eqb_refl. }
  assert (Hnone : existsb (has_id nid) (map JS.jsonify (categories (loaded w)))
                  = false).
  { destruct (jsonify_categories _ Hcats) as (_ & _ & Hid & _).
    now rewrite Hid. }
  assert (Hty : type_of (JS.jsonify c) = Some t).
  { apply type_of_some.
    destruct (jsonify_category c Hcok) as (_ & _ & _ & ->). reflexivity. }
  assert (Hr : error r = None /\ data r = loaded (after_load w)).
  { subst r. rewrite deleteCategory_eq. cbv zeta. rewrite HL.
    cbn [categories entries].
    rewrite (find_app_none _ _ _ Hnone). cbn [find]. rewrite Hidc.
    assert (Hu : existsb (refers_to nid)
                   (map JS.jsonify (filter finite_amount (entries (loaded w))))
                 = false).
    { rewrite (existsb_map_agree (refers_to nid) (refers_to nid) JS.jsonify).
      - now apply existsb_filter_sub.
      - intros x Hin. apply jsonify_entry_refers_to.
        apply filter_In in Hin as [Hin _].
        now apply (forallb_In _ _ _ Hents). }
    rewrite Hu, (sameTypeCount_count _ t _ Hty).
    rewrite count_type_app, count_type_cons, (has_type_of t t _ Hty).
    rewrite (count_type_jsonify t _ Hcats).
    pose proof (loaded_counts w t) as Hone.
    replace (CategoryType_eqb t t) with true by now destruct t.
    destruct (_ <=? 1)%nat eqn:E; [apply Nat.leb_le in E; lia|].
    cbn [fst data error]. split; [reflexivity|].
    unfold loaded at 3. rewrite Hagain. cbn [fst]. f_equal.
    rewrite filter_app. cbn [filter]. rewrite Hidc. cbn [negb].
    rewrite (filter_none _ _ Hnone). apply app_nil_r. }
  destruct Hr as [He Hd]. split; [exact He|]. split; [exact Hd|].
  intros Hex. rewrite Hd. unfold loaded at 1.
  now rewrite (reload (loaded w) (after_load w) Hok Hboth Hex Hset).
Qed.

Lemma addCategory_then_deleteCategory_witness :
  JS.trim "Премия" <> ""
  /\ existsb (has_id (next_id "cat" (after_load one_entry_world)))
             (categories (loaded one_entry_world)) = false
  /\ existsb (refers_to (next_id "cat" (after_load one_entry_world)))
             (entries (loaded one_entry_world)) = false
  /\ document_exact (loaded one_entry_world) = true
  /\ data (fst (deleteCategory "cat_e450"
                  (snd (addCategory "Премия" income one_entry_world))))
     = loaded one_entry_world.
Proof.
  assert (Hn : JS.trim "Премия" <> "") by (vm_compute; discriminate).
  split; [exact Hn|]. split; [reflexivity|]. split; [reflexivity|].
  split; [reflexivity|].
  exact (proj2 (proj2 (addCategory_then_deleteCategory "Премия" income
                         one_entry_world Hn eq_refl eq_refl)) eq_refl).
Defined.

(** ** What normalization checks on categories *)

(** X13. [normalizeData] returns, in their order, exactly the members of
    the stored [categories] array that are objects whose [id] and [name] are
    strings and whose [type] is income or expense, followed by the default
    category of each type missing among them.  The name is not looked at
    further: a member of that shape is kept whatever its name, the empty one
    included.  When the parsed value has no array under [categories] the
    result has the two default categories only, and when it has no array
    under [entries] the result has no entries; this covers [null], numbers,
    strings and arrays in place of the document. *)
Theorem load_checks_category_shape_only :
  (forall (raw : JSValue) (w : World),
      let kept :=
        filter category_ok (JS.array_or_empty (JS.prop "categories" raw)) in
      categories (fst (normalizeData raw w))
      = kept
        ++ (if existsb (has_type income) kept then [] else [default_income w])
        ++ (if existsb (has_type expense) kept then [] else [default_expense w]))
  /\ (forall item : JSValue,
        category_ok item = true <->
        exists ps i n t,
          item = JObj ps /\ JS.assoc "id" ps = JStr i
          /\ JS.assoc "name" ps = JStr n
          /\ JS.assoc "type" ps = JStr (type_string t))
  /\ (forall (raw : JSValue) (w : World) (item : JSValue),
        In item (categories (fst (normalizeData raw w))) <->
        (In item (JS.array_or_empty (JS.prop "categories" raw))
         /\ category_ok item = true)
        \/ (item = default_income w
            /\ existsb (has_type income)
                 (filter category_ok
                    (JS.array_or_empty (JS.prop "categories" raw))) = false)
        \/ (item = default_expense w
            /\ existsb (has_type expense)
                 (filter category_ok
                    (JS.array_or_empty (JS.prop "categories" raw))) = false))
  /\ (forall (raw : JSValue) (w : World),
        (forall l, JS.prop "categories" raw <> JArr l) ->
        categories (fst (normalizeData raw w))
        = [default_income w; default_expense w])
  /\ (forall (raw : JSValue) (w : World),
        (forall l, JS.prop "entries" raw <> JArr l) ->
        entries (fst (normalizeData raw w)) = []).
Proof.
  split; [|split; [|split; [|split]]].
  - intros raw w kept. now rewrite normalizeData_data.
  - apply category_ok_true.
  - intros raw w item. rewrite normalizeData_data. cbn [categories].
    unfold sanitized_categories.
    set (kept := filter category_ok _).
    rewrite !in_app_iff. unfold kept at 1. rewrite filter_In.
    destruct (existsb (has_type income) kept);
      destruct (existsb (has_type expense) kept); simpl; intuition congruence.
  - intros raw w H. rewrite normalizeData_data. cbn [categories].
    unfold sanitized_categories.
    destruct (JS.prop "categories" raw) eqn:E; try reflexivity.
    now elim (H items).
  - intros raw w H. rewrite normalizeData_data. cbn [entries].
    unfold sanitized_entries.
    destruct (JS.prop "entries" raw) eqn:E; try reflexivity.
    now elim (H items).
Qed.

Lemma load_checks_category_shape_only_witness :
  (forall l, JS.prop "categories" JNull <> JArr l)
  /\ categories (fst (normalizeData JNull fresh_world))
     = [default_income fresh_world; default_expense fresh_world]
  /\ entries (fst (normalizeData (JArr [JNum 1]) fresh_world)) = []
  /\ categories
       (fst (normalizeData
               (JObj [("categories",
                       JArr [JNum 7; category_value "a" "" expense])])
               fresh_world))
     = [category_value "a" "" expense; default_income fresh_world].
Proof.
  assert (Hn : forall l, JS.prop "categories" JNull <> JArr l)
    by (intros l; discriminate).
  split; [exact Hn|]. split; [|split].
  - exact (proj1 (proj2 (proj2 (proj2 load_checks_category_shape_only)))
             JNull fresh_world Hn).
  - apply (proj2 (proj2 (proj2 (proj2 load_checks_category_shape_only)))
             (JArr [JNum 1]) fresh_world).
    intros l; discriminate.
  - exact (proj1 load_checks_category_shape_only
             (JObj [("categories",
                     JArr [JNum 7; category_value "a" "" expense])])
             fresh_world).
Defined.

(** ** The list view: dates and labels *)

Lemma split_dash_nonempty s : ListView.split_dash s <> [].
Proof.
  destruct s as [|c r]; simpl; [discriminate|].
  destruct (Ascii.eqb c "-"); [discriminate|].
  destruct (ListView.split_dash r); discriminate.
Qed.

Lemma split_dash_free a : dash_free a = true -> ListView.split_dash a = [a].
Proof.
  induction a as [|c r IH]; simpl; [reflexivity|].
  intros H. apply andb_true_iff in H as [Hc Hr].
  apply negb_true_iff in Hc. now rewrite Hc, IH.
Qed.

Lemma split_dash_app a r :
  dash_free a = true ->
  ListView.split_dash (a ++ String "-" r) = a :: ListView.split_dash r.
Proof.
  induction a as [|c a IH]; simpl; [reflexivity|].
  intros H. apply andb_true_iff in H as [Hc Ha].
  apply negb_true_iff in Hc. now rewrite Hc, IH.
Qed.

(** X14. [formatDate] turns a key of three non-empty parts separated by
    ["-"] into day, month and year separated by ["."], ignoring any further
    part.  A key with fewer than three parts, or with an empty one among the
    first three (the year, the month or the day), comes back unchanged. *)
Theorem formatDate_reorders :
  (forall y m d : string,
      dash_free y = true -> dash_free m = true -> dash_free d = true ->
      y <> "" -> m <> "" -> d <> "" ->
      ListView.formatDate (y ++ "-" ++ m ++ "-" ++ d)%string
      = (d ++ "." ++ m ++ "." ++ y)%string
      /\ forall rest : string,
           ListView.formatDate
             (y ++ "-" ++ m ++ "-" ++ d ++ "-" ++ rest)%string
           = (d ++ "." ++ m ++ "." ++ y)%string)
  /\ (forall s : string, dash_free s = true -> ListView.formatDate s = s)
  /\ (forall y m : string,
        dash_free y = true -> dash_free m = true ->
        ListView.formatDate (y ++ "-" ++ m)%string = (y ++ "-" ++ m)%string)
  /\ (forall y m d : string,
        dash_free y = true -> dash_free m = true -> dash_free d = true ->
        y = "" \/ m = "" \/ d = "" ->
        ListView.formatDate (y ++ "-" ++ m ++ "-" ++ d)%string
        = (y ++ "-" ++ m ++ "-" ++ d)%string
        /\ forall rest : string,
             ListView.formatDate
               (y ++ "-" ++ m ++ "-" ++ d ++ "-" ++ rest)%string
             = (y ++ "-" ++ m ++ "-" ++ d ++ "-" ++ rest)%string).
Proof.
  split; [|split; [|split]].
  - intros y m d Hy Hm Hd Ny Nm Nd.
    apply String.eqb_neq in Ny, Nm, Nd.
    split; [|intros rest]; unfold ListView.formatDate; cbn [append].
    + rewrite (split_dash_app y _ Hy), (split_dash_app m _ Hm),
        (split_dash_free d Hd).
      now rewrite Ny, Nm, Nd.
    + rewrite (split_dash_app y _ Hy), (split_dash_app m _ Hm),
        (split_dash_app d _ Hd).
      now rewrite Ny, Nm, Nd.
  - intros s Hs. unfold ListView.formatDate. now rewrite (split_dash_free s Hs).
  - intros y m Hy Hm. unfold ListView.formatDate. cbn [append].
    now rewrite (split_dash_app y _ Hy), (split_dash_free m Hm).
  - intros y m d Hy Hm Hd Hempty.
    assert (E : String.eqb y "" || String.eqb m "" || String.eqb d "" = true).
    { destruct Hempty as [-> | [-> | ->]]; simpl;
        rewrite ?orb_true_r; reflexivity. }
    split; [|intros rest]; unfold ListView.formatDate; cbn [append].
    + rewrite (split_dash_app y _ Hy), (split_dash_app m _ Hm),
        (split_dash_free d Hd).
      now rewrite E.
    + rewrite (split_dash_app y _ Hy), (split_dash_app m _ Hm),
        (split_dash_app d _ Hd).
      now rewrite E.
Qed.

Lemma formatDate_reorders_witness :
  ListView.formatDate "2024-01-05" = "05.01.2024"
  /\ ListView.formatDate "20240105" = "20240105"
  /\ ListView.formatDate "-01-05" = "-01-05"
  /\ ListView.formatDate "2024-01-" = "2024-01-".
Proof.
  split; [|split; [|split]].
  - exact (proj1 (proj1 formatDate_reorders "2024" "01" "05"
                    eq_refl eq_refl eq_refl
                    ltac:(discriminate) ltac:(discriminate) ltac:(discriminate))).
  - exact (proj1 (proj2 formatDate_reorders) "20240105" eq_refl).
  - exact (proj1 (proj2 (proj2 (proj2 formatDate_reorders)) "" "01" "05"
                    eq_refl eq_refl eq_refl (or_introl eq_refl))).
  - exact (proj1 (proj2 (proj2 (proj2 formatDate_reorders)) "2024" "01" ""
                    eq_refl eq_refl eq_refl (or_intror (or_intror eq_refl)))).
Defined.

(** ** The list view: the period filter *)

Lemma leb_refl s : String.leb s s = true.
Proof.
  unfold String.leb.
  assert (H : String.compare s s = Eq).
  { induction s as [|c s IH]; simpl; [reflexivity|].
    unfold Ascii.compare. now rewrite N.compare_refl. }
  now rewrite H.
Qed.

Lemma ltb_leb s t : String.ltb s t = negb (String.leb t s).
Proof.
  unfold String.ltb, String.leb. rewrite (String.compare_antisym t s).
  now destruct (String.compare s t).
Qed.

(** X15. The filter of the list view for a single day keeps exactly the
    entries whose date is that day's key.  The range picked by two dates
    does not depend on the order in which they are given: its start is never
    after its end and the filter keeps the same entries either way. *)
Theorem period_filter_ends :
  (forall (key : string) (entry : JSValue),
      ListView.in_period (key, key) entry = true
      <-> JS.prop "date" entry = JStr key)
  /\ (forall a b : string,
        ListView.customRange a b = ListView.customRange b a
        /\ String.leb (fst (ListView.customRange a b))
                      (snd (ListView.customRange a b)) = true)
  /\ (forall (a b : string) (entry : JSValue),
        ListView.in_period (ListView.customRange a b) entry
        = ListView.in_period (ListView.customRange b a) entry).
Proof.
  assert (Hsym : forall a b,
             ListView.customRange a b = ListView.customRange b a).
  { intros a b. unfold ListView.customRange.
    destruct (String.leb a b) eqn:Eab, (String.leb b a) eqn:Eba;
      try reflexivity.
    - now rewrite (String.leb_antisym a b Eab Eba).
    - destruct (String.leb_total a b); congruence. }
  split; [|split].
  - intros key entry. unfold ListView.in_period. cbn [fst snd].
    destruct (JS.prop "date" entry) as [| |?|?|date|?|?];
      try (split; discriminate).
    rewrite ltb_leb, negb_involutive, andb_true_iff. split.
    + intros [H1 H2]. f_equal. now apply String.leb_antisym.
    + intros H. injection H as ->. split; apply leb_refl.
  - intros a b. split; [apply Hsym|].
    unfold ListView.customRange.
    destruct (String.leb a b) eqn:Eab; cbn [fst snd]; [assumption|].
    destruct (String.leb_total a b); congruence.
  - intros a b entry. now rewrite (Hsym a b).
Qed.

(** ** The list view: category names *)

Lemma find_rev_unique (p : JSValue -> bool) l c :
  find p l = Some c ->
  List.length (filter p l) <= 1 ->
  find p (rev l) = Some c.
Proof.
  intros Hf Hlen.
  pose proof (filter_found_single p l c Hf Hlen) as Hs.
  destruct (find p (rev l)) as [c'|] eqn:E.
  - apply find_some in E as [Hin Hp]. apply in_rev in Hin.
    assert (In c' (filter p l)) by (apply filter_In; now split).
    rewrite Hs in H. destruct H as [->|[]]. reflexivity.
  - apply find_some in Hf as [Hin Hp]. apply in_rev in Hin.
    rewrite (find_none _ _ E c Hin) in Hp. discriminate.
Qed.

Lemma unique_id_single s l :
  NoDup (ids l) -> List.length (filter (has_id s) l) <= 1.
Proof.
  unfold ids. induction l as [|a l IH]; simpl; [lia|].
  intros H. inversion H as [|? ? Hn Hl]; subst.
  destruct (has_id s a) eqn:E; [|now apply IH].
  simpl. apply eq_str_true in E.
  assert (Hnone : filter (has_id s) l = []).
  { destruct (filter (has_id s) l) as [|x r] eqn:F; [reflexivity|].
    assert (Hx : In x (filter (has_id s) l)) by (rewrite F; now left).
    apply filter_In in Hx as [Hin Hx]. apply eq_str_true in Hx.
    exfalso. apply Hn. rewrite E, <- Hx. now apply in_map. }
  rewrite Hnone. simpl. lia.
Qed.

(** X16. The label of an entry's category.  [getCategoryName] answers the
    placeholder when no category has the id.  When the categories are those
    of a loaded document and no two share an id, it answers the name of the
    category with the id, which is the one [updateCategory] edits: after a
    successful [updateCategory] the label is the trimmed new name. *)
Theorem getCategoryName_resolves :
  (forall (cats : list JSValue) (id : string),
      existsb (has_id id) cats = false ->
      ListView.getCategoryName cats id = JStr "Категория")
  /\ (forall (w : World) (id : string) (c : JSValue),
        NoDup (ids (categories (loaded w))) ->
        find (has_id id) (categories (loaded w)) = Some c ->
        ListView.getCategoryName (categories (loaded w)) id = JS.prop "name" c)
  /\ (forall (w : World) (id name : string) (t : CategoryType),
        NoDup (ids (categories (loaded w))) ->
        error (fst (updateCategory id name t w)) = None ->
        ListView.getCategoryName
          (categories (data (fst (updateCategory id name t w)))) id
        = JStr (JS.trim name)).
Proof.
  split; [|split].
  - intros cats id H. unfold ListView.getCategoryName.
    assert (E : existsb (has_id id) (rev cats) = false).
    { destruct (existsb (has_id id) (rev cats)) eqn:E; [|reflexivity].
      apply existsb_exists in E as (x & Hin & Hx). apply in_rev in Hin.
      assert (existsb (has_id id) cats = true)
        by (apply existsb_exists; eauto).
      congruence. }
    rewrite find_existsb in E. now destruct (find (has_id id) (rev cats)).
  - intros w id c Hu Hf. unfold ListView.getCategoryName.
    rewrite (find_rev_unique _ _ _ Hf (unique_id_single id _ Hu)).
    destruct (items_ok_loaded w) as [Hok _].
    pose proof (find_some _ _ Hf) as [Hin _].
    pose proof (forallb_In _ _ _ Hok Hin) as Hc.
    apply category_ok_true in Hc as (ps & i & n & t & -> & _ & Hn & _).
    simpl. now rewrite Hn.
  - intros w id name t Hu Herr. revert Herr.
    rewrite updateCategory_eq. cbv zeta.
    destruct (String.eqb (JS.trim name) ""); [discriminate|].
    destruct (find (has_id id) (categories (loaded w))) as [c|] eqn:Ef;
      [|discriminate].
    destruct (negb _ && _); [discriminate|]. intros _. cbn [fst data categories].
    destruct (find_split _ _ _ Ef) as (pre & post & Hsplit & Hidc & Hpre).
    destruct (items_ok_loaded w) as [Hok _].
    pose proof (find_some _ _ Ef) as [Hin _].
    destruct (category_object _ (forallb_In _ _ _ Hok Hin)) as [ps ->].
    set (cats' := mutate_found (has_id id) (rename (JS.trim name) t)
                    (categories (loaded w))).
    assert (Hu' : NoDup (ids cats')).
    { unfold ids, cats'. rewrite map_mutate_found; [exact Hu|].
      intros x. apply rename_id. }
    assert (Hf' : find (has_id id) cats'
                  = Some (rename (JS.trim name) t (JObj ps))).
    { unfold cats'. rewrite Hsplit, (mutate_found_split _ _ _ _ _ Hidc Hpre).
      rewrite find_app_none.
      - cbn [find]. now rewrite rename_has_id, Hidc.
      - clear -Hpre. induction pre as [|a pre IH]; simpl in *; [reflexivity|].
        apply andb_true_iff in Hpre as [Ha Hp]. apply negb_true_iff in Ha.
        now rewrite Ha, IH. }
    unfold ListView.getCategoryName.
    rewrite (find_rev_unique _ _ _ Hf' (unique_id_single id _ Hu')).
    destruct (rename_props (JS.trim name) t ps) as (-> & _). reflexivity.
Qed.

Lemma getCategoryName_resolves_witness :
  existsb (has_id "ghost") (categories (loaded dangling_world)) = false
  /\ ListView.getCategoryName (categories (loaded dangling_world)) "ghost"
     = JStr "Категория".
Proof.
  split; [reflexivity|].
  exact (proj1 getCategoryName_resolves
           (categories (loaded dangling_world)) "ghost" eq_refl).
Defined.

(** ** The list view: date keys *)

Lemma year_numeral_table :
  forallb (fun n => String.eqb (ListView.String_of_int (Z.of_nat n)) (digits4 n))
          (seq (Z.to_nat 1000) (Z.to_nat 9000)) = true.
Proof. vm_compute. reflexivity. Qed.

Lemma short_numeral_table :
  forallb (fun n => String.eqb (ListView.padStart2
                                  (ListView.String_of_int (Z.of_nat n)))
                               (digits2 n))
          (seq 0 100) = true.
Proof. vm_compute. reflexivity. Qed.

Lemma year_numeral (y : Z) :
  (1000 <= y <= 9999)%Z ->
  ListView.String_of_int y = digits4 (Z.to_nat y).
Proof.
  intros H. pose proof year_numeral_table as T.
  rewrite forallb_forall in T.
  specialize (T (Z.to_nat y)). rewrite Z2Nat.id in T by lia.
  apply String.eqb_eq, T, in_seq. lia.
Qed.

Lemma short_numeral (n : nat) :
  n < 100 ->
  ListView.padStart2 (ListView.String_of_int (Z.of_nat n)) = digits2 n.
Proof.
  intros H. pose proof short_numeral_table as T.
  rewrite forallb_forall in T. apply String.eqb_eq, T, in_seq. lia.
Qed.

Lemma toDateKey_digits (d : ListView.LocalDate) :
  four_digit_date d ->
  ListView.toDateKey d
  = (digits4 (Z.to_nat (ListView.getFullYear d)) ++ "-"
     ++ digits2 (ListView.getMonth d + 1) ++ "-"
     ++ digits2 (ListView.getDate d))%string.
Proof.
  intros (Hy & Hm & Hd). unfold ListView.toDateKey. cbv zeta.
  rewrite (year_numeral _ Hy), !short_numeral by lia. reflexivity.
Qed.

Lemma compare_digit k k' :
  k < 10 -> k' < 10 -> Ascii.compare (digit k) (digit k') = Nat.compare k k'.
Proof.
  intros H H'.
  do 10 (destruct k as [|k]; [do 10 (destruct k' as [|k']; [reflexivity|]); lia|]).
  lia.
Qed.

(** The eight digits of a key, and the number they spell. *)
Lemma digits_of_date (d : ListView.LocalDate) :
  four_digit_date d ->
  exists d1 d2 d3 d4 m1 m2 e1 e2 : nat,
    d1 < 10 /\ d2 < 10 /\ d3 < 10 /\ d4 < 10
    /\ m1 < 10 /\ m2 < 10 /\ e1 < 10 /\ e2 < 10
    /\ Z.to_nat (ListView.getFullYear d) = 1000 * d1 + 100 * d2 + 10 * d3 + d4
    /\ ListView.getMonth d + 1 = 10 * m1 + m2
    /\ ListView.getDate d = 10 * e1 + e2
    /\ ListView.toDateKey d
       = String (digit d1) (String (digit d2) (String (digit d3)
           (String (digit d4) (String "-" (String (digit m1)
             (String (digit m2) (String "-" (String (digit e1)
               (String (digit e2) EmptyString))))))))).
Proof.
  intros H. pose proof H as (Hy & Hm & Hd).
  set (y := Z.to_nat (ListView.getFullYear d)).
  set (m := ListView.getMonth d + 1). set (e := ListView.getDate d).
  assert (Hy' : (Z.of_nat y < 10000)%Z) by (unfold y; lia).
  exists (y / 1000), (y / 100 mod 10), (y mod 100 / 10), (y mod 100 mod 10),
    (m / 10), (m mod 10), (e / 10), (e mod 10).
  assert (B : forall n, n mod 10 < 10)
    by (intros n; apply Nat.mod_upper_bound; discriminate).
  assert (Hm' : m < 100) by (unfold m; lia).
  assert (He' : e < 100) by (unfold e; lia).
  repeat split; try apply B.
  - apply Nat.Div0.div_lt_upper_bound. lia.
  - apply Nat.Div0.div_lt_upper_bound.
    pose proof (Nat.mod_upper_bound y 100). lia.
  - apply Nat.Div0.div_lt_upper_bound. lia.
  - apply Nat.Div0.div_lt_upper_bound. lia.
  - pose proof (Nat.div_mod_eq y 100). pose proof (Nat.div_mod_eq (y mod 100) 10).
    pose proof (Nat.div_mod_eq (y / 100) 10).
    assert (y / 100 / 10 = y / 1000)
      by (rewrite Nat.Div0.div_div; reflexivity).
    lia.
  - apply Nat.div_mod_eq.
  - apply Nat.div_mod_eq.
  - rewrite (toDateKey_digits d H). reflexivity.
Qed.

Lemma date_eq (a b : ListView.LocalDate) :
  ListView.getFullYear a = ListView.getFullYear b ->
  ListView.getMonth a = ListView.getMonth b ->
  ListView.getDate a = ListView.getDate b -> a = b.
Proof. destruct a, b; simpl; intros; subst; reflexivity. Qed.

Lemma toDateKey_compare (a b : ListView.LocalDate) :
  four_digit_date a -> four_digit_date b ->
  match String.compare (ListView.toDateKey a) (ListView.toDateKey b) with
  | Lt => on_or_before a b /\ a <> b
  | Eq => a = b
  | Gt => on_or_before b a /\ a <> b
  end.
Proof.
  intros Ha Hb.
  destruct (digits_of_date a Ha)
    as (a1 & a2 & a3 & a4 & a5 & a6 & a7 & a8 & ? & ? & ? & ? & ? & ? & ? & ?
        & Hya & Hma & Hda & ->).
  destruct (digits_of_date b Hb)
    as (b1 & b2 & b3 & b4 & b5 & b6 & b7 & b8 & ? & ? & ? & ? & ? & ? & ? & ?
        & Hyb & Hmb & Hdb & ->).
  destruct Ha as (Hay & _ & _). destruct Hb as (Hby & _ & _).
  assert (Hne : forall P : Prop,
             (Z.to_nat (ListView.getFullYear a) <> Z.to_nat (ListView.getFullYear b)
              \/ ListView.getMonth a <> ListView.getMonth b
              \/ ListView.getDate a <> ListView.getDate b) -> a <> b).
  { intros _ Hd ->. lia. }
  unfold on_or_before.
  cbn [String.compare].
  rewrite !compare_digit by assumption.
  change (Ascii.compare "-" "-") with Eq. cbv iota.
  repeat match goal with
    | |- context [Nat.compare ?x ?y] =>
        destruct (Nat.compare_spec x y)
    end;
    try (apply date_eq; lia);
    (split; [lia|apply (Hne True); lia]).
Qed.

(** X17. Date keys order as dates do.  For dates of years 1000 to 9999 the
    key made by [toDateKey] has ten characters, two dates have the same key
    only when they are the same date, and one key is [<=] another as a
    string exactly when its date is the same or an earlier one; so the
    filter of the list view keeps an entry dated by such a key exactly when
    its date lies in the range, both ends included. *)
Theorem toDateKey_orders_dates :
  forall a b : ListView.LocalDate,
    four_digit_date a -> four_digit_date b ->
    String.length (ListView.toDateKey a) = 10
    /\ (ListView.toDateKey a = ListView.toDateKey b -> a = b)
    /\ (String.leb (ListView.toDateKey a) (ListView.toDateKey b) = true
        <-> on_or_before a b)
    /\ forall (c : ListView.LocalDate) (entry : JSValue),
         four_digit_date c ->
         JS.prop "date" entry = JStr (ListView.toDateKey c) ->
         (ListView.in_period (ListView.toDateKey a, ListView.toDateKey b) entry
          = true
          <-> on_or_before a c /\ on_or_before c b).
Proof.
  assert (Hrefl : forall x, on_or_before x x)
    by (intros x; right; split; [reflexivity|right; split; [reflexivity|lia]]).
  assert (Hanti : forall x y, on_or_before x y -> on_or_before y x -> x = y).
  { intros x y Hxy Hyx. apply date_eq; unfold on_or_before in *; lia. }
  assert (Hleb : forall x y, four_digit_date x -> four_digit_date y ->
             (String.leb (ListView.toDateKey x) (ListView.toDateKey y) = true
              <-> on_or_before x y)).
  { intros x y Hx Hy. pose proof (toDateKey_compare x y Hx Hy) as H.
    unfold String.leb.
    destruct (String.compare (ListView.toDateKey x) (ListView.toDateKey y)).
    - subst y. split; [intros _; apply Hrefl|reflexivity].
    - destruct H as [H _]. split; [intros _; exact H|reflexivity].
    - destruct H as [H Hne]. split; [discriminate|].
      intros Hxy. elim Hne. now apply Hanti. }
  intros a b Ha Hb. split; [|split; [|split]].
  - destruct (digits_of_date a Ha)
      as (? & ? & ? & ? & ? & ? & ? & ? & _ & _ & _ & _ & _ & _ & _ & _
          & _ & _ & _ & ->).
    reflexivity.
  - intros E. pose proof (toDateKey_compare a b Ha Hb) as H.
    rewrite E in H.
    assert (Hc : String.compare (ListView.toDateKey b) (ListView.toDateKey b) = Eq).
    { pose proof (leb_refl (ListView.toDateKey b)) as L.
      pose proof (String.compare_antisym (ListView.toDateKey b)
                    (ListView.toDateKey b)) as S.
      unfold String.leb in L.
      destruct (String.compare (ListView.toDateKey b) (ListView.toDateKey b));
        [reflexivity|discriminate S|discriminate L]. }
    now rewrite Hc in H.
  - now apply Hleb.
  - intros c entry Hc Hdate. unfold ListView.in_period. rewrite Hdate.
    cbn [fst snd].
    rewrite ltb_leb, negb_involutive, andb_true_iff.
    now rewrite (Hleb a c Ha Hc), (Hleb c b Hc Hb).
Qed.

Lemma toDateKey_orders_dates_witness :
  four_digit_date (ListView.mkDate 2024 0 5)
  /\ four_digit_date (ListView.mkDate 2024 1 29)
  /\ ListView.toDateKey (ListView.mkDate 2024 0 5) = "2024-01-05"
  /\ String.length (ListView.toDateKey (ListView.mkDate 2024 0 5)) = 10
  /\ (on_or_before (ListView.mkDate 2024 0 5) (ListView.mkDate 2024 1 29)
      -> String.leb (ListView.toDateKey (ListView.mkDate 2024 0 5))
                    (ListView.toDateKey (ListView.mkDate 2024 1 29)) = true).
Proof.
  assert (Ha : four_digit_date (ListView.mkDate 2024 0 5))
    by (unfold four_digit_date; simpl; lia).
  assert (Hb : four_digit_date (ListView.mkDate 2024 1 29))
    by (unfold four_digit_date; simpl; lia).
  split; [exact Ha|]. split; [exact Hb|]. split; [reflexivity|].
  destruct (toDateKey_orders_dates _ _ Ha Hb) as (Hlen & _ & Hle & _).
  split; [exact Hlen|]. apply Hle.
Defined.

(** ** Trimming twice *)

Lemma strip_clean back l : clean back (JS.strip back l).
Proof.
  revert l.
  assert (H : forall n l, List.length l <= n -> clean back (JS.strip back l)).
  { induction n as [|n IH]; intros l Hl.
    - destruct l; [exact I|simpl in Hl; lia].
    - destruct l as [|a r]; [exact I|]. simpl in Hl.
      cbn [JS.strip]. destruct (JS.ws1 a) eqn:E1; [apply IH; lia|].
      destruct r as [|b r2]; [simpl; auto|].
      destruct (if back then JS.ws2 b a else JS.ws2 a b) eqn:E2;
        [apply IH; simpl in Hl; lia|].
      destruct r2 as [|c r3]; [simpl; rewrite E1, E2; auto|].
      destruct (if back then JS.ws3 c b a else JS.ws3 a b c) eqn:E3;
        [apply IH; simpl in Hl; lia|].
      simpl. rewrite E1, E2, E3. auto. }
  intros l. now apply (H (List.length l)).
Qed.

Lemma clean_strip back l : clean back l -> JS.strip back l = l.
Proof.
  destruct l as [|a r]; [reflexivity|]. intros [E1 H]. cbn [JS.strip].
  rewrite E1. destruct r as [|b r2]; [reflexivity|]. destruct H as [E2 H].
  rewrite E2. destruct r2 as [|c r3]; [reflexivity|]. now rewrite H.
Qed.

Lemma strip_suffix back l : exists p, l = p ++ JS.strip back l.
Proof.
  assert (H : forall n l, List.length l <= n ->
                          exists p, l = p ++ JS.strip back l).
  { induction n as [|n IH]; intros l0 Hl.
    - destruct l0; [now exists []|simpl in Hl; lia].
    - destruct l0 as [|a r]; [now exists []|]. simpl in Hl.
      cbn [JS.strip]. destruct (JS.ws1 a).
      { destruct (IH r ltac:(lia)) as [p Hp]. exists (a :: p). simpl.
        now rewrite <- Hp. }
      destruct r as [|b r2]; [now exists []|].
      destruct (if back then JS.ws2 b a else JS.ws2 a b).
      { destruct (IH r2 ltac:(simpl in Hl; lia)) as [p Hp].
        exists (a :: b :: p). simpl. now rewrite <- Hp. }
      destruct r2 as [|c r3]; [now exists []|].
      destruct (if back then JS.ws3 c b a else JS.ws3 a b c).
      { destruct (IH r3 ltac:(simpl in Hl; lia)) as [p Hp].
        exists (a :: b :: c :: p). simpl. now rewrite <- Hp. }
      now exists []. }
  now apply (H (List.length l)).
Qed.

Lemma clean_prefix p q : clean false (p ++ q) -> clean false p.
Proof.
  destruct p as [|a [|b [|c p]]]; simpl; tauto.
Qed.

Lemma trim_twice s : JS.trim (JS.trim s) = JS.trim s.
Proof.
  unfold JS.trim, JS.trimEnd, JS.trimStart.
  rewrite !list_ascii_of_string_of_list_ascii.
  set (A := JS.strip false (list_ascii_of_string s)).
  set (B := rev (JS.strip true (rev A))).
  assert (HB : JS.strip false B = B).
  { apply clean_strip.
    destruct (strip_suffix true (rev A)) as [p Hp].
    assert (HA : A = B ++ rev p).
    { unfold B. rewrite <- rev_app_distr, <- Hp. now rewrite rev_involutive. }
    apply (clean_prefix B (rev p)). rewrite <- HA. apply strip_clean. }
  rewrite HB. unfold B at 1. rewrite rev_involutive.
  rewrite (clean_strip true _ (strip_clean true (rev A))). reflexivity.
Qed.

(** ** The entry form *)

Lemma jsonify_amount_ok e :
  entry_ok e = true -> amount_ok e = true -> amount_ok (JS.jsonify e) = true.
Proof.
  intros Hok Ha. unfold amount_ok in *.
  destruct (JS.prop "amount" e) as [| |?|x|?|?|?] eqn:E; try discriminate.
  apply andb_true_iff in Ha as [Hf Hp]. apply negb_true_iff in Hp.
  destruct (jsonify_entry e Hok) as (_ & _ & _ & _ & _ & Hx).
  rewrite (Hx x E), (exact_number_jsonify x (positive_exact x Hf Hp)).
  now rewrite Hf, Hp.
Qed.

(** Amounts in the store after a mutation. *)
Lemma stored_amounts_ok (op : Mutation) (w : World) :
  forallb amount_ok (entries (loaded w)) = true ->
  brings_amount_ok op ->
  has_each_type (categories (fst (run op w))) = true ->
  forallb amount_ok (entries (loaded (snd (run op w)))) = true.
Proof.
  intros Ha Hin Hboth.
  destruct (run_settled op w) as [Hok Hset].
  pose proof (run_keeps_amounts op w Ha Hin) as Ha'.
  unfold loaded. rewrite (load_saved _ _ Hok Hboth Hset). cbn [fst entries].
  apply andb_true_iff in Hok as [_ He].
  rewrite forallb_forall in Ha', He. apply forallb_forall. intros x Hx.
  apply in_map_iff in Hx as (e & <- & Hin').
  apply filter_In in Hin' as [Hin' _].
  apply jsonify_amount_ok; auto.
Qed.

Lemma updateEntry_keeps_categories id input w :
  categories (data (fst (updateEntry id input w))) = categories (loaded w).
Proof.
  rewrite updateEntry_eq. cbv zeta.
  destruct (find _ _); [|reflexivity].
  destruct (negb (existsb _ _)); [reflexivity|].
  now destruct (negb _ || _).
Qed.

Lemma addEntry_keeps_categories input w :
  categories (fst (addEntry input w)) = categories (loaded w).
Proof.
  rewrite addEntry_eq. cbv zeta. now destruct (existsb _ _).
Qed.

Lemma run_updateEntry id input w :
  fst (run (UpdateEntry id input) w) = data (fst (updateEntry id input w))
  /\ snd (run (UpdateEntry id input) w) = snd (updateEntry id input w).
Proof.
  cbn [run]. unfold returning_data, bind, ret.
  now destruct (updateEntry id input w).
Qed.

(** ** Amounts, as returned and as stored *)

Lemma finite_amount_prop e x :
  JS.prop "amount" e = JNum x -> JS.Number_isFinite x = true ->
  finite_amount e = true.
Proof. intros H Hf. unfold finite_amount. now rewrite H. Qed.

Lemma filter_elt {A} (p : A -> bool) pre e post :
  p e = true ->
  filter p (pre ++ e :: post) = filter p pre ++ e :: filter p post.
Proof. intros H. rewrite filter_app. simpl. now rewrite H. Qed.

(** C3, as the code has it.  [updateEntry] with an amount that is not
    finite or not above zero always returns an error with the document as the
    load returns it and leaves the store as that load left it, holding that
    document; the error is "enter an amount greater than 0" when the id is
    that of an entry and the input's [categoryId] that of a category, "entry
    not found" when no entry has the id, and "category not found" when an
    entry has the id and no category has the [categoryId].  A finite amount
    above zero is kept as given, without rounding, in the returned document
    and in the stored one: by [addEntry] when the [categoryId] is that of a
    category, by [updateEntry] when moreover the id is that of an entry.  In
    both cases the store holds the text of the
    returned document, the entry written there has the amount as given, and
    the next load returns that entry, at the front after [addEntry] and in
    its place after [updateEntry]. *)
Theorem amount_validation :
  forall (id : string) (input : EntryInput) (w : World),
    let d := loaded w in
    let x := in_amount input in
    (JS.Number_isFinite x = false \/ PrimFloat.leb x 0 = true ->
     error (fst (updateEntry id input w)) <> None
     /\ data (fst (updateEntry id input w)) = d
     /\ snd (updateEntry id input w) = after_load w
     /\ settings (snd (updateEntry id input w))
        = JSON_stringify (data_value d)
     /\ (existsb (has_id id) (entries d) = true ->
         existsb (has_id (in_categoryId input)) (categories d) = true ->
         error (fst (updateEntry id input w)) = Some err_amount)
     /\ (existsb (has_id id) (entries d) = false ->
         error (fst (updateEntry id input w)) = Some err_entry_not_found)
     /\ (existsb (has_id id) (entries d) = true ->
         existsb (has_id (in_categoryId input)) (categories d) = false ->
         error (fst (updateEntry id input w)) = Some err_category_not_found))
    /\ (JS.Number_isFinite x = true -> PrimFloat.ltb 0 x = true ->
        existsb (has_id (in_categoryId input)) (categories d) = true ->
        JS.jsonify_number x = JNum x
        /\ (exists e : JSValue,
              entries (fst (addEntry input w)) = e :: entries d
              /\ JS.prop "amount" e = JNum x
              /\ settings (snd (addEntry input w))
                 = JSON_stringify (data_value (fst (addEntry input w)))
              /\ JS.prop "amount" (JS.jsonify e) = JNum x
              /\ entries (loaded (snd (addEntry input w)))
                 = JS.jsonify e
                   :: map JS.jsonify (filter finite_amount (entries d)))
        /\ (existsb (has_id id) (entries d) = true ->
            exists (pre post : list JSValue) (e e' : JSValue),
              entries d = pre ++ e :: post
              /\ error (fst (updateEntry id input w)) = None
              /\ entries (data (fst (updateEntry id input w)))
                 = pre ++ e' :: post
              /\ JS.prop "amount" e' = JNum x
              /\ settings (snd (updateEntry id input w))
                 = JSON_stringify
                     (data_value (data (fst (updateEntry id input w))))
              /\ JS.prop "amount" (JS.jsonify e') = JNum x
              /\ entries (loaded (snd (updateEntry id input w)))
                 = map JS.jsonify (filter finite_amount pre)
                   ++ JS.jsonify e'
                   :: map JS.jsonify (filter finite_amount post))).
Proof.
  intros id input w d x.
  destruct (load_facts w) as (_ & Hboth & Hstored & _). fold d in Hboth, Hstored.
  split.
  - intros Hbad.
    destruct (existsb (has_id id) (entries d)) eqn:He.
    + destruct (existsb (has_id (in_categoryId input)) (categories d)) eqn:Hc.
      * rewrite (updateEntry_rejects_amount id input w He Hc Hbad). simpl.
        split; [discriminate|]. repeat split; try assumption; discriminate.
      * rewrite updateEntry_eq. cbv zeta. fold d.
        rewrite find_existsb in He.
        destruct (find (has_id id) (entries d)); [|discriminate].
        rewrite Hc. simpl.
        split; [discriminate|]. repeat split; try assumption; discriminate.
    + rewrite (updateEntry_unknown_entry id input w He). simpl.
      split; [discriminate|]. repeat split; try assumption; discriminate.
  - intros Hfin Hpos Hc. apply above_zero_not_below in Hpos.
    assert (Hx : JS.jsonify_number x = JNum x)
      by now apply exact_number_jsonify, positive_exact.
    split; [exact Hx|]. split.
    + destruct (addEntry_stores_amount input w Hc Hfin Hpos) as (e & He & Ha & _).
      fold d in He.
      destruct (run_settled (AddEntry input) w) as [Hok Hset].
      cbn [run] in Hok, Hset.
      assert (Hboth' : has_each_type (categories (fst (addEntry input w))) = true)
        by now rewrite addEntry_keeps_categories.
      exists e. split; [exact He|]. split; [exact Ha|]. split; [exact Hset|].
      assert (Heok : entry_ok e = true).
      { apply andb_true_iff in Hok as [_ Hents]. rewrite He in Hents.
        simpl in Hents. now apply andb_true_iff in Hents as [Heok _]. }
      destruct (jsonify_entry e Heok) as (_ & _ & _ & _ & _ & Hj).
      split; [now rewrite (Hj x Ha)|].
      unfold loaded. rewrite (load_saved _ _ Hok Hboth' Hset). cbn [fst entries].
      rewrite He. simpl. now rewrite (finite_amount_prop e x Ha Hfin).
    + intros He.
      destruct (updateEntry_stores_amount id input w He Hc Hfin Hpos)
        as (pre & e & post & Hsplit & Herr & Hent & Ha & _).
      fold d in Hsplit.
      destruct (run_settled (UpdateEntry id input) w) as [Hok Hset].
      destruct (run_updateEntry id input w) as [Hr Hw].
      rewrite Hr in Hok. rewrite Hr, Hw in Hset.
      assert (Hboth' : has_each_type
                         (categories (data (fst (updateEntry id input w))))
                       = true)
        by now rewrite updateEntry_keeps_categories.
      exists pre, post, e, (overwrite input e).
      split; [exact Hsplit|]. split; [exact Herr|]. split; [exact Hent|].
      split; [exact Ha|]. split; [exact Hset|].
      assert (Heok : entry_ok (overwrite input e) = true).
      { apply andb_true_iff in Hok as [_ Hents].
        rewrite forallb_forall in Hents. apply Hents.
        rewrite Hent. apply in_elt. }
      destruct (jsonify_entry _ Heok) as (_ & _ & _ & _ & _ & Hj).
      split; [now rewrite (Hj x Ha)|].
      unfold loaded. rewrite (load_saved _ _ Hok Hboth' Hset). cbn [fst entries].
      rewrite Hent, (filter_elt _ _ _ _ (finite_amount_prop _ x Ha Hfin)).
      now rewrite map_app.
Qed.

Lemma amount_validation_witness :
  (PrimFloat.leb 0 0 = true
   /\ existsb (has_id "entry_c2d7") (entries (loaded one_entry_world)) = true
   /\ error (fst (updateEntry "entry_c2d7"
                    (mkInput income "cat_3f0c" 0 "2024-01-05" (Some ""))
                    one_entry_world))
      = Some err_amount)
  /\ (PrimFloat.ltb 0 1000 = true
      /\ exists e : JSValue,
           entries (fst (addEntry salary_input first_world))
           = e :: entries (loaded first_world)
           /\ JS.prop "amount" e = JNum 1000
           /\ settings (snd (addEntry salary_input first_world))
              = JSON_stringify
                  (data_value (fst (addEntry salary_input first_world)))
           /\ JS.prop "amount" (JS.jsonify e) = JNum 1000
           /\ entries (loaded (snd (addEntry salary_input first_world)))
              = JS.jsonify e
                :: map JS.jsonify
                     (filter finite_amount (entries (loaded first_world))))
  /\ (PrimFloat.ltb 0 2.5 = true
      /\ exists (pre post : list JSValue) (e e' : JSValue),
           entries (loaded one_entry_world) = pre ++ e :: post
           /\ error (fst (updateEntry "entry_c2d7"
                            (mkInput income "cat_3f0c" 2.5 "2024-01-05" None)
                            one_entry_world)) = None
           /\ entries (data (fst (updateEntry "entry_c2d7"
                            (mkInput income "cat_3f0c" 2.5 "2024-01-05" None)
                            one_entry_world)))
              = pre ++ e' :: post
           /\ JS.prop "amount" e' = JNum 2.5
           /\ settings (snd (updateEntry "entry_c2d7"
                            (mkInput income "cat_3f0c" 2.5 "2024-01-05" None)
                            one_entry_world))
              = JSON_stringify
                  (data_value
                     (data (fst (updateEntry "entry_c2d7"
                            (mkInput income "cat_3f0c" 2.5 "2024-01-05" None)
                            one_entry_world))))
           /\ JS.prop "amount" (JS.jsonify e') = JNum 2.5
           /\ entries (loaded (snd (updateEntry "entry_c2d7"
                            (mkInput income "cat_3f0c" 2.5 "2024-01-05" None)
                            one_entry_world)))
              = map JS.jsonify (filter finite_amount pre)
                ++ JS.jsonify e'
                :: map JS.jsonify (filter finite_amount post)).
Proof.
  split; [|split].
  - split; [reflexivity|]. split; [reflexivity|].
    refine (proj1 (proj2 (proj2 (proj2 (proj2
              (proj1 (amount_validation "entry_c2d7"
                        (mkInput income "cat_3f0c" 0 "2024-01-05" (Some ""))
                        one_entry_world) _))))) eq_refl eq_refl).
    right; reflexivity.
  - split; [reflexivity|].
    exact (proj1 (proj2 (proj2 (amount_validation "" salary_input first_world)
                           eq_refl eq_refl eq_refl))).
  - split; [reflexivity|].
    exact (proj2 (proj2 (proj2 (amount_validation "entry_c2d7"
                            (mkInput income "cat_3f0c" 2.5 "2024-01-05" None)
                            one_entry_world)
                           eq_refl eq_refl eq_refl)) eq_refl).
Defined.

(** ** The entry form: saving *)

(** X18. The entry form guards the amount.  With an amount that is not
    finite or not above zero [saveEntry] shows "enter an amount greater than
    0", stays on the form and does not touch the store.  Whatever it is
    given, if every stored entry had a finite amount above zero before the
    call, every stored entry has one after it. *)
Theorem saveEntry_guards_amounts :
  forall (amount : float) (s : EntryForm.State) (w : World),
    (negb (JS.Number_isFinite amount) || PrimFloat.leb amount 0 = true ->
     EntryForm.saveEntry amount s w
     = ((EntryForm.set_entryError err_amount s, false), w))
    /\ (forallb amount_ok (entries (loaded w)) = true ->
        forallb amount_ok
          (entries (loaded (snd (EntryForm.saveEntry amount s w)))) = true).
Proof.
  intros amount s w. unfold EntryForm.saveEntry. cbv zeta. split.
  - intros ->. reflexivity.
  - intros Ha.
    destruct (negb (JS.Number_isFinite amount) || PrimFloat.leb amount 0)
      eqn:Hbad; [exact Ha|].
    apply orb_false_iff in Hbad as [Hf Hp]. apply negb_false_iff in Hf.
    destruct (at_index _ _) as [category|]; [|exact Ha].
    set (input := mkInput _ _ amount _ _).
    destruct (load_facts w) as (_ & Hboth & _).
    destruct (EntryForm.currentEntry _) as [entry|].
    + set (id := string_value (JS.prop "id" entry)).
      destruct (run_updateEntry id input w) as [Hr Hw].
      assert (H : forallb amount_ok
                    (entries (loaded (snd (updateEntry id input w)))) = true).
      { rewrite <- Hw. apply stored_amounts_ok; [exact Ha|exact I|].
        now rewrite Hr, updateEntry_keeps_categories. }
      unfold bind. destruct (updateEntry id input w) as [r w1]. cbn [snd] in H.
      now destruct (error r).
    + assert (H : forallb amount_ok
                    (entries (loaded (snd (addEntry input w)))) = true).
      { apply (stored_amounts_ok (AddEntry input) w Ha); [now split|].
        cbn [run]. now rewrite addEntry_keeps_categories. }
      unfold bind. now destruct (addEntry input w) as [r w1].
Qed.

Lemma saveEntry_guards_amounts_witness :
  negb (JS.Number_isFinite (-5)) || PrimFloat.leb (-5) 0 = true
  /\ snd (EntryForm.saveEntry (-5)
            (EntryForm.mkState (categories (loaded first_world)) None 1 0 ""
                               (ListView.mkDate 2024 0 5) "")
            first_world)
     = first_world.
Proof.
  split; [reflexivity|].
  exact (f_equal snd
           (proj1 (saveEntry_guards_amounts (-5)
                     (EntryForm.mkState (categories (loaded first_world)) None
                                        1 0 "" (ListView.mkDate 2024 0 5) "")
                     first_world) eq_refl)).
Defined.

(** ** The category form *)

(** The document [addCategory] stored, as the next load reads it. *)
Lemma after_addCategory name t w :
  JS.trim name <> "" ->
  loaded (snd (addCategory name t w))
  = mkData (map JS.jsonify (categories (loaded w))
            ++ [JS.jsonify (category_value (next_id "cat" (after_load w))
                                           (JS.trim name) t)])
           (map JS.jsonify (filter finite_amount (entries (loaded w)))).
Proof.
  intros Hname.
  destruct (run_settled (AddCategory name t) w) as [Hok1 Hset1].
  cbn [run] in Hok1, Hset1. revert Hok1 Hset1.
  rewrite addCategory_eq. apply String.eqb_neq in Hname. rewrite Hname.
  cbv zeta. cbn [fst snd]. intros Hok1 Hset1.
  assert (Hb1 : has_each_type
                  (categories (loaded w)
                   ++ [category_value (next_id "cat" (after_load w))
                                      (JS.trim name) t]) = true).
  { apply has_each_type_counts. intros ty. rewrite count_type_app.
    pose proof (loaded_counts w ty). lia. }
  unfold loaded at 1. rewrite (load_saved _ _ Hok1 Hb1 Hset1).
  cbn [fst categories entries]. now rewrite map_app.
Qed.

(** X19. The category form never fails silently.  With a name that trims
    to the empty string [saveCategory] shows "enter a category name" and
    does not touch the store.  Otherwise, when no category is being edited,
    the list it shows afterwards is the earlier one followed by one new
    category with the trimmed name and the chosen type, and no error is
    shown: trimming in the form and again in [addCategory] is trimming
    once. *)
Theorem saveCategory_never_silent :
  forall (categoryId : option string) (s : CategoryForm.State) (w : World),
    let s' := fst (CategoryForm.saveCategory categoryId s w) in
    let w' := snd (CategoryForm.saveCategory categoryId s w) in
    (JS.trim (CategoryForm.categoryName s) = "" ->
     w' = w
     /\ CategoryForm.categoryError s' = err_category_name
     /\ CategoryForm.categories_ref s' = CategoryForm.categories_ref s
     /\ CategoryForm.categoryName s' = CategoryForm.categoryName s)
    /\ (JS.trim (CategoryForm.categoryName s) <> "" ->
        CategoryForm.present (CategoryForm.editingCategoryId s) = None ->
        CategoryForm.categoryError s' = ""
        /\ exists c : JSValue,
             CategoryForm.categories_ref s'
             = map JS.jsonify (categories (loaded w)) ++ [c]
             /\ JS.prop "name" c = JStr (JS.trim (CategoryForm.categoryName s))
             /\ JS.prop "type" c
                = JStr (type_string (CategoryForm.categoryType s))).
Proof.
  intros categoryId s w s' w'. subst s' w'.
  unfold CategoryForm.saveCategory. cbv zeta. cbn [CategoryForm.categoryName].
  split.
  - intros ->. cbn. auto.
  - intros Hname Hed. pose proof Hname as Hn. apply String.eqb_neq in Hn.
    rewrite Hn. cbn [CategoryForm.editingCategoryId]. rewrite Hed.
    set (name := JS.trim (CategoryForm.categoryName s)) in *.
    set (t := CategoryForm.categoryType _).
    assert (Ht : t = CategoryForm.categoryType s) by reflexivity.
    assert (Hname' : JS.trim name <> "")
      by (unfold name; now rewrite trim_twice).
    pose proof (after_addCategory name t w Hname') as HL.
    unfold name in HL at 2. rewrite trim_twice in HL. fold name in HL.
    set (c0 := category_value (next_id "cat" (after_load w)) name t) in HL.
    destruct (jsonify_category c0 (category_value_ok _ _ _))
      as (_ & _ & Hcn & Hct).
    unfold CategoryForm.refreshData, bind.
    destruct (addCategory name t w) as [d1 w1].
    cbn [snd] in HL. unfold loaded in *.
    destruct (loadFinanceData w1) as [data w2]. cbn [fst] in HL. subst data.
    cbn [categories CategoryForm.editingCategoryId].
    rewrite Hed.
    assert (Hany :
      forall st : CategoryForm.State * World,
        (st = (CategoryForm.mkState
                 (map JS.jsonify (categories (fst (loadFinanceData w)))
                  ++ [JS.jsonify c0])
                 (CategoryForm.categoryTypeIndex s) "" "" 
                 (CategoryForm.editingCategoryId s), w2)
         \/ exists target,
              st = (CategoryForm.startEdit target
                      (CategoryForm.mkState
                         (map JS.jsonify (categories (fst (loadFinanceData w)))
                          ++ [JS.jsonify c0])
                         (CategoryForm.categoryTypeIndex s) "" ""
                         (CategoryForm.editingCategoryId s)), w2)) ->
        CategoryForm.categoryError (fst st) = ""
        /\ exists c,
             CategoryForm.categories_ref (fst st)
             = map JS.jsonify (categories (fst (loadFinanceData w))) ++ [c]
             /\ JS.prop "name" c = JStr name
             /\ JS.prop "type" c = JStr (type_string t)).
    { intros st [-> | [target ->]]; cbn; (split; [reflexivity|]);
        exists (JS.jsonify c0); now rewrite Hcn, Hct. }
    apply Hany.
    destruct (CategoryForm.present categoryId) as [pid|]; [|now left].
    destruct (find (has_id pid) _) as [target|];
      [right; exists target; reflexivity|now left].
Qed.

Lemma saveCategory_never_silent_witness :
  JS.trim "  " = ""
  /\ snd (CategoryForm.saveCategory None
            (CategoryForm.mkState (categories (loaded first_world)) 0 "  " ""
                                  None)
            first_world)
     = first_world.
Proof.
  split; [reflexivity|].
  exact (proj1 (proj1 (saveCategory_never_silent None
                         (CategoryForm.mkState (categories (loaded first_world))
                                               0 "  " "" None)
                         first_world) eq_refl)).
Defined.
